(** * Habit tracker: the analytics/state engine of [DataService]

    A shallow embedding of [src/models/Habit.ts] and of the [DataService]
    class of [src/settings.ts], with the properties of the streak, badge,
    freeze-day, log and import operations.

    Conventions of the embedding.
    - A JavaScript [Date] is its time value: milliseconds since the epoch, in
      [Z].  [toISOString] prints the UTC day; [setDate], [getDay] and the
      like work on the local day of the host.  The modules [JS] and
      [Queries] have these operations as they are on a host whose local
      time is UTC; the module [Host] has them for any zone, and the
      properties that depend on the zone are stated there.  The finite
      range of time values (±8.64e15 ms) is not modelled: the calendar
      extends over all of [Z].
    - Strings are [string]; arrays are [list]; an optional field is an
      [option]; a field that the code guards with [|| []] may be absent.
    - [async] methods run to completion; a rejected [save] is an exception
      outcome of the operation that awaited it. *)

From Stdlib Require Import ZArith List Bool Lia String Ascii PeanoNat.
From Stdlib Require Import DecimalString DecimalN.
Import ListNotations.

Local Open Scope string_scope.
Local Open Scope Z_scope.

(** ** JavaScript [Date] and [String] primitives used by the service *)

Module JS.

Definition msPerDay : Z := 86400000.

(** Day number (days since 1970-01-01) of a time value. *)
Definition dayNumber (t : Z) : Z := t / msPerDay.

(** [d.getDay()] on a host whose local time is UTC ([Host.getDay] for any
    zone): 0 = Sunday; 1970-01-01 was a Thursday. *)
Definition getDay (t : Z) : Z := (dayNumber t + 4) mod 7.

(** [d.setDate(d.getDate() - 1)] on a host whose local time is UTC
    ([Host.setDate_pred] for any zone): the same time of day, one day
    earlier. *)
Definition setDate_pred (t : Z) : Z := t - msPerDay.

(** Proleptic Gregorian calendar date (year, month 1-12, day 1-31) of a day
    number. *)
Definition civil_from_days (n : Z) : Z * Z * Z :=
  let z := n + 719468 in
  let era := z / 146097 in
  let doe := z mod 146097 in
  let yoe := (doe - doe / 1460 + doe / 36524 - doe / 146096) / 365 in
  let doy := doe - (365 * yoe + yoe / 4 - yoe / 100) in
  let mp := (5 * doy + 2) / 153 in
  let d := doy - (153 * mp + 2) / 5 + 1 in
  let m := if mp <? 10 then mp + 3 else mp - 9 in
  (if m <=? 2 then yoe + era * 400 + 1 else yoe + era * 400, m, d).

(** Day number of a calendar date. *)
Definition days_from_civil (y m d : Z) : Z :=
  let y' := if m <=? 2 then y - 1 else y in
  let era := y' / 400 in
  let yoe := y' mod 400 in
  let doy := (153 * (if 2 <? m then m - 3 else m + 9) + 2) / 5 + d - 1 in
  let doe := yoe * 365 + yoe / 4 - yoe / 100 + doy in
  era * 146097 + doe - 719468.

Fixpoint zeros (k : nat) : string :=
  match k with
  | O => ""
  | S k' => String "0" (zeros k')
  end.

(** [s.padStart(w, '0')] *)
Definition padStart (w : nat) (s : string) : string :=
  zeros (w - String.length s) ++ s.

(** Decimal digits of a non-negative integer. *)
Definition dec (n : Z) : string :=
  NilEmpty.string_of_uint (N.to_uint (Z.to_N n)).

(** Year field of [toISOString]: four digits for years 0 to 9999, otherwise a
    sign and six digits. *)
Definition yearStr (y : Z) : string :=
  if (0 <=? y) && (y <=? 9999) then padStart 4 (dec y)
  else (if y <? 0 then "-" else "+") ++ padStart 6 (dec (Z.abs y)).

Definition isoDate (n : Z) : string :=
  let '(y, m, d) := civil_from_days n in
  yearStr y ++ "-" ++ padStart 2 (dec m) ++ "-" ++ padStart 2 (dec d).

Definition isoTime (r : Z) : string :=
  padStart 2 (dec (r / 3600000)) ++ ":" ++
  padStart 2 (dec (r / 60000 mod 60)) ++ ":" ++
  padStart 2 (dec (r / 1000 mod 60)) ++ "." ++
  padStart 3 (dec (r mod 1000)).

(** [d.toISOString()] *)
Definition toISOString (t : Z) : string :=
  isoDate (dayNumber t) ++ "T" ++ isoTime (t mod msPerDay) ++ "Z".

(** [s.split('T')[0]]: the part of [s] before the first ['T']. *)
Fixpoint beforeT (s : string) : string :=
  match s with
  | EmptyString => EmptyString
  | String c s' => if Ascii.eqb c "T" then EmptyString else String c (beforeT s')
  end.

(** [a.localeCompare(b)] on the strings that the collation of the host
    orders as their code units do: the dates [YYYY-MM-DD] among them.
    Other strings, such as a year of six digits with its sign, the
    collation may order otherwise; what depends on the order is stated for
    the dates [YYYY-MM-DD]. *)
Fixpoint localeCompare (a b : string) : comparison :=
  match a, b with
  | EmptyString, EmptyString => Eq
  | EmptyString, String _ _ => Lt
  | String _ _, EmptyString => Gt
  | String x a', String y b' =>
      match Nat.compare (nat_of_ascii x) (nat_of_ascii y) with
      | Eq => localeCompare a' b'
      | c => c
      end
  end.

(** [a <= b] on strings (code-unit order). *)
Definition str_le (a b : string) : bool :=
  match localeCompare a b with Gt => false | _ => true end.

(** [arr.sort(cmp)] is a stable sort: insertion into the sorted tail, an
    element going after the ones it does not precede. *)
Section Sort.
Context {A : Type} (cmp : A -> A -> comparison).

Fixpoint insert (x : A) (l : list A) : list A :=
  match l with
  | [] => [x]
  | y :: l' =>
      match cmp x y with
      | Gt => y :: insert x l'
      | _ => x :: l
      end
  end.

Definition sort (l : list A) : list A := fold_right insert [] l.
End Sort.

(** Value of a string of decimal digits. *)
Definition digitVal (c : ascii) : option Z :=
  let n := nat_of_ascii c in
  if (48 <=? n)%nat && (n <=? 57)%nat then Some (Z.of_nat (n - 48)) else None.

Fixpoint digitsVal (s : string) (acc : Z) : option Z :=
  match s with
  | EmptyString => Some acc
  | String c s' =>
      match digitVal c with
      | Some v => digitsVal s' (10 * acc + v)
      | None => None
      end
  end.

(** The date-only forms of the ECMAScript date-time string format,
    [YYYY-MM-DD] and [±YYYYYY-MM-DD], read as UTC midnight: the time value of
    a date that exists in the calendar and lies in the range of [Date]. *)
Definition isoDateOfFields (sign : Z) (ys rest : string) : option Z :=
  match rest with
  | String "-" (String m1 (String m2 (String "-" (String d1 (String d2 EmptyString))))) =>
      match digitsVal ys 0, digitsVal (String m1 (String m2 EmptyString)) 0,
            digitsVal (String d1 (String d2 EmptyString)) 0 with
      | Some y, Some m, Some d =>
          let n := days_from_civil (sign * y) m d in
          if (1 <=? m) && (m <=? 12) && (1 <=? d) && (d <=? 31)
             && (let '(y', m', d') := civil_from_days n in
                 (y' =? sign * y) && (m' =? m) && (d' =? d))
             && (Z.abs n <=? 100000000)
             && negb ((sign =? -1) && (y =? 0))
          then Some (n * msPerDay) else None
      | _, _, _ => None
      end
  | _ => None
  end.

Definition parseIsoDate (s : string) : option Z :=
  match s with
  | String "+" r => if (String.length r =? 12)%nat
                    then isoDateOfFields 1 (substring 0 6 r) (substring 6 6 r) else None
  | String "-" r => if (String.length r =? 12)%nat
                    then isoDateOfFields (-1) (substring 0 6 r) (substring 6 6 r) else None
  | _ => if (String.length s =? 10)%nat
         then isoDateOfFields 1 (substring 0 4 s) (substring 4 6 s) else None
  end.

(** [arr.push(x)] *)
Definition push {A : Type} (x : A) (arr : list A) : list A := (arr ++ [x])%list.

(** [Math.round(a / b)] for integers [a] and [b > 0]: nearest integer, ties
    upward. *)
Definition round_div (a b : Z) : Z := (2 * a + b) / (2 * b).

End JS.

(** ** [src/models/Habit.ts]: the data model *)

Module Model.
Import JS.

Inductive HabitFrequency := daily | weekly | custom.
Inductive BadgeType := week | month | century | year.

Record Category := mkCategory {
  c_id : string;
  c_name : string;
  c_color : string;
  c_emoji : option string;
  c_order : Z
}.

Record Habit := mkHabit {
  h_id : string;
  h_name : string;
  h_description : option string;
  h_emoji : option string;
  frequency : HabitFrequency;
  customDays : option (list Z);
  categoryId : option string;
  goalDays : option Z;
  createdAt : string;
  archived : bool;
  order : Z
}.

Record HabitLog := mkLog {
  l_date : string;
  l_habitId : string;
  completed : bool;
  note : option string;
  completedAt : option string
}.

Record FreezeDay := mkFreezeDay {
  f_date : string;
  reason : option string
}.

Record Badge := mkBadge {
  b_id : string;
  b_habitId : string;
  b_type : BadgeType;
  earnedAt : string
}.

(** [categories], [freezeDays], [badges] and [version] are the fields the
    service reads with a fallback ([this.data.badges || []]): [None] is a
    field that holds [null]. *)
Record HabitData := mkData {
  habits : list Habit;
  logs : list HabitLog;
  categories : option (list Category);
  freezeDays : option (list FreezeDay);
  badges : option (list Badge);
  version : option Z
}.

Record Milestone := mkMilestone {
  m_type : BadgeType;
  days : Z;
  m_emoji : string;
  label : string
}.

Definition BADGE_MILESTONES : list Milestone :=
  [ mkMilestone week 7 "🔥" "First Week";
    mkMilestone month 30 "⭐" "Monthly Master";
    mkMilestone century 100 "💎" "Century Club";
    mkMilestone year 365 "👑" "Year Champion" ].

Definition DEFAULT_HABIT_DATA : HabitData :=
  {| habits := []; logs := []; categories := Some []; freezeDays := Some [];
     badges := Some []; version := Some 2 |}.

Definition BadgeType_eqb (a b : BadgeType) : bool :=
  match a, b with
  | week, week | month, month | century, century | year, year => true
  | _, _ => false
  end.

(** [createHabitLog(habitId, date, completed, note)], at time [now]. *)
Definition createHabitLog (now : Z) (habitId date : string) (completed : bool)
    (note : option string) : HabitLog :=
  {| l_date := date;
     l_habitId := habitId;
     completed := completed;
     note := note;
     completedAt := if completed then Some (toISOString now) else None |}.

(** [formatDate(date)]: [date.toISOString().split('T')[0]]. *)
Definition formatDate (date : Z) : string := beforeT (toISOString date).

(** [arr.includes(x)] on an array of numbers. *)
Definition includes (arr : list Z) (x : Z) : bool := existsb (Z.eqb x) arr.

Definition isHabitDueOnDate (habit : Habit) (date : Z) : bool :=
  let dayOfWeek := getDay date in
  match frequency habit with
  | daily => true
  | weekly =>
      match customDays habit with
      | Some cd => includes cd dayOfWeek
      | None => dayOfWeek =? 0
      end
  | custom =>
      match customDays habit with
      | Some cd => includes cd dayOfWeek
      | None => false
      end
  end.

Definition createFreezeDay (date : string) (reason : option string) : FreezeDay :=
  {| f_date := date; reason := reason |}.

(** [createBadge(habitId, type)], with the identifier [generateId()] returned
    and at time [now]. *)
Definition createBadge (id : string) (now : Z) (habitId : string)
    (type : BadgeType) : Badge :=
  {| b_id := id; b_habitId := habitId; b_type := type;
     earnedAt := toISOString now |}.

Definition isFrozenDate (date : string) (freezeDays : list FreezeDay) : bool :=
  existsb (fun f => String.eqb (f_date f) date) freezeDays.

End Model.

(** ** [src/settings.ts], class [DataService]: the queries

    The queries read the snapshot [this.data]; here they take its content
    [d].  The time of the call, [now], is what [new Date()] returns. *)

Module Queries.
Import JS Model.

(** An optional string argument used as a condition: [undefined] and the
    empty string are falsy. *)
Definition truthy (o : option string) : bool :=
  match o with
  | Some s => negb (String.eqb s "")
  | None => false
  end.

Definition byDateDesc (a b : HabitLog) : comparison :=
  localeCompare (l_date b) (l_date a).

Definition byDateAsc (a b : HabitLog) : comparison :=
  localeCompare (l_date a) (l_date b).

Definition getHabit (d : HabitData) (id : string) : option Habit :=
  find (fun h => String.eqb (h_id h) id) (habits d).

Definition strArg (o : option string) : string :=
  match o with Some s => s | None => "" end.

(** The array that [getLogs] sorts and returns, before the sort. *)
Definition selectLogs (d : HabitData) (habitId startDate endDate : option string)
    : list HabitLog :=
  let logs := logs d in
  let logs := if truthy habitId
              then filter (fun l => String.eqb (l_habitId l) (strArg habitId)) logs
              else logs in
  let logs := if truthy startDate
              then filter (fun l => str_le (strArg startDate) (l_date l)) logs
              else logs in
  let logs := if truthy endDate
              then filter (fun l => str_le (l_date l) (strArg endDate)) logs
              else logs in
  logs.

Definition getLogs (d : HabitData) (habitId startDate endDate : option string)
    : list HabitLog :=
  sort byDateDesc (selectLogs d habitId startDate endDate).

(** Whether the array that [getLogs] sorts is [this.data.logs] itself: no
    [filter] has made a copy. *)
Definition sortsInPlace (habitId startDate endDate : option string) : bool :=
  negb (truthy habitId || truthy startDate || truthy endDate).

Definition getLog (d : HabitData) (habitId date : string) : option HabitLog :=
  find (fun l => String.eqb (l_habitId l) habitId && String.eqb (l_date l) date)
       (logs d).

Definition orEmpty {A : Type} (o : option (list A)) : list A :=
  match o with Some l => l | None => [] end.

Definition isFrozen (d : HabitData) (date : string) : bool :=
  isFrozenDate date (orEmpty (freezeDays d)).

Definition hasBadge (d : HabitData) (habitId : string) (type : BadgeType) : bool :=
  existsb (fun b => String.eqb (b_habitId b) habitId && BadgeType_eqb (b_type b) type)
          (orEmpty (badges d)).

(** *** The backward walks

    One evaluation of the body of [while (true)]: either the loop is left
    with the streak, or it goes on with a new [currentDate] and [streak]. *)
Inductive Step := Break (streak : Z) | Continue (currentDate streak : Z).

(** [logs.find((l) => l.date === dateStr)] followed by [log && log.completed] *)
Definition completedOn (logs : list HabitLog) (dateStr : string) : bool :=
  match find (fun l => String.eqb (l_date l) dateStr) logs with
  | Some log => completed log
  | None => false
  end.

(** The end of the loop body: [if (streak > 3650) break;] *)
Definition safetyLimit (currentDate streak : Z) : Step :=
  if 3650 <? streak then Break streak else Continue currentDate streak.

(** The [else] branch shared by the two walks: the day has no completed log. *)
Definition missedDay (habit : Habit) (currentDate streak : Z) : Step :=
  match frequency habit with
  | daily => Break streak
  | _ =>
      match customDays habit with
      | Some cd =>
          let dayOfWeek := getDay currentDate in
          if includes cd dayOfWeek then Break streak
          else safetyLimit (setDate_pred currentDate) streak
      | None => Break streak
      end
  end.

Definition streakBody (logs : list HabitLog) (habit : Habit)
    (currentDate streak : Z) : Step :=
  let dateStr := formatDate currentDate in
  if completedOn logs dateStr
  then safetyLimit (setDate_pred currentDate) (streak + 1)
  else missedDay habit currentDate streak.

Definition freezeBody (d : HabitData) (logs : list HabitLog) (habit : Habit)
    (currentDate streak : Z) : Step :=
  let dateStr := formatDate currentDate in
  let frozen := isFrozen d dateStr in
  if frozen then Continue (setDate_pred currentDate) streak
  else if completedOn logs dateStr
  then safetyLimit (setDate_pred currentDate) (streak + 1)
  else missedDay habit currentDate streak.

(** [while (true) { body }], run for at most [fuel] evaluations of the body:
    [None] when the loop has not been left by then. *)
Fixpoint while (body : Z -> Z -> Step) (fuel : nat) (currentDate streak : Z)
    : option Z :=
  match fuel with
  | O => None
  | S fuel' =>
      match body currentDate streak with
      | Break n => Some n
      | Continue currentDate' streak' => while body fuel' currentDate' streak'
      end
  end.

Definition completedLogs (d : HabitData) (habitId : string) : list HabitLog :=
  filter completed (getLogs d (Some habitId) None None).

Definition getCurrentStreak (fuel : nat) (d : HabitData) (now : Z)
    (habitId : string) : option Z :=
  let logs := completedLogs d habitId in
  if (List.length logs =? 0)%nat then Some 0 else
  match getHabit d habitId with
  | None => Some 0
  | Some habit =>
      let today := now in
      let todayLog := find (fun l => String.eqb (l_date l) (formatDate today)) logs in
      let currentDate :=
        match todayLog with
        | None => setDate_pred today
        | Some _ => today
        end in
      while (streakBody logs habit) fuel currentDate 0
  end.

Definition getCurrentStreakWithFreeze (fuel : nat) (d : HabitData) (now : Z)
    (habitId : string) : option Z :=
  let logs := completedLogs d habitId in
  if (List.length logs =? 0)%nat then Some 0 else
  match getHabit d habitId with
  | None => Some 0
  | Some habit =>
      let today := now in
      let todayStr := formatDate today in
      let todayLog := find (fun l => String.eqb (l_date l) todayStr) logs in
      let todayFrozen := isFrozen d todayStr in
      let currentDate :=
        match todayLog with
        | None => if todayFrozen then today else setDate_pred today
        | Some _ => today
        end in
      while (freezeBody d logs habit) fuel currentDate 0
  end.

(** *** Longest streak *)

Section LongestStreak.
(** [new Date(s).getTime()] for a string that is not a date-only ISO
    string: left to the host ([None] is [NaN]). *)
Variable hostDateParse : string -> option Z.

Definition Date_getTime (s : string) : option Z :=
  match parseIsoDate s with
  | Some t => Some t
  | None => hostDateParse s
  end.

(** [Math.round((curr - prev) / (1000 * 60 * 60 * 24)) === 1], false when
    a time value is [NaN]. *)
Definition nextDay (prev curr : HabitLog) : bool :=
  match Date_getTime (l_date prev), Date_getTime (l_date curr) with
  | Some p, Some c => round_div (c - p) (1000 * 60 * 60 * 24) =? 1
  | _, _ => false
  end.

(** The [for] loop, from index [i] on: [prev] is [logs[i - 1]] and [rest]
    is [logs[i..]]. *)
Fixpoint scan (prev : HabitLog) (rest : list HabitLog)
    (longestStreak currentStreak : Z) : Z :=
  match rest with
  | [] => longestStreak
  | curr :: rest' =>
      if nextDay prev curr
      then scan curr rest' (Z.max longestStreak (currentStreak + 1)) (currentStreak + 1)
      else scan curr rest' longestStreak 1
  end.

Definition getLongestStreak (d : HabitData) (habitId : string) : Z :=
  let logs := sort byDateAsc (completedLogs d habitId) in
  match logs with
  | [] => 0
  | first :: rest => scan first rest 1 1
  end.
End LongestStreak.

End Queries.

(** ** [src/settings.ts], class [DataService]: the state and the operations

    [DEFAULT_HABIT_DATA] is one module-level object.  The constructor sets
    [this.data = DEFAULT_HABIT_DATA], and [{...DEFAULT_HABIT_DATA, ...imported}]
    copies the default's array references into the new object for the fields
    that [imported] lacks: [this.data] is the default object itself, or an
    object some of whose fields are the default's arrays. *)

Module Service.
Import JS Model Queries.

(** A field of [this.data]: the very array held by the same field of
    [DEFAULT_HABIT_DATA], or a value of its own. *)
Inductive Slot (A : Type) := Shared | Own (a : A).
Arguments Shared {A}.
Arguments Own {A} a.

Definition slot {A : Type} (dflt : A) (s : Slot A) : A :=
  match s with Shared => dflt | Own a => a end.

Record DataObject := mkObject {
  o_habits : Slot (list Habit);
  o_logs : Slot (list HabitLog);
  o_categories : Slot (option (list Category));
  o_freezeDays : Slot (option (list FreezeDay));
  o_badges : Slot (option (list Badge));
  o_version : option Z
}.

Inductive DataRef := TheDefault | Object (o : DataObject).

(** The service and its host.
    - [defaults]: the present content of the object [DEFAULT_HABIT_DATA];
    - [this_data]: what [this.data] refers to;
    - [clock]: the time [new Date()] returns;
    - [idSource], [idsDrawn]: the strings [generateId()] returns, and how
      many have been drawn;
    - [stored]: what [plugin.saveData] wrote last;
    - [saveFails]: for the coming calls of [plugin.saveData], whether the
      call is rejected (none is once the list is used up). *)
Record World := mkWorld {
  defaults : HabitData;
  this_data : DataRef;
  clock : Z;
  idSource : nat -> string;
  idsDrawn : nat;
  stored : option HabitData;
  saveFails : list bool
}.

(** The content of [this.data]. *)
Definition data (w : World) : HabitData :=
  match this_data w with
  | TheDefault => defaults w
  | Object o =>
      {| habits := slot (habits (defaults w)) (o_habits o);
         logs := slot (logs (defaults w)) (o_logs o);
         categories := slot (categories (defaults w)) (o_categories o);
         freezeDays := slot (freezeDays (defaults w)) (o_freezeDays o);
         badges := slot (badges (defaults w)) (o_badges o);
         version := o_version o |}
  end.

Definition set_defaults (d : HabitData) (w : World) : World :=
  mkWorld d (this_data w) (clock w) (idSource w) (idsDrawn w) (stored w) (saveFails w).

Definition set_this_data (r : DataRef) (w : World) : World :=
  mkWorld (defaults w) r (clock w) (idSource w) (idsDrawn w) (stored w) (saveFails w).

Definition set_logs (l : list HabitLog) (d : HabitData) : HabitData :=
  mkData (habits d) l (categories d) (freezeDays d) (badges d) (version d).

Definition set_freezeDays (f : option (list FreezeDay)) (d : HabitData) : HabitData :=
  mkData (habits d) (logs d) (categories d) f (badges d) (version d).

Definition set_badges (b : option (list Badge)) (d : HabitData) : HabitData :=
  mkData (habits d) (logs d) (categories d) (freezeDays d) b (version d).

(** A change made inside the array [this.data.logs] ([push], [sort], a write
    to a field of an element): it is seen through every reference to the
    array. *)
Definition inplace_logs (f : list HabitLog -> list HabitLog) (w : World) : World :=
  match this_data w with
  | TheDefault => set_defaults (set_logs (f (logs (defaults w))) (defaults w)) w
  | Object o =>
      match o_logs o with
      | Shared => set_defaults (set_logs (f (logs (defaults w))) (defaults w)) w
      | Own l =>
          set_this_data
            (Object (mkObject (o_habits o) (Own (f l)) (o_categories o)
                              (o_freezeDays o) (o_badges o) (o_version o))) w
      end
  end.

Definition inplace_freezeDays (f : list FreezeDay -> list FreezeDay) (w : World)
    : World :=
  match this_data w with
  | TheDefault =>
      set_defaults (set_freezeDays (option_map f (freezeDays (defaults w))) (defaults w)) w
  | Object o =>
      match o_freezeDays o with
      | Shared =>
          set_defaults
            (set_freezeDays (option_map f (freezeDays (defaults w))) (defaults w)) w
      | Own l =>
          set_this_data
            (Object (mkObject (o_habits o) (o_logs o) (o_categories o)
                              (Own (option_map f l)) (o_badges o) (o_version o))) w
      end
  end.

Definition inplace_badges (f : list Badge -> list Badge) (w : World) : World :=
  match this_data w with
  | TheDefault =>
      set_defaults (set_badges (option_map f (badges (defaults w))) (defaults w)) w
  | Object o =>
      match o_badges o with
      | Shared =>
          set_defaults (set_badges (option_map f (badges (defaults w))) (defaults w)) w
      | Own l =>
          set_this_data
            (Object (mkObject (o_habits o) (o_logs o) (o_categories o)
                              (o_freezeDays o) (Own (option_map f l)) (o_version o))) w
      end
  end.

(** The assignments [this.data.freezeDays = v] and [this.data.badges = v]:
    the field of the object [this.data] refers to gets a new value. *)
Definition assign_freezeDays (v : option (list FreezeDay)) (w : World) : World :=
  match this_data w with
  | TheDefault => set_defaults (set_freezeDays v (defaults w)) w
  | Object o =>
      set_this_data
        (Object (mkObject (o_habits o) (o_logs o) (o_categories o)
                          (Own v) (o_badges o) (o_version o))) w
  end.

Definition assign_badges (v : option (list Badge)) (w : World) : World :=
  match this_data w with
  | TheDefault => set_defaults (set_badges v (defaults w)) w
  | Object o =>
      set_this_data
        (Object (mkObject (o_habits o) (o_logs o) (o_categories o)
                          (o_freezeDays o) (Own v) (o_version o))) w
  end.

(** *** Operations: a call ends with a value or is rejected, and leaves a
    world. *)
Inductive Outcome (A : Type) := Returned (a : A) | Rejected.
Arguments Returned {A} a.
Arguments Rejected {A}.

Definition M (A : Type) : Type := World -> Outcome A * World.

Definition ret {A : Type} (a : A) : M A := fun w => (Returned a, w).

Definition bind {A B : Type} (m : M A) (k : A -> M B) : M B :=
  fun w =>
    match m w with
    | (Returned a, w') => k a w'
    | (Rejected, w') => (Rejected, w')
    end.

Notation "x <- m ;; k" := (bind m (fun x => k))
  (at level 61, m at next level, right associativity).
Notation "m ;;; k" := (bind m (fun _ => k))
  (at level 61, right associativity).

Definition modify (f : World -> World) : M unit := fun w => (Returned tt, f w).

(** [try { m } catch { return a }] *)
Definition catch {A : Type} (m : M A) (a : A) : M A :=
  fun w =>
    match m w with
    | (Returned x, w') => (Returned x, w')
    | (Rejected, w') => (Returned a, w')
    end.

(** [await this.save()]: [plugin.saveData(this.data)] *)
Definition save : M unit := fun w =>
  match saveFails w with
  | true :: rest =>
      (Rejected,
       mkWorld (defaults w) (this_data w) (clock w) (idSource w) (idsDrawn w)
               (stored w) rest)
  | _ =>
      (Returned tt,
       mkWorld (defaults w) (this_data w) (clock w) (idSource w) (idsDrawn w)
               (Some (data w)) (tl (saveFails w)))
  end.

Definition generateId : M string := fun w =>
  (Returned (idSource w (idsDrawn w)),
   mkWorld (defaults w) (this_data w) (clock w) (idSource w) (S (idsDrawn w))
           (stored w) (saveFails w)).

(** The effect of a call of [getLogs] on [this.data.logs]. *)
Definition getLogs_effect (habitId startDate endDate : option string) (w : World)
    : World :=
  if sortsInPlace habitId startDate endDate
  then inplace_logs (sort byDateDesc) w
  else w.

(** The first element that satisfies [p], changed by [f] where it stands. *)
Fixpoint update_first {A : Type} (p : A -> bool) (f : A -> A) (l : list A)
    : list A :=
  match l with
  | [] => []
  | x :: l' => if p x then f x :: l' else x :: update_first p f l'
  end.

Definition sameLog (habitId date : string) (l : HabitLog) : bool :=
  String.eqb (l_habitId l) habitId && String.eqb (l_date l) date.

Definition toggled (now : Z) (existingLog : HabitLog) : HabitLog :=
  let completed' := negb (completed existingLog) in
  {| l_date := l_date existingLog;
     l_habitId := l_habitId existingLog;
     completed := completed';
     note := note existingLog;
     completedAt := if completed' then Some (toISOString now) else None |}.

Definition toggleHabit (habitId : string) (date : option string) : M HabitLog :=
  fun w =>
    let targetDate := if truthy date then strArg date else formatDate (clock w) in
    match getLog (data w) habitId targetDate with
    | Some existingLog =>
        (modify (inplace_logs
                   (update_first (sameLog habitId targetDate) (toggled (clock w)))) ;;;
         save ;;;
         ret (toggled (clock w) existingLog)) w
    | None =>
        let newLog := createHabitLog (clock w) habitId targetDate true None in
        (modify (inplace_logs (push newLog)) ;;;
         save ;;;
         ret newLog) w
    end.

Definition completionSet (now : Z) (completed : bool) (note : option string)
    (existingLog : HabitLog) : HabitLog :=
  {| l_date := l_date existingLog;
     l_habitId := l_habitId existingLog;
     completed := completed;
     note := note;
     completedAt := if completed then Some (toISOString now) else None |}.

Definition setHabitCompletion (habitId date : string) (completed : bool)
    (note : option string) : M HabitLog :=
  fun w =>
    match getLog (data w) habitId date with
    | Some existingLog =>
        (modify (inplace_logs
                   (update_first (sameLog habitId date)
                                 (completionSet (clock w) completed note))) ;;;
         save ;;;
         ret (completionSet (clock w) completed note existingLog)) w
    | None =>
        let newLog := createHabitLog (clock w) habitId date completed note in
        (modify (inplace_logs (push newLog)) ;;;
         save ;;;
         ret newLog) w
    end.

Definition addFreezeDay (date : string) (reason : option string)
    : M (option FreezeDay) :=
  fun w =>
    let w := match freezeDays (data w) with
             | None => assign_freezeDays (Some []) w
             | Some _ => w
             end in
    if isFrozen (data w) date then (Returned None, w)
    else
      let freezeDay := createFreezeDay date reason in
      (modify (inplace_freezeDays (push freezeDay)) ;;;
       save ;;;
       ret (Some freezeDay)) w.

Definition awardBadge (habitId : string) (type : BadgeType) : M (option Badge) :=
  fun w =>
    let w := match badges (data w) with
             | None => assign_badges (Some []) w
             | Some _ => w
             end in
    if hasBadge (data w) habitId type then (Returned None, w)
    else
      (id <- generateId ;;
       let badge := createBadge id (clock w) habitId type in
       modify (inplace_badges (push badge)) ;;;
       save ;;;
       ret (Some badge)) w.

(** The [for (const milestone of BADGE_MILESTONES)] loop. *)
Fixpoint awardLoop (milestones : list Milestone) (streak : Z) (habitId : string)
    (newBadges : list Badge) : M (list Badge) :=
  match milestones with
  | [] => ret newBadges
  | milestone :: milestones' =>
      fun w =>
        if (days milestone <=? streak)
           && negb (hasBadge (data w) habitId (m_type milestone))
        then
          (badge <- awardBadge habitId (m_type milestone) ;;
           awardLoop milestones' streak habitId
             (match badge with
              | Some b => push b newBadges
              | None => newBadges
              end)) w
        else awardLoop milestones' streak habitId newBadges w
  end.

(** [checkAndAwardBadges(habitId)]; [None] when the walk of
    [getCurrentStreak] is not over after [fuel] evaluations of its body. *)
Definition checkAndAwardBadges (fuel : nat) (habitId : string) (w : World)
    : option (Outcome (list Badge) * World) :=
  match getCurrentStreak fuel (data w) (clock w) habitId with
  | None => None
  | Some streak =>
      Some (awardLoop BADGE_MILESTONES streak habitId []
              (getLogs_effect (Some habitId) None None w))
  end.

(** *** Import *)

(** What a key of the parsed object holds, seen from a field of type [A] of
    [HabitData]: the key is absent; it holds a falsy value ([null],
    [false], [0] or the empty string); it holds a truthy value that is not
    of the type (the string ["none"], the number 7, an object, an array of
    other things); or it holds a value of the type.  [imported as HabitData]
    checks nothing. *)
Inductive Field (A : Type) :=
| Missing
| Falsy
| Untyped
| Typed (a : A).
Arguments Missing {A}.
Arguments Falsy {A}.
Arguments Untyped {A}.
Arguments Typed {A} a.

(** The six keys of [HabitData] in the parsed object.  Keys of other
    names, which the spread copies and no operation reads, are left out. *)
Record Payload := mkPayload {
  p_habits : Field (list Habit);
  p_logs : Field (list HabitLog);
  p_categories : Field (list Category);
  p_freezeDays : Field (list FreezeDay);
  p_badges : Field (list Badge);
  p_version : Field Z
}.

(** What [JSON.parse] does with a text: it throws, or returns [null], an
    object, or another value (a number, a string, a boolean, an array), which
    has no [habits] and no [logs] property. *)
Inductive Parsed :=
| SyntaxError
| JNull
| JOther
| JObject (p : Payload).

(** A property used as a condition, as in [imported.habits && imported.logs] *)
Definition isTruthy {A : Type} (f : Field A) : bool :=
  match f with
  | Missing | Falsy => false
  | Untyped | Typed _ => true
  end.

(** The property of [{ ...DEFAULT_HABIT_DATA, ...imported }] for a key
    of the payload: the default's value when the key is absent, and
    otherwise what the payload holds; [None] when that is no value of the
    field's type. *)
Definition required {A : Type} (f : Field A) : option (Slot A) :=
  match f with
  | Missing => Some Shared
  | Typed a => Some (Own a)
  | Falsy | Untyped => None
  end.

Definition optional {A : Type} (f : Field A) : option (Slot (option A)) :=
  match f with
  | Missing => Some Shared
  | Falsy => Some (Own None)
  | Typed a => Some (Own (Some a))
  | Untyped => None
  end.

Definition versionOf (dflt : HabitData) (f : Field Z) : option (option Z) :=
  match f with
  | Missing => Some (version dflt)
  | Falsy => Some None
  | Typed v => Some (Some v)
  | Untyped => None
  end.

(** [{ ...DEFAULT_HABIT_DATA, ...imported }], when it is a [HabitData]. *)
Definition spread (dflt : HabitData) (imported : Payload) : option DataObject :=
  match required (p_habits imported), required (p_logs imported),
        optional (p_categories imported), optional (p_freezeDays imported),
        optional (p_badges imported), versionOf dflt (p_version imported) with
  | Some habits, Some logs, Some categories, Some freezeDays, Some badges, Some version =>
      Some {| o_habits := habits;
              o_logs := logs;
              o_categories := categories;
              o_freezeDays := freezeDays;
              o_badges := badges;
              o_version := version |}
  | _, _, _, _, _, _ => None
  end.

Section Importing.
Variable JSON_parse : string -> Parsed.

(** [importData(jsonString)].  The world it leaves is [None] when
    [this.data] has become an object that is no [HabitData]: a field holds
    a value that is not of its type, and the operations of the service
    have no meaning on it. *)
Definition importData (jsonString : string) (w : World)
    : Outcome bool * option World :=
  match JSON_parse jsonString with
  | SyntaxError => (Returned false, Some w)
  | JNull => (Returned false, Some w)
  | JOther => (Returned false, Some w)
  | JObject imported =>
      if isTruthy (p_habits imported) && isTruthy (p_logs imported)
      then
        match spread (defaults w) imported with
        | Some o =>
            let '(r, w') :=
              catch (modify (set_this_data (Object o)) ;;; save ;;; ret true)
                    false w in
            (r, Some w')
        | None =>
            (* [this.data] is replaced and saved all the same *)
            match save w with
            | (Returned _, _) => (Returned true, None)
            | (Rejected, _) => (Returned false, None)
            end
        end
      else (Returned false, Some w)
  end.
End Importing.

End Service.

(** ** Auxiliary definitions of the proofs *)

Module Aux.
Import JS.

(** [p] holds at [z], [z + 1], ..., [z + k - 1]. *)
Fixpoint all_from (p : Z -> bool) (k : nat) (z : Z) : bool :=
  match k with
  | O => true
  | S k' => p z && all_from p k' (z + 1)
  end.

(** The calendar date of the day [doe] of the 400-year era that starts on
    0000-03-01 is in range and converts back to the day. *)
Definition civil_ok (doe : Z) : bool :=
  let n := doe - 719468 in
  let '(y, m, d) := civil_from_days n in
  (days_from_civil y m d =? n) && (1 <=? m) && (m <=? 12) && (1 <=? d) && (d <=? 31).

Definition width_ok (w : nat) (n : Z) : bool :=
  (String.length (padStart w (dec n)) =? w)%nat.

(** Reading back a string of decimal digits. *)
Definition undec (s : string) : option Z :=
  option_map (fun u => Z.of_N (N.of_uint u)) (NilEmpty.uint_of_string s).

Fixpoint hasT (s : string) : bool :=
  match s with
  | EmptyString => false
  | String c s' => Ascii.eqb c "T" || hasT s'
  end.

(** An array in the order of [cmp]: no element comes before one it should
    follow. *)
Fixpoint ordered {A : Type} (cmp : A -> A -> comparison) (l : list A) : Prop :=
  match l with
  | [] => True
  | x :: l' =>
      match l' with
      | [] => True
      | y :: _ => cmp x y <> Gt
      end /\ ordered cmp l'
  end.

(** The (habit, type) pairs of the badges. *)
Definition badgeKeys (d : Model.HabitData) : list (string * Model.BadgeType) :=
  map (fun b => (Model.b_habitId b, Model.b_type b)) (Queries.orEmpty (Model.badges d)).

(** The date [toggleHabit(habitId, date)] settles on:
    [date || formatDate(new Date())]. *)
Definition targetDate (date : option string) (w : Service.World) : string :=
  if Queries.truthy date then Queries.strArg date
  else Model.formatDate (Service.clock w).

(** The content of [this.data.logs] after [toggleHabit] has settled on the
    date [target], at time [now]. *)
Definition toggleLogs (now : Z) (habitId target : string)
    (logs : list Model.HabitLog) : list Model.HabitLog :=
  match find (Service.sameLog habitId target) logs with
  | Some _ =>
      Service.update_first (Service.sameLog habitId target) (Service.toggled now) logs
  | None => push (Model.createHabitLog now habitId target true None) logs
  end.

(** [getLog(habitId, date)?.completed ?? false] *)
Definition completedValue (d : Model.HabitData) (habitId date : string) : bool :=
  match Queries.getLog d habitId date with
  | Some log => Model.completed log
  | None => false
  end.

(** *** Following the specification: the walk with the due-day rule

    A day without a completed log breaks the streak when the habit is due
    on it, by [isHabitDueOnDate], and is skipped when it is not. *)
Definition missedDayDue (habit : Model.Habit) (currentDate streak : Z)
    : Queries.Step :=
  if Model.isHabitDueOnDate habit currentDate then Queries.Break streak
  else Queries.safetyLimit (setDate_pred currentDate) streak.

Definition dueBody (logs : list Model.HabitLog) (habit : Model.Habit)
    (currentDate streak : Z) : Queries.Step :=
  if Queries.completedOn logs (Model.formatDate currentDate)
  then Queries.safetyLimit (setDate_pred currentDate) (streak + 1)
  else missedDayDue habit currentDate streak.

(** *** The import claim as the specification words it *)

(** The key does not hold a collection. *)
Definition lacks {A : Type} (f : Service.Field A) : bool :=
  match f with
  | Service.Typed _ => false
  | _ => true
  end.

(** The parsed result does not have both collections: it lacks [habits] or
    lacks [logs]. *)
Definition lacksOne (x : Service.Parsed) : bool :=
  match x with
  | Service.JObject p => lacks (Service.p_habits p) || lacks (Service.p_logs p)
  | _ => true
  end.

(** The parsed result lacks [habits] and lacks [logs]. *)
Definition lacksBoth (x : Service.Parsed) : bool :=
  match x with
  | Service.JObject p => lacks (Service.p_habits p) && lacks (Service.p_logs p)
  | _ => true
  end.

(** A field of the payload over the default's: the default's value when the
    payload has no such key, nothing for a falsy value, the value given
    otherwise. *)
Definition filled {A : Type} (dflt : option A) (f : Service.Field A) : option A :=
  match f with
  | Service.Missing => dflt
  | Service.Typed a => Some a
  | _ => None
  end.

(** A field holds nothing the type of [HabitData] excludes. *)
Definition wellTyped {A : Type} (f : Service.Field A) : bool :=
  match f with
  | Service.Untyped => false
  | _ => true
  end.

(** The payload over the defaults [dflt], for a payload that has both
    collections and whose other fields are absent, empty or of their type:
    the fields the payload lacks are those of [dflt]. *)
Definition merged (dflt : Model.HabitData) (p : Service.Payload)
    : option Model.HabitData :=
  match Service.p_habits p, Service.p_logs p with
  | Service.Typed habits, Service.Typed logs =>
      if wellTyped (Service.p_categories p) && wellTyped (Service.p_freezeDays p)
         && wellTyped (Service.p_badges p) && wellTyped (Service.p_version p)
      then Some {| Model.habits := habits;
                   Model.logs := logs;
                   Model.categories :=
                     filled (Model.categories dflt) (Service.p_categories p);
                   Model.freezeDays :=
                     filled (Model.freezeDays dflt) (Service.p_freezeDays p);
                   Model.badges := filled (Model.badges dflt) (Service.p_badges p);
                   Model.version := filled (Model.version dflt) (Service.p_version p) |}
      else None
  | _, _ => None
  end.

(** The parsed result is an object whose [habits] and [logs] are given:
    neither absent nor [null], [false], [0] or the empty string. *)
Definition given {A : Type} (f : Service.Field A) : bool :=
  match f with
  | Service.Missing => false
  | Service.Falsy => false
  | Service.Untyped => true
  | Service.Typed _ => true
  end.

Definition givesBoth (x : Service.Parsed) : bool :=
  match x with
  | Service.JObject p => given (Service.p_habits p) && given (Service.p_logs p)
  | _ => false
  end.

(** The claim, with [rejects] for the condition under which the import is
    to fail: failure with the world unchanged under the condition, and
    otherwise success with the snapshot replaced by the merged payload. *)
Definition importClaim (rejects : Service.Parsed -> bool)
    (JSON_parse : string -> Service.Parsed) (text : string) (w : Service.World)
    : Prop :=
  if rejects (JSON_parse text)
  then Service.importData JSON_parse text w = (Service.Returned false, Some w)
  else fst (Service.importData JSON_parse text w) = Service.Returned true /\
       forall p d',
         JSON_parse text = Service.JObject p ->
         merged (Service.defaults w) p = Some d' ->
         exists w',
           snd (Service.importData JSON_parse text w) = Some w' /\
           Service.data w' = d'.

(** *** Following the specification: the longest run of consecutive dates *)

Section Runs.
Context {A : Type} (next : A -> A -> bool).

(** The length of the run that starts with [first]: [first] and the
    elements that follow it, as long as each is next to the one before. *)
Fixpoint runFrom (first : A) (rest : list A) : Z :=
  match rest with
  | [] => 1
  | x :: rest' => if next first x then 1 + runFrom x rest' else 1
  end.

(** The length of the longest run of the list, 0 for the empty list. *)
Fixpoint longestRun (l : list A) : Z :=
  match l with
  | [] => 0
  | x :: rest => Z.max (runFrom x rest) (longestRun rest)
  end.
End Runs.

End Aux.


From Stdlib Require Import Sorted Permutation.

(** ** The host's time zone

    [toISOString], and so [formatDate], print the UTC day of a date.
    [setDate], [getDate], [getDay], [getMonth], [getFullYear] and the
    reading of a date-time string without an offset work on local time.
    Here the zone of the host is a parameter of the operations that look at
    local time; the definitions of [JS] and [Queries] above are these
    operations on a host whose local time is UTC. *)

Module Host.
Import JS Model Queries.

(** The offset of local time from UTC, in milliseconds: at an instant
    ([LocalTZA(t, true)]) and at a local time ([LocalTZA(t, false)]). *)
Record Zone := mkZone {
  atInstant : Z -> Z;
  atLocalTime : Z -> Z
}.

(** A host whose offset is the same at all times. *)
Definition fixedZone (offset : Z) : Zone :=
  mkZone (fun _ => offset) (fun _ => offset).

(** [LocalTime(t)] and [UTC(t)] of ECMAScript. *)
Definition LocalTime (z : Zone) (t : Z) : Z := t + atInstant z t.

Definition UTC (z : Zone) (t : Z) : Z := t - atLocalTime z t.

(** [d.getUTCFullYear()] and [d.getUTCMonth()] (0 to 11). *)
Definition getUTCFullYear (t : Z) : Z :=
  let '(y, _, _) := civil_from_days (dayNumber t) in y.

Definition getUTCMonth (t : Z) : Z :=
  let '(_, m, _) := civil_from_days (dayNumber t) in m - 1.

Section Local.
Variable z : Zone.

(** [d.getFullYear()], [d.getMonth()] (0 to 11) and [d.getDay()]. *)
Definition getFullYear (t : Z) : Z := getUTCFullYear (LocalTime z t).

Definition getMonth (t : Z) : Z := getUTCMonth (LocalTime z t).

Definition getDay (t : Z) : Z := (dayNumber (LocalTime z t) + 4) mod 7.

(** [d.setDate(d.getDate() - i)]: the same local time of day, [i] local
    days earlier. *)
Definition setDate_back (t i : Z) : Z := UTC z (LocalTime z t - i * msPerDay).

Definition setDate_pred (t : Z) : Z := setDate_back t 1.

(** *** The backward walks of [getCurrentStreak] and
    [getCurrentStreakWithFreeze] on this host *)

Definition missedDay (habit : Habit) (currentDate streak : Z) : Step :=
  match frequency habit with
  | daily => Break streak
  | _ =>
      match customDays habit with
      | Some cd =>
          let dayOfWeek := getDay currentDate in
          if includes cd dayOfWeek then Break streak
          else safetyLimit (setDate_pred currentDate) streak
      | None => Break streak
      end
  end.

Definition streakBody (logs : list HabitLog) (habit : Habit)
    (currentDate streak : Z) : Step :=
  let dateStr := formatDate currentDate in
  if completedOn logs dateStr
  then safetyLimit (setDate_pred currentDate) (streak + 1)
  else missedDay habit currentDate streak.

Definition freezeBody (d : HabitData) (logs : list HabitLog) (habit : Habit)
    (currentDate streak : Z) : Step :=
  let dateStr := formatDate currentDate in
  let frozen := isFrozen d dateStr in
  if frozen then Continue (setDate_pred currentDate) streak
  else if completedOn logs dateStr
  then safetyLimit (setDate_pred currentDate) (streak + 1)
  else missedDay habit currentDate streak.

Definition getCurrentStreak (fuel : nat) (d : HabitData) (now : Z)
    (habitId : string) : option Z :=
  let logs := completedLogs d habitId in
  if (List.length logs =? 0)%nat then Some 0 else
  match getHabit d habitId with
  | None => Some 0
  | Some habit =>
      let today := now in
      let todayLog := find (fun l => String.eqb (l_date l) (formatDate today)) logs in
      let currentDate :=
        match todayLog with
        | None => setDate_pred today
        | Some _ => today
        end in
      while (streakBody logs habit) fuel currentDate 0
  end.

Definition getCurrentStreakWithFreeze (fuel : nat) (d : HabitData) (now : Z)
    (habitId : string) : option Z :=
  let logs := completedLogs d habitId in
  if (List.length logs =? 0)%nat then Some 0 else
  match getHabit d habitId with
  | None => Some 0
  | Some habit =>
      let today := now in
      let todayStr := formatDate today in
      let todayLog := find (fun l => String.eqb (l_date l) todayStr) logs in
      let todayFrozen := isFrozen d todayStr in
      let currentDate :=
        match todayLog with
        | None => if todayFrozen then today else setDate_pred today
        | Some _ => today
        end in
      while (freezeBody d logs habit) fuel currentDate 0
  end.
End Local.

End Host.

(** ** [src/settings.ts], class [DataService]: habits, categories, freeze
    days, statistics; [main.ts]: the quick toggle *)

Module Registry.
Import JS Model Queries Service.

(** *** More of JavaScript *)

(** [String(n)] for an integer [n]. *)
Definition numToString (n : Z) : string :=
  if n <? 0 then "-" ++ dec (- n) else dec n.

(** The double nearest to the integer [n], a tie going to the even
    significand: what an integer result of double arithmetic becomes.  The
    integers up to 2^53 in magnitude are doubles. *)
Definition toDouble (n : Z) : Z :=
  let a := Z.abs n in
  let bits := Z.log2 a + 1 in
  if bits <=? 53 then n
  else
    let ulp := 2 ^ (bits - 53) in
    let q := a / ulp in
    let r := a mod ulp in
    let q' := if 2 * r <? ulp then q
              else if ulp <? 2 * r then q + 1
              else if Z.even q then q else q + 1 in
    Z.sgn n * (q' * ulp).

(** [a + b] for two integer doubles whose sum is in the range of doubles. *)
Definition plus (a b : Z) : Z := toDouble (a + b).

(** [s.startsWith(p)] *)
Definition startsWith (s p : string) : bool := String.prefix p s.

(** [arr.findIndex(p)], [None] for -1. *)
Fixpoint findIndex {A : Type} (p : A -> bool) (arr : list A) : option nat :=
  match arr with
  | [] => None
  | x :: arr' => if p x then Some O else option_map S (findIndex p arr')
  end.

(** [arr.splice(index, 1)]: what is left in [arr]. *)
Fixpoint splice1 {A : Type} (index : nat) (arr : list A) : list A :=
  match arr, index with
  | [], _ => []
  | _ :: arr', O => arr'
  | x :: arr', S i => x :: splice1 i arr'
  end.

(** [arr[index] = x], for an index within the array. *)
Fixpoint setAt {A : Type} (index : nat) (x : A) (arr : list A) : list A :=
  match arr, index with
  | [], _ => []
  | _ :: arr', O => x :: arr'
  | y :: arr', S i => y :: setAt i x arr'
  end.

(** [Math.max(0, ...ns)] *)
Definition maxOrZero (ns : list Z) : Z := fold_right Z.max 0 ns.

(** The comparator [(a, b) => a - b] on integers. *)
Definition byNumber (a b : Z) : comparison := Z.compare a b.

(** *** [src/models/Habit.ts], the rest *)

Definition CATEGORY_COLORS : list string :=
  [ "#4CAF50"; "#2196F3"; "#FF9800"; "#9C27B0";
    "#F44336"; "#00BCD4"; "#E91E63"; "#795548" ].

(** [Partial<Habit>]: a key is absent ([None]) or present; a present key of
    an optional field may hold [undefined]. *)
Record HabitPatch := mkHabitPatch {
  u_id : option string;
  u_name : option string;
  u_description : option (option string);
  u_emoji : option (option string);
  u_frequency : option HabitFrequency;
  u_customDays : option (option (list Z));
  u_categoryId : option (option string);
  u_goalDays : option (option Z);
  u_createdAt : option string;
  u_archived : option bool;
  u_order : option Z
}.

Definition noPatch : HabitPatch :=
  mkHabitPatch None None None None None None None None None None None.

Definition over {A : Type} (v : A) (u : option A) : A :=
  match u with Some x => x | None => v end.

(** [{ ...habit, ...updates }] *)
Definition patchHabit (habit : Habit) (updates : HabitPatch) : Habit :=
  {| h_id := over (h_id habit) (u_id updates);
     h_name := over (h_name habit) (u_name updates);
     h_description := over (h_description habit) (u_description updates);
     h_emoji := over (h_emoji habit) (u_emoji updates);
     frequency := over (frequency habit) (u_frequency updates);
     customDays := over (customDays habit) (u_customDays updates);
     categoryId := over (categoryId habit) (u_categoryId updates);
     goalDays := over (goalDays habit) (u_goalDays updates);
     createdAt := over (createdAt habit) (u_createdAt updates);
     archived := over (archived habit) (u_archived updates);
     order := over (order habit) (u_order updates) |}.

Definition set_id (id : string) (h : Habit) : Habit :=
  mkHabit id (h_name h) (h_description h) (h_emoji h) (frequency h) (customDays h)
          (categoryId h) (goalDays h) (createdAt h) (archived h) (order h).

Definition set_order (n : Z) (h : Habit) : Habit :=
  mkHabit (h_id h) (h_name h) (h_description h) (h_emoji h) (frequency h)
          (customDays h) (categoryId h) (goalDays h) (createdAt h) (archived h) n.

Definition set_categoryId (c : option string) (h : Habit) : Habit :=
  mkHabit (h_id h) (h_name h) (h_description h) (h_emoji h) (frequency h)
          (customDays h) c (goalDays h) (createdAt h) (archived h) (order h).

(** [{ ...options, order: n }] *)
Definition withOrder (options : HabitPatch) (n : Z) : HabitPatch :=
  mkHabitPatch (u_id options) (u_name options) (u_description options)
               (u_emoji options) (u_frequency options) (u_customDays options)
               (u_categoryId options) (u_goalDays options) (u_createdAt options)
               (u_archived options) (Some n).

(** [createHabit(name, frequency, options)], with the identifier
    [generateId()] returned and at time [now]. *)
Definition createHabit (id : string) (now : Z) (name : string)
    (frequency : HabitFrequency) (options : HabitPatch) : Habit :=
  patchHabit
    {| h_id := id; h_name := name; h_description := None; h_emoji := None;
       frequency := frequency; customDays := None; categoryId := None;
       goalDays := None; createdAt := toISOString now; archived := false;
       order := 0 |}
    options.

(** [Partial<Category>] *)
Record CategoryPatch := mkCategoryPatch {
  v_id : option string;
  v_name : option string;
  v_color : option string;
  v_emoji : option (option string);
  v_order : option Z
}.

Definition patchCategory (c : Category) (updates : CategoryPatch) : Category :=
  {| c_id := over (c_id c) (v_id updates);
     c_name := over (c_name c) (v_name updates);
     c_color := over (c_color c) (v_color updates);
     c_emoji := over (c_emoji c) (v_emoji updates);
     c_order := over (c_order c) (v_order updates) |}.

Definition set_c_id (id : string) (c : Category) : Category :=
  mkCategory id (c_name c) (c_color c) (c_emoji c) (c_order c).

(** [createCategory(name, color, options)] *)
Definition createCategory (id name color : string) (options : CategoryPatch)
    : Category :=
  patchCategory
    {| c_id := id; c_name := name; c_color := color; c_emoji := None; c_order := 0 |}
    options.

(** The prefix ["YYYY-MM"] that [getFreezeDaysInMonth] and
    [getFreezeDaysThisMonth] build, [month] counting from 0. *)
Definition monthPrefix (year month : Z) : string :=
  numToString year ++ "-" ++ padStart 2 (numToString (month + 1)).

Definition getFreezeDaysInMonth (year month : Z) (freezeDays : list FreezeDay)
    : list FreezeDay :=
  filter (fun f => startsWith (f_date f) (monthPrefix year month)) freezeDays.

(** [TimeClip]: a time value outside the range of [Date] is [NaN]. *)
Definition timeClip (t : Z) : option Z :=
  if Z.abs t <=? 8640000000000000 then Some t else None.

(** [parseDate(dateString)]: [new Date(dateString + 'T00:00:00')].  A
    date-time string without an offset is read as local time: the result
    is the instant of the local midnight of the date on the host of zone
    [z].  [hostDateParse] is the host's reading of a string whose date part
    is not a date-only ISO string. *)
Definition parseDate (z : Host.Zone) (hostDateParse : string -> option Z)
    (dateString : string) : option Z :=
  match parseIsoDate dateString with
  | Some t => timeClip (Host.UTC z t)
  | None => hostDateParse (dateString ++ "T00:00:00")
  end.

(** *** The state: the other fields of [this.data] *)

Definition set_habits (h : list Habit) (d : HabitData) : HabitData :=
  mkData h (logs d) (categories d) (freezeDays d) (badges d) (version d).

Definition set_categories (c : option (list Category)) (d : HabitData) : HabitData :=
  mkData (habits d) (logs d) c (freezeDays d) (badges d) (version d).

(** A change made inside the array [this.data.habits]. *)
Definition inplace_habits (f : list Habit -> list Habit) (w : World) : World :=
  match this_data w with
  | TheDefault => set_defaults (set_habits (f (habits (defaults w))) (defaults w)) w
  | Object o =>
      match o_habits o with
      | Shared => set_defaults (set_habits (f (habits (defaults w))) (defaults w)) w
      | Own l =>
          set_this_data
            (Object (mkObject (Own (f l)) (o_logs o) (o_categories o)
                              (o_freezeDays o) (o_badges o) (o_version o))) w
      end
  end.

Definition inplace_categories (f : list Category -> list Category) (w : World)
    : World :=
  match this_data w with
  | TheDefault =>
      set_defaults (set_categories (option_map f (categories (defaults w))) (defaults w)) w
  | Object o =>
      match o_categories o with
      | Shared =>
          set_defaults
            (set_categories (option_map f (categories (defaults w))) (defaults w)) w
      | Own l =>
          set_this_data
            (Object (mkObject (o_habits o) (o_logs o) (Own (option_map f l))
                              (o_freezeDays o) (o_badges o) (o_version o))) w
      end
  end.

(** The assignments [this.data.logs = v] and [this.data.categories = v]. *)
Definition assign_logs (v : list HabitLog) (w : World) : World :=
  match this_data w with
  | TheDefault => set_defaults (set_logs v (defaults w)) w
  | Object o =>
      set_this_data
        (Object (mkObject (o_habits o) (Own v) (o_categories o)
                          (o_freezeDays o) (o_badges o) (o_version o))) w
  end.

Definition assign_categories (v : option (list Category)) (w : World) : World :=
  match this_data w with
  | TheDefault => set_defaults (set_categories v (defaults w)) w
  | Object o =>
      set_this_data
        (Object (mkObject (o_habits o) (o_logs o) (Own v)
                          (o_freezeDays o) (o_badges o) (o_version o))) w
  end.

(** *** Habits *)

Definition byOrder (a b : Habit) : comparison := byNumber (order a) (order b).

(** [getHabits(includeArchived)]: the array returned. *)
Definition getHabits (d : HabitData) (includeArchived : bool) : list Habit :=
  sort byOrder (if includeArchived then habits d
                else filter (fun h => negb (archived h)) (habits d)).

(** The effect of [getHabits(includeArchived)] on [this.data.habits]: with
    [includeArchived] the array sorted is [this.data.habits] itself. *)
Definition getHabits_effect (includeArchived : bool) (w : World) : World :=
  if includeArchived then inplace_habits (sort byOrder) w else w.

Definition hasId (id : string) (h : Habit) : bool := String.eqb (h_id h) id.

Definition addHabit (name : string) (frequency : option HabitFrequency)
    (options : HabitPatch) : M Habit :=
  fun w =>
    let maxOrder := maxOrZero (map order (habits (data w))) in
    (id <- generateId ;;
     let habit := createHabit id (clock w) name
                    (match frequency with Some f => f | None => daily end)
                    (withOrder options (plus maxOrder 1)) in
     modify (inplace_habits (push habit)) ;;;
     save ;;;
     ret habit) w.

Definition updateHabit (id : string) (updates : HabitPatch) : M (option Habit) :=
  fun w =>
    match findIndex (hasId id) (habits (data w)) with
    | None => (Returned None, w)
    | Some index =>
        match nth_error (habits (data w)) index with
        | None => (Returned None, w)
        | Some old =>
            let updated := set_id id (patchHabit old updates) in
            (modify (inplace_habits (setAt index updated)) ;;;
             save ;;;
             ret (Some updated)) w
        end
    end.

Definition deleteHabit (id : string) : M bool :=
  fun w =>
    match findIndex (hasId id) (habits (data w)) with
    | None => (Returned false, w)
    | Some index =>
        (modify (inplace_habits (splice1 index)) ;;;
         modify (fun w' =>
                   assign_logs
                     (filter (fun l => negb (String.eqb (l_habitId l) id))
                             (logs (data w'))) w') ;;;
         save ;;;
         ret true) w
    end.

(** [{ archived: true }] *)
Definition archivedPatch : HabitPatch :=
  mkHabitPatch None None None None None None None None None (Some true) None.

Definition archiveHabit (id : string) : M bool :=
  habit <- updateHabit id archivedPatch ;;
  ret (match habit with Some _ => true | None => false end).

(** The callback of [orderedIds.forEach], from index [index] on. *)
Fixpoint reorderFrom (index : nat) (orderedIds : list string) (hs : list Habit)
    : list Habit :=
  match orderedIds with
  | [] => hs
  | id :: ids =>
      reorderFrom (S index) ids
        (update_first (hasId id) (set_order (Z.of_nat index)) hs)
  end.

Definition reorderHabits (orderedIds : list string) : M unit :=
  modify (inplace_habits (reorderFrom 0 orderedIds)) ;;;
  save.

(** *** Categories *)

Definition byCategoryOrder (a b : Category) : comparison :=
  byNumber (c_order a) (c_order b).

Definition getCategories (d : HabitData) : list Category :=
  sort byCategoryOrder (orEmpty (categories d)).

(** The effect of [getCategories()]: [this.data.categories], when it is an
    array, is the array sorted. *)
Definition getCategories_effect (w : World) : World :=
  inplace_categories (sort byCategoryOrder) w.

Definition hasCategoryId (id : string) (c : Category) : bool :=
  String.eqb (c_id c) id.

Definition getCategory (d : HabitData) (id : string) : option Category :=
  match categories d with
  | Some cs => find (hasCategoryId id) cs
  | None => None
  end.

(** [usedColors.includes(c)] *)
Definition includesColor (usedColors : list string) (c : string) : bool :=
  existsb (String.eqb c) usedColors.

(** [color || CATEGORY_COLORS.find(...) || CATEGORY_COLORS[0]] *)
Definition availableColor (color : option string) (usedColors : list string)
    : string :=
  if truthy color then strArg color
  else match find (fun c => negb (includesColor usedColors c)) CATEGORY_COLORS with
       | Some c => if String.eqb c "" then hd "" CATEGORY_COLORS else c
       | None => hd "" CATEGORY_COLORS
       end.

Definition addCategory (name : string) (color emoji : option string) : M Category :=
  fun w =>
    let w := match categories (data w) with
             | None => assign_categories (Some []) w
             | Some _ => w
             end in
    let cs := orEmpty (categories (data w)) in
    let maxOrder := maxOrZero (map c_order cs) in
    let usedColors := map c_color cs in
    (id <- generateId ;;
     let category :=
       createCategory id name (availableColor color usedColors)
         (mkCategoryPatch None None None (Some emoji) (Some (plus maxOrder 1))) in
     modify (inplace_categories (push category)) ;;;
     save ;;;
     ret category) w.

Definition updateCategory (id : string) (updates : CategoryPatch)
    : M (option Category) :=
  fun w =>
    match categories (data w) with
    | None => (Returned None, w)
    | Some cs =>
        match findIndex (hasCategoryId id) cs with
        | None => (Returned None, w)
        | Some index =>
            match nth_error cs index with
            | None => (Returned None, w)
            | Some old =>
                let updated := set_c_id id (patchCategory old updates) in
                (modify (inplace_categories (setAt index updated)) ;;;
                 save ;;;
                 ret (Some updated)) w
            end
        end
    end.

(** [if (h.categoryId === id) h.categoryId = undefined] *)
Definition detach (id : string) (h : Habit) : Habit :=
  match categoryId h with
  | Some c => if String.eqb c id then set_categoryId None h else h
  | None => h
  end.

Definition deleteCategory (id : string) : M bool :=
  fun w =>
    match categories (data w) with
    | None => (Returned false, w)
    | Some cs =>
        match findIndex (hasCategoryId id) cs with
        | None => (Returned false, w)
        | Some index =>
            (modify (inplace_categories (splice1 index)) ;;;
             modify (inplace_habits (map (detach id))) ;;;
             save ;;;
             ret true) w
        end
    end.

(** [getHabitsByCategory(categoryId)]: without the argument, the habits
    whose [categoryId] is falsy. *)
Definition getHabitsByCategory (d : HabitData) (categoryId : option string)
    : list Habit :=
  let habits := getHabits d false in
  match categoryId with
  | None => filter (fun h => negb (truthy (Model.categoryId h))) habits
  | Some c =>
      filter (fun h => match Model.categoryId h with
                       | Some x => String.eqb x c
                       | None => false
                       end) habits
  end.

(** *** Freeze days *)

Definition getFreezeDays (d : HabitData) : list FreezeDay :=
  orEmpty (freezeDays d).

Definition onDate (date : string) (f : FreezeDay) : bool :=
  String.eqb (f_date f) date.

Definition removeFreezeDay (date : string) : M bool :=
  fun w =>
    match freezeDays (data w) with
    | None => (Returned false, w)
    | Some fs =>
        match findIndex (onDate date) fs with
        | None => (Returned false, w)
        | Some index =>
            (modify (inplace_freezeDays (splice1 index)) ;;;
             save ;;;
             ret true) w
        end
    end.

Definition getFreezeDaysThisMonth (z : Host.Zone) (d : HabitData) (now : Z) : Z :=
  let monthStr := monthPrefix (Host.getFullYear z now) (Host.getMonth z now) in
  Z.of_nat (List.length
              (filter (fun f => startsWith (f_date f) monthStr)
                      (orEmpty (freezeDays d)))).

(** *** Badges *)

Definition getBadges (d : HabitData) (habitId : option string) : list Badge :=
  let badges := orEmpty (badges d) in
  if truthy habitId
  then filter (fun b => String.eqb (b_habitId b) (strArg habitId)) badges
  else badges.

Definition getAllBadgesWithDetails (d : HabitData)
    : list (Badge * option Habit * option Milestone) :=
  map (fun badge =>
         (badge,
          getHabit d (b_habitId badge),
          find (fun m => BadgeType_eqb (m_type m) (b_type badge)) BADGE_MILESTONES))
      (orEmpty (badges d)).

(** *** Statistics *)

Definition getTotalCompletions (d : HabitData) (habitId : string) : Z :=
  Z.of_nat (List.length (completedLogs d habitId)).

(** One point of [getCompletionTrend], [i] local days before today, on the
    host of zone [z]. *)
Definition trendPoint (z : Host.Zone) (d : HabitData) (now : Z) (habitId : string)
    (i : Z) : string * Z :=
  let date := Host.setDate_back z now i in
  let dateStr := formatDate date in
  let log := getLog d habitId dateStr in
  let frozen := isFrozen d dateStr in
  (dateStr,
   if frozen then -1
   else if match log with Some l => completed l | None => false end
        then 100 else 0).

(** The loop [for (let i = days - 1; i >= 0; i--)], with [n] iterations
    left: [i] goes from [n - 1] down to 0. *)
Fixpoint trendFrom (z : Host.Zone) (d : HabitData) (now : Z) (habitId : string)
    (n : nat) : list (string * Z) :=
  match n with
  | O => []
  | S n' =>
      trendPoint z d now habitId (Z.of_nat n') :: trendFrom z d now habitId n'
  end.

Definition getCompletionTrend (z : Host.Zone) (d : HabitData) (now : Z)
    (habitId : string) (days : Z) : list (string * Z) :=
  trendFrom z d now habitId (Z.to_nat days).

(** *** [main.ts]: [showQuickToggle] *)

(** [!log?.completed] for the log of the habit on [dateStr]. *)
Definition incompleteOn (d : HabitData) (dateStr : string) (h : Habit) : bool :=
  negb (match getLog d (h_id h) dateStr with
        | Some log => completed log
        | None => false
        end).

Definition showQuickToggle : M unit :=
  fun w =>
    let today := clock w in
    let dateStr := formatDate today in
    let habits := getHabits (data w) false in
    let dueToday := filter (fun h => isHabitDueOnDate h today) habits in
    if (List.length dueToday =? 0)%nat then (Returned tt, w)
    else
      match find (incompleteOn (data w) dateStr) dueToday with
      | Some incomplete =>
          (* the promise of [toggleHabit] is not awaited: a rejection does
             not reach the caller *)
          catch (toggleHabit (h_id incomplete) (Some dateStr) ;;; ret tt) tt w
      | None => (Returned tt, w)
      end.

End Registry.

(** ** Auxiliary definitions of the proofs, for the rest of the service *)

Module Aux2.
Import JS Model Queries Service Registry.

(** The position of the first occurrence of [x] in [ids]. *)
Fixpoint indexOf (x : string) (ids : list string) : nat :=
  match ids with
  | [] => O
  | y :: ids' => if String.eqb y x then O else S (indexOf x ids')
  end.

(** The (habit, date) pairs of the logs. *)
Definition logKeys (d : HabitData) : list (string * string) :=
  map (fun l => (l_habitId l, l_date l)) (logs d).

(** The content of [this.data.logs] after
    [setHabitCompletion(habitId, date, completed, note)] at time [now]. *)
Definition upsertLogs (now : Z) (habitId date : string) (completed : bool)
    (note : option string) (logs : list HabitLog) : list HabitLog :=
  match find (sameLog habitId date) logs with
  | Some _ =>
      update_first (sameLog habitId date) (completionSet now completed note) logs
  | None => push (createHabitLog now habitId date completed note) logs
  end.

(** The weekdays of [getDay]. *)
Definition weekdays : list Z := [0; 1; 2; 3; 4; 5; 6].

(** Whether the walks stop at a day of weekday [dayOfWeek] that has no
    completed log: the [break]s of the [else] branch of the loop body. *)
Definition stopsOn (habit : Habit) (dayOfWeek : Z) : bool :=
  match frequency habit with
  | daily => true
  | _ =>
      match customDays habit with
      | Some cd => includes cd dayOfWeek
      | None => true
      end
  end.

(** The habit has a weekday at which the walks stop. *)
Definition hasDueDay (habit : Habit) : bool := existsb (stopsOn habit) weekdays.

(** The number of days to go back from a day of weekday [dayOfWeek] to a
    day at which [stop] holds, [k] at most. *)
Fixpoint daysBack (stop : Z -> bool) (k : nat) (dayOfWeek : Z) : nat :=
  match k with
  | O => O
  | S k' => if stop dayOfWeek then O else S (daysBack stop k' ((dayOfWeek + 6) mod 7))
  end.


(** The logs without those of date [x]. *)
Definition otherDates (x : string) (logs : list HabitLog) : list HabitLog :=
  filter (fun l => negb (String.eqb (l_date l) x)) logs.

(** The digits of [n], padded to the width [w], read back as [n]. *)
Definition digits_ok (w : nat) (n : Z) : bool :=
  match digitsVal (padStart w (dec n)) 0 with
  | Some v => v =? n
  | None => false
  end.

(** [String(year)] and the year field of [toISOString] are the same
    string. *)
Definition plainYear_ok (year : Z) : bool :=
  String.eqb (numToString year) (yearStr year).

(** The UTC day of [t], the day [formatDate] prints, lies in the month and
    year that [now] has in local time on the host of zone [z]. *)
Definition sameMonth (z : Host.Zone) (t now : Z) : bool :=
  (Host.getUTCFullYear t =? Host.getFullYear z now)
  && (Host.getUTCMonth t =? Host.getMonth z now).

(** The year of the day number [n]. *)
Definition yearOfDay (n : Z) : Z :=
  let '(y, _, _) := civil_from_days n in y.

(** The day numbers of the calendar dates that [toISOString] prints with a
    year of four digits: the years 0 to 9999. *)
Definition plainDay (n : Z) : Prop := 0 <= yearOfDay n <= 9999.

Definition isDigit (c : ascii) : bool :=
  match digitVal c with Some _ => true | None => false end.

(** The strings of the form [YYYY-MM-DD]: digits, with hyphens at the fifth
    and eighth place. *)
Definition isPlainDate (s : string) : bool :=
  match s with
  | String y1 (String y2 (String y3 (String y4 (String h1 (String m1 (String m2
      (String h2 (String d1 (String d2 EmptyString))))))))) =>
      isDigit y1 && isDigit y2 && isDigit y3 && isDigit y4 && Ascii.eqb h1 "-"
      && isDigit m1 && isDigit m2 && Ascii.eqb h2 "-" && isDigit d1 && isDigit d2
  | _ => false
  end.

(** The order of calendar dates: year, then month, then day. *)
Definition civilLt (a b : Z * Z * Z) : bool :=
  let '(y, m, d) := a in
  let '(y', m', d') := b in
  (y <? y') || ((y =? y') && ((m <? m') || ((m =? m') && (d <? d')))).

(** The calendar date of the day [doe] of an era comes before that of the
    next day. *)
Definition civil_step_ok (doe : Z) : bool :=
  civilLt (civil_from_days (doe - 719468)) (civil_from_days (doe + 1 - 719468)).

(** The digits of [n], padded to the width [w], come before those of
    [n + 1]. *)
Definition pad_step_ok (w : nat) (n : Z) : bool :=
  match localeCompare (padStart w (dec n)) (padStart w (dec (n + 1))) with
  | Lt => true
  | _ => false
  end.

(** Following the specification: the dates of the completed logs of a
    habit, in the order of the log array. *)
Definition completedDates (d : HabitData) (habitId : string) : list string :=
  map l_date
      (filter (fun l => String.eqb (l_habitId l) habitId && completed l) (logs d)).

(** The test of the loop of [getLongestStreak] on two logs, as a test on
    their dates. *)
Definition nextDate (hostDateParse : string -> option Z) (prev curr : string) : bool :=
  match Date_getTime hostDateParse prev, Date_getTime hostDateParse curr with
  | Some p, Some c => round_div (c - p) (1000 * 60 * 60 * 24) =? 1
  | _, _ => false
  end.

(** The [k] consecutive days from [a] on are all among [days]. *)
Definition consecutive (days : list Z) (a k : Z) : Prop :=
  forall i, 0 <= i < k -> In (a + i) days.

(** The bound of [rank] on a host of zone [z]. *)
Definition localRank (z : Host.Zone) (habit : Habit) (currentDate streak : Z) : nat :=
  (7 * Z.to_nat (3651 - streak)
   + daysBack (stopsOn habit) 7 (Host.getDay z currentDate))%nat.

End Aux2.
(** ** Concrete habits, histories and worlds *)

Module Examples.
Import JS Model Queries Service.

(** 2024-01-08T10:00:00.123Z, a Monday. *)
Definition monday : Z := 1704708000123.

Definition habitOf (frequency : HabitFrequency) (customDays : option (list Z))
    : Habit :=
  {| h_id := "h1"; h_name := "Read"; h_description := None; h_emoji := None;
     frequency := frequency; customDays := customDays; categoryId := None;
     goalDays := None; createdAt := "2024-01-01T08:00:00.000Z";
     archived := false; order := 1 |}.

Definition done (date : string) : HabitLog :=
  {| l_date := date; l_habitId := "h1"; completed := true; note := None;
     completedAt := Some (date ++ "T20:00:00.000Z") |}.

Definition snapshot (habit : Habit) (dates freezes : list string) : HabitData :=
  {| habits := [habit];
     logs := map done dates;
     categories := Some [];
     freezeDays := Some (map (fun x => createFreezeDay x None) freezes);
     badges := Some [];
     version := Some 2 |}.

(** The history of the specification's examples: 2024-01-01 to 03 and 05 to
    07 completed, 2024-01-04 frozen. *)
Definition gapSnapshot : HabitData :=
  snapshot (habitOf daily None)
    ["2024-01-01"; "2024-01-02"; "2024-01-03"; "2024-01-05"; "2024-01-06"; "2024-01-07"]
    ["2024-01-04"].

(** The same with 2024-01-08 completed: seven completed days around the
    frozen one. *)
Definition weekSnapshot : HabitData :=
  snapshot (habitOf daily None)
    ["2024-01-01"; "2024-01-02"; "2024-01-03"; "2024-01-05"; "2024-01-06";
     "2024-01-07"; "2024-01-08"]
    ["2024-01-04"].

(** A [custom] habit whose [customDays] is the empty array, completed on
    2024-01-07. *)
Definition emptyDaysSnapshot : HabitData :=
  snapshot (habitOf custom (Some [])) ["2024-01-07"] [].

(** Habits without [customDays], completed on Sunday 2023-12-31 and on Sunday
    2024-01-07, not in between. *)
Definition sundaysSnapshot (frequency : HabitFrequency) : HabitData :=
  snapshot (habitOf frequency None) ["2023-12-31"; "2024-01-07"] [].

(** A service whose [this.data] is an object of its own holding [d], as
    after a [load] of a complete snapshot. *)
Definition holding (d : HabitData) : DataRef :=
  Object {| o_habits := Own (habits d); o_logs := Own (logs d);
            o_categories := Own (categories d);
            o_freezeDays := Own (freezeDays d);
            o_badges := Own (badges d); o_version := version d |}.

Definition ids (n : nat) : string := "id" ++ dec (Z.of_nat n).

Definition worldOf (d : HabitData) (saveFails : list bool) : World :=
  {| defaults := DEFAULT_HABIT_DATA; this_data := holding d; clock := monday;
     idSource := ids; idsDrawn := 0; stored := None; saveFails := saveFails |}.

(** A service that started without saved data: [this.data] is
    [DEFAULT_HABIT_DATA] itself, which holds [d] by now. *)
Definition firstRun (d : HabitData) : World :=
  {| defaults := d; this_data := TheDefault; clock := monday;
     idSource := ids; idsDrawn := 0; stored := Some d; saveFails := [] |}.

(** A backup made before categories, freeze days and badges existed. *)
Definition oldBackup : Payload :=
  {| p_habits := Typed [habitOf daily None];
     p_logs := Typed [done "2023-12-01"];
     p_categories := Missing; p_freezeDays := Missing; p_badges := Missing;
     p_version := Missing |}.

(** A payload without [logs]. *)
Definition habitsOnly : Payload :=
  {| p_habits := Typed [habitOf daily None];
     p_logs := Missing;
     p_categories := Missing; p_freezeDays := Missing; p_badges := Missing;
     p_version := Missing |}.

(** The payload of [{"habits":"none","logs":7}]: no collection under either
    key. *)
Definition mistyped : Payload :=
  {| p_habits := Untyped;
     p_logs := Untyped;
     p_categories := Missing; p_freezeDays := Missing; p_badges := Missing;
     p_version := Missing |}.

(** Seven completed days in a row up to 2024-01-08. *)
Definition sevenDays : HabitData :=
  snapshot (habitOf daily None)
    ["2024-01-02"; "2024-01-03"; "2024-01-04"; "2024-01-05"; "2024-01-06";
     "2024-01-07"; "2024-01-08"]
    [].

(** A log with a note. *)
Definition noted : HabitLog :=
  {| l_date := "2024-01-07"; l_habitId := "h1"; completed := true;
     note := Some "20 pages"; completedAt := Some "2024-01-07T20:00:00.000Z" |}.

Definition notedSnapshot : HabitData :=
  {| habits := [habitOf daily None]; logs := [noted]; categories := Some [];
     freezeDays := Some []; badges := Some []; version := Some 2 |}.

(** The badge the first [generateId()] of [worldOf] makes for a week. *)
Definition weekBadge : Badge := createBadge (ids 0) monday "h1" week.

(** The world [worldOf sevenDays []] after the badge has been awarded and
    saved. *)
Definition awarded : World :=
  {| defaults := DEFAULT_HABIT_DATA;
     this_data := holding (set_badges (Some [weekBadge]) sevenDays);
     clock := monday; idSource := ids; idsDrawn := 1;
     stored := Some (set_badges (Some [weekBadge]) sevenDays);
     saveFails := [] |}.

End Examples.


(** ** Concrete habits, categories and worlds for the rest of the service *)

Module MoreExamples.
Import JS Model Queries Service Registry Examples.

Definition health : Category :=
  {| c_id := "c1"; c_name := "Health"; c_color := "#4CAF50"; c_emoji := None;
     c_order := 1 |}.

(** A habit of Mondays, Wednesdays and Fridays, in the category [health]. *)
Definition run : Habit :=
  {| h_id := "h2"; h_name := "Run"; h_description := None; h_emoji := None;
     frequency := custom; customDays := Some [1; 3; 5]; categoryId := Some "c1";
     goalDays := None; createdAt := "2024-01-01T08:00:00.000Z";
     archived := false; order := 2 |}.

Definition ran (date : string) : HabitLog :=
  {| l_date := date; l_habitId := "h2"; completed := true; note := None;
     completedAt := Some (date ++ "T07:00:00.000Z") |}.

(** Two habits: the first completed on 2024-01-06 and 2024-01-07, the second
    on Friday 2024-01-05; 2024-01-04 is frozen, and the first habit has the
    week badge. *)
Definition twoHabits : HabitData :=
  {| habits := [habitOf daily None; run];
     logs := [done "2024-01-06"; ran "2024-01-05"; done "2024-01-07"];
     categories := Some [health];
     freezeDays := Some [createFreezeDay "2024-01-04" None];
     badges := Some [weekBadge];
     version := Some 2 |}.

(** [{ id: 'zz', name: 'Write' }] *)
Definition renamed : HabitPatch :=
  mkHabitPatch (Some "zz") (Some "Write") None None None None None None None None None.

(** [{ id: 'zz', color: '#795548' }] *)
Definition recoloured : CategoryPatch :=
  mkCategoryPatch (Some "zz") None (Some "#795548") None None.

(** 2024-01-04T00:00:00.000Z *)
Definition fourth : Z := 1704326400000.

(** A host that reads no string the date-only forms do not cover. *)
Definition strictHost (s : string) : option Z := None.

(** The zone of Los Angeles in 2024: eight hours behind UTC, and seven from
    2024-03-10T10:00Z to 2024-11-03T09:00Z (from 03:00 on 10 March to 02:00
    on 3 November in local time). *)
Definition losAngeles : Host.Zone :=
  Host.mkZone
    (fun t => if (1710064800000 <=? t) && (t <? 1730624400000)
              then -25200000 else -28800000)
    (fun l => if (1710039600000 <=? l) && (l <? 1730599200000)
              then -25200000 else -28800000).

(** 2024-03-10T23:30:00Z, the afternoon of the day the clocks went forward
    in Los Angeles. *)
Definition springEvening : Z := 1710113400000.

(** A daily habit done on 2024-03-10 only. *)
Definition springForward : HabitData :=
  snapshot (habitOf daily None) ["2024-03-10"] [].

(** A service with that habit and no log, on that afternoon. *)
Definition springWorld : World :=
  {| defaults := DEFAULT_HABIT_DATA;
     this_data := holding (snapshot (habitOf daily None) [] []);
     clock := springEvening; idSource := ids; idsDrawn := 0; stored := None;
     saveFails := [] |}.

End MoreExamples.
(** * Properties *)

Import JS Model Queries Service Aux Examples.

(** ** Dates: [formatDate] tells days apart *)

Module DateFacts.
Import JS Model Aux.

Lemma all_from_spec (p : Z -> bool) (k : nat) (z : Z) :
  all_from p k z = true ->
  forall x, z <= x < z + Z.of_nat k -> p x = true.
Proof.
  revert z. induction k as [|k IH]; intros z H x Hx.
  - simpl in Hx. lia.
  - simpl in H. apply andb_true_iff in H. destruct H as [Hz Hk].
    destruct (Z.eq_dec x z) as [->|Hne]; [exact Hz|].
    apply (IH (z + 1) Hk). lia.
Qed.

Lemma civil_ok_era : all_from civil_ok (Z.to_nat 146097) 0 = true.
Proof. vm_compute. reflexivity. Qed.

Lemma civil_from_days_shift (n k : Z) :
  civil_from_days (n + 146097 * k) =
  let '(y, m, d) := civil_from_days n in (y + 400 * k, m, d).
Proof.
  unfold civil_from_days.
  replace (n + 146097 * k + 719468) with (n + 719468 + k * 146097) by lia.
  rewrite Z.div_add by lia. rewrite Z.mod_add by lia.
  set (doe := (n + 719468) mod 146097).
  set (yoe := (doe - doe / 1460 + doe / 36524 - doe / 146096) / 365).
  set (doy := doe - (365 * yoe + yoe / 4 - yoe / 100)).
  set (mp := (5 * doy + 2) / 153).
  destruct ((if mp <? 10 then mp + 3 else mp - 9) <=? 2); f_equal; f_equal; lia.
Qed.

Lemma days_from_civil_shift (y m d k : Z) :
  days_from_civil (y + 400 * k) m d = days_from_civil y m d + 146097 * k.
Proof.
  unfold days_from_civil.
  set (y' := if m <=? 2 then y - 1 else y).
  replace (if m <=? 2 then y + 400 * k - 1 else y + 400 * k) with (y' + k * 400)
    by (unfold y'; destruct (m <=? 2); lia).
  rewrite Z.div_add by lia. rewrite Z.mod_add by lia. lia.
Qed.

(** The calendar date of a day converts back to the day, with a month from 1
    to 12 and a day from 1 to 31. *)
Lemma civil_roundtrip (n : Z) :
  let '(y, m, d) := civil_from_days n in
  days_from_civil y m d = n /\ 1 <= m <= 12 /\ 1 <= d <= 31.
Proof.
  set (k := (n + 719468) / 146097).
  set (doe := (n + 719468) mod 146097).
  assert (Hn : n = (doe - 719468) + 146097 * k).
  { unfold doe, k. pose proof (Z.div_mod (n + 719468) 146097). lia. }
  assert (Hdoe : 0 <= doe < 0 + Z.of_nat (Z.to_nat 146097)).
  { unfold doe. pose proof (Z.mod_pos_bound (n + 719468) 146097). lia. }
  pose proof (all_from_spec _ _ _ civil_ok_era doe Hdoe) as Hok.
  unfold civil_ok in Hok.
  clearbody doe k. subst n. rewrite civil_from_days_shift.
  destruct (civil_from_days (doe - 719468)) as [[y m] d].
  repeat (apply andb_true_iff in Hok; destruct Hok as [Hok ?]).
  rewrite days_from_civil_shift.
  repeat split; lia.
Qed.

Lemma civil_from_days_inj (a b : Z) :
  civil_from_days a = civil_from_days b -> a = b.
Proof.
  intros H.
  pose proof (civil_roundtrip a) as Ha. pose proof (civil_roundtrip b) as Hb.
  rewrite H in Ha. destruct (civil_from_days b) as [[y m] d]. lia.
Qed.

(** *** Strings of digits *)

Lemma length_append (a b : string) :
  String.length (a ++ b) = (String.length a + String.length b)%nat.
Proof. induction a as [|c a IH]; simpl; [reflexivity | now rewrite IH]. Qed.

Lemma append_inj_length (a b c d : string) :
  String.length a = String.length b -> a ++ c = b ++ d -> a = b /\ c = d.
Proof.
  revert b. induction a as [|x a IH]; intros [|y b] Hlen H; simpl in *;
    try discriminate.
  - auto.
  - injection H as -> H. destruct (IH b) as [-> ->]; auto.
Qed.

Lemma length_zeros (k : nat) : String.length (zeros k) = k.
Proof. induction k; simpl; congruence. Qed.

Lemma length_padStart (w : nat) (s : string) :
  (w <= String.length (padStart w s))%nat.
Proof. unfold padStart. rewrite length_append, length_zeros. lia. Qed.

Lemma undec_zeros (k : nat) (s : string) : undec (zeros k ++ s) = undec s.
Proof.
  induction k as [|k IH]; simpl; [reflexivity|].
  rewrite <- IH. unfold undec. simpl.
  destruct (NilEmpty.uint_of_string (zeros k ++ s)); reflexivity.
Qed.

Lemma undec_padStart (w : nat) (n : Z) :
  0 <= n -> undec (padStart w (dec n)) = Some n.
Proof.
  intros Hn. unfold padStart. rewrite undec_zeros. unfold undec, dec.
  rewrite NilEmpty.usu. simpl. rewrite DecimalN.Unsigned.of_to.
  now rewrite Z2N.id.
Qed.

Lemma padStart_dec_inj (w : nat) (a b : Z) :
  0 <= a -> 0 <= b -> padStart w (dec a) = padStart w (dec b) -> a = b.
Proof.
  intros Ha Hb H.
  pose proof (undec_padStart w a Ha) as Ea.
  rewrite H, (undec_padStart w b Hb) in Ea. congruence.
Qed.

Lemma width2_ok : all_from (width_ok 2) 100 0 = true.
Proof. vm_compute. reflexivity. Qed.

Lemma width4_ok : all_from (width_ok 4) (Z.to_nat 10000) 0 = true.
Proof. vm_compute. reflexivity. Qed.

Lemma length_pad2 (n : Z) :
  0 <= n < 100 -> String.length (padStart 2 (dec n)) = 2%nat.
Proof.
  intros Hn. apply Nat.eqb_eq.
  apply (all_from_spec (width_ok 2) 100 0 width2_ok). simpl. lia.
Qed.

Lemma length_pad4 (n : Z) :
  0 <= n <= 9999 -> String.length (padStart 4 (dec n)) = 4%nat.
Proof.
  intros Hn. apply Nat.eqb_eq.
  apply (all_from_spec (width_ok 4) (Z.to_nat 10000) 0 width4_ok). lia.
Qed.

Lemma yearStr_inj (a b : Z) : yearStr a = yearStr b -> a = b.
Proof.
  unfold yearStr.
  destruct ((0 <=? a) && (a <=? 9999)) eqn:Ea;
    destruct ((0 <=? b) && (b <=? 9999)) eqn:Eb; intros H.
  - apply andb_true_iff in Ea, Eb. apply (padStart_dec_inj 4); [lia | lia | exact H].
  - apply andb_true_iff in Ea.
    apply (f_equal String.length) in H.
    rewrite length_pad4, length_append in H by lia.
    pose proof (length_padStart 6 (dec (Z.abs b))).
    destruct (b <? 0); simpl in H; lia.
  - apply andb_true_iff in Eb.
    apply (f_equal String.length) in H.
    rewrite length_pad4, length_append in H by lia.
    pose proof (length_padStart 6 (dec (Z.abs a))).
    destruct (a <? 0); simpl in H; lia.
  - apply andb_false_iff in Ea, Eb.
    destruct (a <? 0) eqn:Sa; destruct (b <? 0) eqn:Sb; simpl in H;
      try discriminate; injection H as H;
      apply (padStart_dec_inj 6) in H; lia.
Qed.

Lemma isoDate_inj (a b : Z) : isoDate a = isoDate b -> a = b.
Proof.
  unfold isoDate. intros H. apply civil_from_days_inj.
  pose proof (civil_roundtrip a) as Ha. pose proof (civil_roundtrip b) as Hb.
  destruct (civil_from_days a) as [[y1 m1] d1].
  destruct (civil_from_days b) as [[y2 m2] d2].
  assert (Hlen : String.length (yearStr y1) = String.length (yearStr y2)).
  { apply (f_equal String.length) in H.
    rewrite !length_append in H.
    rewrite !length_pad2 in H by lia. simpl in H. lia. }
  destruct (append_inj_length _ _ _ _ Hlen H) as [Hy H1].
  apply yearStr_inj in Hy. subst y2.
  simpl in H1. injection H1 as H1.
  assert (Hlm : String.length (padStart 2 (dec m1)) = String.length (padStart 2 (dec m2)))
    by (rewrite !length_pad2 by lia; reflexivity).
  destruct (append_inj_length _ _ _ _ Hlm H1) as [Hm H2].
  apply (padStart_dec_inj 2) in Hm; [|lia|lia]. subst m2.
  simpl in H2. injection H2 as H2.
  apply (padStart_dec_inj 2) in H2; [|lia|lia]. now subst d2.
Qed.

(** *** [formatDate] is the ISO date of the day *)

Lemma hasT_append (a b : string) : hasT (a ++ b) = hasT a || hasT b.
Proof. induction a as [|c a IH]; simpl; [reflexivity|]. now rewrite IH, orb_assoc. Qed.

Lemma hasT_zeros (k : nat) : hasT (zeros k) = false.
Proof. induction k; simpl; auto. Qed.

Lemma hasT_uint (u : Decimal.uint) : hasT (NilEmpty.string_of_uint u) = false.
Proof. induction u; simpl; auto. Qed.

Lemma hasT_padStart (w : nat) (n : Z) : hasT (padStart w (dec n)) = false.
Proof.
  unfold padStart, dec. now rewrite hasT_append, hasT_zeros, hasT_uint.
Qed.

Lemma hasT_isoDate (n : Z) : hasT (isoDate n) = false.
Proof.
  unfold isoDate. destruct (civil_from_days n) as [[y m] d].
  rewrite !hasT_append, !hasT_padStart. simpl.
  unfold yearStr.
  destruct ((0 <=? y) && (y <=? 9999)); [now rewrite hasT_padStart|].
  rewrite hasT_append, hasT_padStart. now destruct (y <? 0).
Qed.

Lemma beforeT_append (a b : string) :
  hasT a = false -> beforeT (a ++ String "T" b) = a.
Proof.
  induction a as [|c a IH]; simpl; intros H; [reflexivity|].
  apply orb_false_iff in H. destruct H as [Hc Ha].
  rewrite Hc. now rewrite IH.
Qed.

Lemma formatDate_isoDate (t : Z) : formatDate t = isoDate (dayNumber t).
Proof.
  unfold formatDate, toISOString. apply beforeT_append, hasT_isoDate.
Qed.

Lemma dayNumber_pred (t : Z) : dayNumber (setDate_pred t) = dayNumber t - 1.
Proof.
  unfold dayNumber, setDate_pred, msPerDay.
  replace (t - 86400000) with (t + (-1) * 86400000) by lia.
  rewrite Z.div_add by lia. lia.
Qed.

Lemma formatDate_inj (a b : Z) :
  formatDate a = formatDate b -> dayNumber a = dayNumber b.
Proof. rewrite !formatDate_isoDate. apply isoDate_inj. Qed.

End DateFacts.

(** ** The backward walks *)

Module WalkFacts.
Import JS Model Queries Service Aux DateFacts.

Lemma while_mono (body : Z -> Z -> Step) (fuel fuel' : nat) (t s n : Z) :
  while body fuel t s = Some n -> (fuel <= fuel')%nat ->
  while body fuel' t s = Some n.
Proof.
  revert fuel' t s. induction fuel as [|fuel IH]; intros fuel' t s H Hle.
  - discriminate.
  - destruct fuel' as [|fuel']; [lia|]. simpl in *.
    destruct (body t s); [exact H|]. apply IH; [exact H | lia].
Qed.

Lemma safetyLimit_cases (t s : Z) :
  (safetyLimit t s = Break s /\ 3650 < s) \/
  (safetyLimit t s = Continue t s /\ s <= 3650).
Proof.
  unfold safetyLimit. destruct (3650 <? s) eqn:E; [left | right]; split; auto; lia.
Qed.

(** Whatever the habit, a body that goes on goes on from the day before. *)
Lemma missedDay_Continue (habit : Habit) (t s t' s' : Z) :
  missedDay habit t s = Continue t' s' -> t' = setDate_pred t /\ s' = s.
Proof.
  unfold missedDay.
  destruct (frequency habit); try discriminate;
    (destruct (customDays habit) as [cd|]; [|discriminate];
     destruct (includes cd (getDay t)); [discriminate|];
     destruct (safetyLimit_cases (setDate_pred t) s) as [[-> _]|[-> _]];
     [discriminate | intros [= <- <-]; auto]).
Qed.

Lemma freezeBody_Continue (d : HabitData) (logs : list HabitLog) (habit : Habit)
    (t s t' s' : Z) :
  freezeBody d logs habit t s = Continue t' s' -> t' = setDate_pred t.
Proof.
  unfold freezeBody.
  destruct (isFrozen d (formatDate t)); [now intros [= <- _]|].
  destruct (completedOn logs (formatDate t)).
  - destruct (safetyLimit_cases (setDate_pred t) (s + 1)) as [[-> _]|[-> _]];
      [discriminate | now intros [= <- _]].
  - intros H. now apply missedDay_Continue in H.
Qed.




Lemma while_S (body : Z -> Z -> Step) (fuel : nat) (t s : Z) :
  while body (S fuel) t s =
  match body t s with
  | Break n => Some n
  | Continue t' s' => while body fuel t' s'
  end.
Proof. reflexivity. Qed.

Lemma missedDay_grows (habit : Habit) (t s : Z) :
  match missedDay habit t s with
  | Break n => n = s
  | Continue _ s' => s' = s
  end.
Proof.
  destruct (missedDay habit t s) as [n|t' s'] eqn:B.
  - unfold missedDay in B.
    destruct (frequency habit); [congruence| |];
      (destruct (customDays habit) as [cd|]; [|congruence];
       destruct (includes cd (getDay t)); [congruence|];
       destruct (safetyLimit_cases (setDate_pred t) s) as [[E _]|[E _]];
       rewrite E in B; congruence).
  - now apply missedDay_Continue in B.
Qed.



Section Daily.
Variables (logs : list HabitLog) (habit : Habit).
Hypothesis Hdaily : frequency habit = daily.



End Daily.

(** The walk follows the due-day rule of [isHabitDueOnDate] for a daily
    habit and for a habit that has [customDays]. *)
Lemma missedDay_due_rule (habit : Habit) (t s : Z) :
  frequency habit = daily \/ customDays habit <> None ->
  missedDay habit t s = missedDayDue habit t s.
Proof.
  unfold missedDay, missedDayDue, isHabitDueOnDate.
  destruct (frequency habit); intros [H|H]; try discriminate; try reflexivity;
    (destruct (customDays habit) as [cd|]; [|contradiction]);
    destruct (includes cd (getDay t)); reflexivity.
Qed.

(** Without [customDays] every day without a completed log breaks the
    streak, whatever the frequency. *)
Lemma missedDay_no_customDays (habit : Habit) (t s : Z) :
  customDays habit = None -> missedDay habit t s = Break s.
Proof. unfold missedDay. intros ->. now destruct (frequency habit). Qed.

Lemma completedOn_In (logs : list HabitLog) (x : string) :
  completedOn logs x = true ->
  exists l, In l logs /\ l_date l = x /\ completed l = true.
Proof.
  unfold completedOn.
  destruct (find (fun l => String.eqb (l_date l) x) logs) as [l|] eqn:F;
    [|discriminate].
  intros Hc. apply find_some in F. destruct F as [Hin E].
  apply String.eqb_eq in E. now exists l.
Qed.

End WalkFacts.

Import WalkFacts.


(** ** The walks on the concrete histories *)

Module WalkExamples.
Import JS Model Queries Service DateFacts WalkFacts Examples.

(** Below 2024-01-07 no day of [emptyDaysSnapshot] has a log, and none is
    due: the body goes on, from a day to the day before, without end. *)
Lemma emptyDays_no_log (t : Z) :
  dayNumber t < 19729 ->
  completedOn (completedLogs emptyDaysSnapshot "h1") (formatDate t) = false.
Proof.
  intros Ht.
  change (completedLogs emptyDaysSnapshot "h1") with [done "2024-01-07"].
  unfold completedOn. cbn [find l_date done].
  destruct (String.eqb "2024-01-07" (formatDate t)) eqn:Q; [|reflexivity].
  apply String.eqb_eq in Q.
  change "2024-01-07" with (formatDate (19729 * msPerDay)) in Q.
  apply formatDate_inj in Q.
  change (dayNumber (19729 * msPerDay)) with 19729 in Q. lia.
Qed.

Lemma emptyDays_plain_goes_on (fuel : nat) :
  forall t, dayNumber t < 19729 ->
  while (streakBody (completedLogs emptyDaysSnapshot "h1") (habitOf custom (Some [])))
        fuel t 1 = None.
Proof.
  induction fuel as [|fuel IH]; intros t Ht; [reflexivity|].
  rewrite while_S. unfold streakBody.
  rewrite (emptyDays_no_log t Ht). unfold missedDay. simpl.
  change (safetyLimit (setDate_pred t) 1) with (Continue (setDate_pred t) 1).
  apply IH. rewrite dayNumber_pred. lia.
Qed.

Lemma emptyDays_freeze_goes_on (fuel : nat) :
  forall t, dayNumber t < 19729 ->
  while (freezeBody emptyDaysSnapshot (completedLogs emptyDaysSnapshot "h1")
                    (habitOf custom (Some [])))
        fuel t 1 = None.
Proof.
  induction fuel as [|fuel IH]; intros t Ht; [reflexivity|].
  rewrite while_S. unfold freezeBody at 1.
  change (isFrozen emptyDaysSnapshot (formatDate t)) with false. cbv iota.
  rewrite (emptyDays_no_log t Ht). unfold missedDay. simpl.
  change (safetyLimit (setDate_pred t) 1) with (Continue (setDate_pred t) 1).
  apply IH. rewrite dayNumber_pred. lia.
Qed.

End WalkExamples.

Import WalkExamples.

(** C2.  On the [custom] habit whose [customDays] is empty, with one
    completed log, neither walk is over after any number of evaluations of
    its body, 3650 or more: the safety limit tests the streak, which stays
    at 1, and not the number of iterations.  (The days of the first 10^8
    iterations are in the range of a JavaScript [Date].) *)
Theorem C2_safety_limit_does_not_bound_the_walk (fuel : nat) :
  getCurrentStreak fuel emptyDaysSnapshot monday "h1" = None /\
  getCurrentStreakWithFreeze fuel emptyDaysSnapshot monday "h1" = None.
Proof.
  unfold getCurrentStreak, getCurrentStreakWithFreeze.
  change (getHabit emptyDaysSnapshot "h1") with (Some (habitOf custom (Some []))).
  change (List.length (completedLogs emptyDaysSnapshot "h1") =? 0)%nat with false.
  cbv iota.
  change (find (fun l => String.eqb (l_date l) (formatDate monday))
               (completedLogs emptyDaysSnapshot "h1")) with (@None HabitLog).
  change (isFrozen emptyDaysSnapshot (formatDate monday)) with false.
  cbv iota.
  destruct fuel as [|fuel]; [split; reflexivity|].
  rewrite !while_S.
  change (streakBody (completedLogs emptyDaysSnapshot "h1") (habitOf custom (Some []))
                     (setDate_pred monday) 0)
    with (Continue (setDate_pred (setDate_pred monday)) 1).
  change (freezeBody emptyDaysSnapshot (completedLogs emptyDaysSnapshot "h1")
                     (habitOf custom (Some [])) (setDate_pred monday) 0)
    with (Continue (setDate_pred (setDate_pred monday)) 1).
  split.
  - apply emptyDays_plain_goes_on. vm_compute. reflexivity.
  - apply emptyDays_freeze_goes_on. vm_compute. reflexivity.
Qed.

(** C4.  A habit without [customDays], completed on two Sundays in a row
    (2023-12-31 and 2024-01-07) and on no day between: on Monday 2024-01-08
    the walk stops at Saturday 2024-01-06, a day on which [isHabitDueOnDate]
    says the habit is not due, and returns 1, for a [weekly] and for a
    [custom] habit.  The walk with the due-day rule skips the days from
    Saturday back to Monday and returns 2 for the weekly habit. *)
Theorem C4_walk_breaks_on_days_not_due :
  getCurrentStreak 100 (sundaysSnapshot weekly) monday "h1" = Some 1 /\
  getCurrentStreak 100 (sundaysSnapshot custom) monday "h1" = Some 1 /\
  formatDate (setDate_pred (setDate_pred monday)) = "2024-01-06" /\
  getDay (setDate_pred (setDate_pred monday)) = 6 /\
  isHabitDueOnDate (habitOf weekly None) (setDate_pred (setDate_pred monday)) = false /\
  isHabitDueOnDate (habitOf custom None) (setDate_pred (setDate_pred monday)) = false /\
  streakBody (completedLogs (sundaysSnapshot weekly) "h1") (habitOf weekly None)
             (setDate_pred (setDate_pred monday)) 1 = Break 1 /\
  streakBody (completedLogs (sundaysSnapshot custom) "h1") (habitOf custom None)
             (setDate_pred (setDate_pred monday)) 1 = Break 1 /\
  while (dueBody (completedLogs (sundaysSnapshot weekly) "h1") (habitOf weekly None))
        100 (setDate_pred monday) 0 = Some 2.
Proof. vm_compute. repeat split; reflexivity. Qed.

(** ** The service: what the operations do to [this.data] *)

Module ServiceFacts.
Import JS Model Queries Service.

Ltac world_cases w :=
  destruct w as [dflt [|[oh ol oc ofz ob ov]] ck src n st sf]; cbn;
  try reflexivity.

Lemma data_inplace_logs (f : list HabitLog -> list HabitLog) (w : World) :
  data (inplace_logs f w) = set_logs (f (logs (data w))) (data w).
Proof.
  unfold inplace_logs, data. world_cases w. destruct ol; reflexivity.
Qed.

Lemma data_inplace_freezeDays (f : list FreezeDay -> list FreezeDay) (w : World) :
  data (inplace_freezeDays f w) =
  set_freezeDays (option_map f (freezeDays (data w))) (data w).
Proof.
  unfold inplace_freezeDays, data. world_cases w. destruct ofz; reflexivity.
Qed.

Lemma data_inplace_badges (f : list Badge -> list Badge) (w : World) :
  data (inplace_badges f w) = set_badges (option_map f (badges (data w))) (data w).
Proof.
  unfold inplace_badges, data. world_cases w. destruct ob; reflexivity.
Qed.

Lemma data_assign_freezeDays (v : option (list FreezeDay)) (w : World) :
  data (assign_freezeDays v w) = set_freezeDays v (data w).
Proof.
  unfold assign_freezeDays, data. world_cases w.
Qed.

Lemma data_assign_badges (v : option (list Badge)) (w : World) :
  data (assign_badges v w) = set_badges v (data w).
Proof.
  unfold assign_badges, data. world_cases w.
Qed.

Lemma clock_inplace_logs f w : clock (inplace_logs f w) = clock w.
Proof.
  unfold inplace_logs. world_cases w. destruct ol; reflexivity.
Qed.

Lemma clock_inplace_badges f w : clock (inplace_badges f w) = clock w.
Proof.
  unfold inplace_badges. world_cases w. destruct ob; reflexivity.
Qed.

Lemma clock_assign_badges v w : clock (assign_badges v w) = clock w.
Proof. unfold assign_badges. world_cases w. Qed.

(** [save] leaves [this.data] and the clock as they are, whether it is
    rejected or not. *)
Lemma save_frame (w : World) :
  data (snd (save w)) = data w /\ clock (snd (save w)) = clock w.
Proof.
  unfold save. destruct w as [dflt r ck src n st [|[|] rest]]; split; reflexivity.
Qed.

(** An operation that changes the world by [f], saves and returns [a]. *)
Lemma change_save_ret {A : Type} (f : World -> World) (a : A) (w : World) :
  data (snd ((modify f ;;; save ;;; ret a) w)) = data (f w) /\
  clock (snd ((modify f ;;; save ;;; ret a) w)) = clock (f w) /\
  (forall x, fst ((modify f ;;; save ;;; ret a) w) = Returned x -> x = a).
Proof.
  unfold bind, modify, ret.
  pose proof (save_frame (f w)) as [Hd Hc].
  destruct (save (f w)) as [[[]|] w']; simpl in *; repeat split; auto;
    intros x [=]; auto.
Qed.

(** *** Logs *)

Lemma sameLog_eq (h d : string) (l : HabitLog) :
  sameLog h d l = true <-> l_habitId l = h /\ l_date l = d.
Proof.
  unfold sameLog. rewrite andb_true_iff, !String.eqb_eq. tauto.
Qed.

Lemma getLog_find (d : HabitData) (h date : string) :
  getLog d h date = find (sameLog h date) (logs d).
Proof. reflexivity. Qed.

Lemma find_update_first_same {A : Type} (p : A -> bool) (f : A -> A) (l : list A) :
  (forall x, p (f x) = p x) ->
  find p (update_first p f l) = option_map f (find p l).
Proof.
  intros Hp. induction l as [|x l IH]; simpl; [reflexivity|].
  destruct (p x) eqn:E; simpl.
  - now rewrite Hp, E.
  - now rewrite E.
Qed.

Lemma find_update_first_other {A : Type} (p q : A -> bool) (f : A -> A) (l : list A) :
  (forall x, q (f x) = q x) ->
  (forall x, p x = true -> q x = false) ->
  find q (update_first p f l) = find q l.
Proof.
  intros Hq Hpq. induction l as [|x l IH]; simpl; [reflexivity|].
  destruct (p x) eqn:E; simpl.
  - now rewrite Hq, (Hpq x E).
  - destruct (q x); [reflexivity | exact IH].
Qed.

Lemma find_push {A : Type} (q : A -> bool) (x : A) (l : list A) :
  find q (push x l) =
  match find q l with
  | Some y => Some y
  | None => if q x then Some x else None
  end.
Proof.
  unfold push. induction l as [|y l IH]; simpl; [reflexivity|].
  destruct (q y); [reflexivity | exact IH].
Qed.

Lemma toggleHabit_frame (habitId : string) (date : option string) (w : World) :
  data (snd (toggleHabit habitId date w)) =
    set_logs (toggleLogs (clock w) habitId (targetDate date w) (logs (data w))) (data w) /\
  clock (snd (toggleHabit habitId date w)) = clock w /\
  (forall log, fst (toggleHabit habitId date w) = Returned log ->
     find (sameLog habitId (targetDate date w))
          (toggleLogs (clock w) habitId (targetDate date w) (logs (data w))) = Some log).
Proof.
  unfold toggleHabit, toggleLogs, getLog. fold (targetDate date w).
  change (fun l : HabitLog =>
            String.eqb (l_habitId l) habitId && String.eqb (l_date l) (targetDate date w))
    with (sameLog habitId (targetDate date w)).
  destruct (find (sameLog habitId (targetDate date w)) (logs (data w))) as [existing|] eqn:F.
  - match goal with |- context [(modify ?f ;;; save ;;; ret ?a) w] =>
      destruct (change_save_ret f a w) as [Hd [Hc Hr]] end.
    rewrite Hd, Hc, data_inplace_logs, clock_inplace_logs.
    repeat split; auto.
    intros log Hlog. apply Hr in Hlog. subst log.
    rewrite find_update_first_same, F; [reflexivity|].
    intros x. reflexivity.
  - match goal with |- context [(modify ?f ;;; save ;;; ret ?a) w] =>
      destruct (change_save_ret f a w) as [Hd [Hc Hr]] end.
    rewrite Hd, Hc, data_inplace_logs, clock_inplace_logs.
    repeat split; auto.
    intros log Hlog. apply Hr in Hlog. subst log.
    rewrite find_push, F. unfold sameLog, createHabitLog. simpl.
    now rewrite !String.eqb_refl.
Qed.

(** What [toggleLogs] does to the log of a habit and date. *)
Lemma find_toggleLogs_target (now : Z) (h target : string) (logs : list HabitLog) :
  find (sameLog h target) (toggleLogs now h target logs) =
  Some (match find (sameLog h target) logs with
        | Some existing => toggled now existing
        | None => createHabitLog now h target true None
        end).
Proof.
  unfold toggleLogs.
  destruct (find (sameLog h target) logs) as [existing|] eqn:F.
  - rewrite find_update_first_same, F; [reflexivity | intros x; reflexivity].
  - rewrite find_push, F. unfold sameLog, createHabitLog. simpl.
    now rewrite !String.eqb_refl.
Qed.

Lemma find_toggleLogs_other (now : Z) (h target h' d' : string) (logs : list HabitLog) :
  ~ (h' = h /\ d' = target) ->
  find (sameLog h' d') (toggleLogs now h target logs) = find (sameLog h' d') logs.
Proof.
  intros Hne.
  assert (Hpq : forall x, sameLog h target x = true -> sameLog h' d' x = false).
  { intros x Hx. apply sameLog_eq in Hx. destruct Hx as [E1 E2].
    destruct (sameLog h' d' x) eqn:E; [|reflexivity].
    apply sameLog_eq in E. destruct E. exfalso. apply Hne. split; congruence. }
  unfold toggleLogs.
  destruct (find (sameLog h target) logs) as [existing|] eqn:F.
  - apply find_update_first_other; [intros x; reflexivity | exact Hpq].
  - rewrite find_push.
    destruct (find (sameLog h' d') logs); [reflexivity|].
    rewrite Hpq; [reflexivity|].
    unfold sameLog, createHabitLog. simpl. now rewrite !String.eqb_refl.
Qed.

Lemma createHabitLog_toggled (now : Z) (h target : string) :
  completed (toggled now (createHabitLog now h target true None)) = false.
Proof. reflexivity. Qed.

(** [setHabitCompletion] on a log that exists. *)
Lemma setHabitCompletion_existing (h date : string) (c : bool) (nt : option string)
    (w : World) (log : HabitLog) :
  getLog (data w) h date = Some log ->
  getLog (data (snd (setHabitCompletion h date c nt w))) h date =
  Some (completionSet (clock w) c nt log).
Proof.
  intros F. unfold setHabitCompletion. rewrite F.
  match goal with |- context [(modify ?f ;;; save ;;; ret ?a) w] =>
    destruct (change_save_ret f a w) as [Hd _] end.
  rewrite Hd, data_inplace_logs. unfold getLog in *. cbn [logs set_logs].
  change (fun l : HabitLog => String.eqb (l_habitId l) h && String.eqb (l_date l) date)
    with (sameLog h date) in *.
  rewrite find_update_first_same, F; [reflexivity | intros x; reflexivity].
Qed.

(** *** Freeze days *)

Lemma isFrozenDate_In (date : string) (l : list FreezeDay) :
  isFrozenDate date l = true <-> In date (map f_date l).
Proof.
  unfold isFrozenDate. rewrite existsb_exists, in_map_iff.
  split; intros [f [H1 H2]]; exists f.
  - apply String.eqb_eq in H2. auto.
  - rewrite String.eqb_eq. auto.
Qed.

Lemma addFreezeDay_data (date : string) (reason : option string) (w : World) :
  freezeDays (data (snd (addFreezeDay date reason w))) =
  Some (if isFrozen (data w) date then orEmpty (freezeDays (data w))
        else push (createFreezeDay date reason) (orEmpty (freezeDays (data w)))).
Proof.
  unfold addFreezeDay, isFrozen.
  destruct (freezeDays (data w)) as [l|] eqn:E.
  - rewrite E. simpl orEmpty.
    destruct (isFrozenDate date l); [simpl; exact E|].
    match goal with |- context [(modify ?f ;;; save ;;; ret ?a) w] =>
      destruct (change_save_ret f a w) as [Hd _] end.
    rewrite Hd, data_inplace_freezeDays, E. reflexivity.
  - rewrite data_assign_freezeDays. cbn [freezeDays set_freezeDays orEmpty isFrozenDate existsb].
    match goal with |- context [(modify ?f ;;; save ;;; ret ?a) ?w0] =>
      destruct (change_save_ret f a w0) as [Hd _] end.
    rewrite Hd, data_inplace_freezeDays, data_assign_freezeDays. reflexivity.
Qed.

End ServiceFacts.

Import ServiceFacts.


(** C10.  On a log that has a note, [setHabitCompletion] without the [note]
    argument leaves the log without a note, and [toggleHabit], whatever its
    date argument, leaves the note as it is. *)
Theorem C10_note_cleared_by_set_kept_by_toggle
    (habitId date : string) (completed' : bool) (w : World) (log : HabitLog)
    (text : string) :
  getLog (data w) habitId date = Some log ->
  note log = Some text ->
  (exists log', getLog (data (snd (setHabitCompletion habitId date completed' None w)))
                       habitId date = Some log' /\ note log' = None) /\
  (forall date', exists log',
       getLog (data (snd (toggleHabit habitId date' w))) habitId date = Some log' /\
       note log' = Some text).
Proof.
  intros F Hn. split.
  - exists (completionSet (clock w) completed' None log). split; [|reflexivity].
    now apply setHabitCompletion_existing.
  - intros date'.
    destruct (toggleHabit_frame habitId date' w) as [Hd _].
    rewrite Hd. unfold getLog in *. cbn [logs set_logs].
    change (fun l : HabitLog => String.eqb (l_habitId l) habitId && String.eqb (l_date l) date)
      with (sameLog habitId date) in *.
    destruct (String.eqb date (targetDate date' w)) eqn:E.
    + apply String.eqb_eq in E. rewrite <- E.
      rewrite find_toggleLogs_target, F.
      exists (toggled (clock w) log). split; [reflexivity | exact Hn].
    + rewrite find_toggleLogs_other.
      * exists log. split; [exact F | exact Hn].
      * intros [_ E']. rewrite E', String.eqb_refl in E. discriminate.
Qed.

(** C9.  [addFreezeDay] on a date of the ledger returns [null] and leaves
    the world as it is; and [addFreezeDay] never makes a second entry for a
    date: a ledger without two entries for one date stays so. *)
Theorem C9_addFreezeDay_no_duplicate
    (date : string) (reason : option string) (w : World) :
  (isFrozen (data w) date = true ->
   addFreezeDay date reason w = (Returned None, w)) /\
  (NoDup (map f_date (orEmpty (freezeDays (data w)))) ->
   NoDup (map f_date (orEmpty (freezeDays (data (snd (addFreezeDay date reason w))))))).
Proof.
  split.
  - intros Hfz. unfold addFreezeDay.
    destruct (freezeDays (data w)) as [l|] eqn:E.
    + now rewrite Hfz.
    + unfold isFrozen in Hfz. rewrite E in Hfz. discriminate.
  - intros Hnd. rewrite addFreezeDay_data. cbn [orEmpty].
    destruct (isFrozen (data w) date) eqn:Hfz; [exact Hnd|].
    unfold push. rewrite map_app. cbn [map createFreezeDay f_date].
    apply NoDup_app.
    + exact Hnd.
    + constructor; [intros [] | constructor].
    + intros x Hx [<-|[]].
      apply isFrozenDate_In in Hx. unfold isFrozen in Hfz. congruence.
Qed.

(** ** Sorting *)

Module SortFacts.
Import JS Model Queries.

Lemma localeCompare_flip (a b : string) :
  localeCompare b a = CompOpp (localeCompare a b).
Proof.
  revert b. induction a as [|x a IH]; intros [|y b]; simpl; try reflexivity.
  rewrite (Nat.compare_antisym (nat_of_ascii x) (nat_of_ascii y)).
  destruct (nat_of_ascii x ?= nat_of_ascii y)%nat; simpl; auto.
Qed.

Section Insertion.
Context {A : Type} (cmp : A -> A -> comparison).
Hypothesis cmp_flip : forall x y, cmp y x = CompOpp (cmp x y).

Lemma In_insert (x y : A) (l : list A) :
  In y (insert cmp x l) <-> y = x \/ In y l.
Proof.
  induction l as [|z l IH]; simpl; [intuition|].
  destruct (cmp x z); simpl; rewrite ?IH; intuition.
Qed.

Lemma In_sort (y : A) (l : list A) : In y (sort cmp l) <-> In y l.
Proof.
  induction l as [|x l IH]; simpl; [reflexivity|].
  rewrite In_insert, IH. intuition.
Qed.

Lemma insert_ordered (x : A) (l : list A) :
  ordered cmp l -> ordered cmp (insert cmp x l).
Proof.
  induction l as [|y l IH]; intros Hl; [simpl; auto|].
  simpl insert. destruct (cmp x y) eqn:E.
  - split; [congruence | exact Hl].
  - split; [congruence | exact Hl].
  - destruct Hl as [Hy Hl]. specialize (IH Hl).
    split; [|exact IH].
    destruct l as [|z l]; simpl.
    + rewrite cmp_flip, E. discriminate.
    + destruct (cmp x z); [| |exact Hy]; rewrite cmp_flip, E; discriminate.
Qed.

Lemma sort_ordered (l : list A) : ordered cmp (sort cmp l).
Proof.
  induction l as [|x l IH]; [exact I|]. now apply insert_ordered.
Qed.

(** Sorting an array that is in order leaves it as it is. *)
Lemma sort_of_ordered (l : list A) : ordered cmp l -> sort cmp l = l.
Proof.
  induction l as [|x l IH]; intros Hl; [reflexivity|].
  destruct Hl as [Hx Hl]. simpl. rewrite (IH Hl).
  destruct l as [|y l]; [reflexivity|].
  simpl. destruct (cmp x y); congruence.
Qed.

Lemma sort_idempotent (l : list A) : sort cmp (sort cmp l) = sort cmp l.
Proof. apply sort_of_ordered, sort_ordered. Qed.
End Insertion.

Lemma byDateDesc_flip (x y : HabitLog) : byDateDesc y x = CompOpp (byDateDesc x y).
Proof. unfold byDateDesc. apply localeCompare_flip. Qed.

(** For a habit identifier that is not empty, the completed logs the
    streaks are computed from are the completed logs of the habit. *)
Lemma completedLogs_In (d : HabitData) (habitId : string) (l : HabitLog) :
  habitId <> "" ->
  (In l (completedLogs d habitId) <->
   In l (logs d) /\ l_habitId l = habitId /\ completed l = true).
Proof.
  intros Hne. unfold completedLogs, getLogs, selectLogs. simpl.
  destruct (String.eqb habitId "") eqn:E; [apply String.eqb_eq in E; contradiction|].
  simpl. rewrite filter_In, In_sort, filter_In, String.eqb_eq. tauto.
Qed.

(** For the empty identifier [getLogs] applies no filter: the logs of all
    habits are selected. *)
Lemma completedLogs_empty_id (d : HabitData) (l : HabitLog) :
  In l (completedLogs d "") <-> In l (logs d) /\ completed l = true.
Proof.
  unfold completedLogs, getLogs, selectLogs. simpl.
  rewrite filter_In, In_sort. tauto.
Qed.

End SortFacts.

Import SortFacts.

(** ** Badges *)

Module BadgeFacts.
Import JS Model Queries Service ServiceFacts SortFacts.

Lemma BadgeType_eqb_eq (a b : BadgeType) : BadgeType_eqb a b = true <-> a = b.
Proof. destruct a, b; simpl; split; congruence. Qed.

Lemma hasBadge_In (d : HabitData) (h : string) (t : BadgeType) :
  hasBadge d h t = true <-> In (h, t) (badgeKeys d).
Proof.
  unfold hasBadge, badgeKeys. rewrite existsb_exists, in_map_iff.
  split; intros [b [H1 H2]]; exists b.
  - apply andb_true_iff in H2. destruct H2 as [E1 E2].
    apply String.eqb_eq in E1. apply BadgeType_eqb_eq in E2. split; congruence.
  - injection H1 as E1 E2. split; [exact H2|].
    apply andb_true_iff. split; [now apply String.eqb_eq | now apply BadgeType_eqb_eq].
Qed.

Lemma generateId_bind {A : Type} (k : string -> M A) (w : World) :
  (id <- generateId ;; k id) w =
  k (idSource w (idsDrawn w))
    (mkWorld (defaults w) (this_data w) (clock w) (idSource w) (S (idsDrawn w))
             (stored w) (saveFails w)).
Proof. reflexivity. Qed.

(** What a call of [awardBadge] leaves: the badge collection as it was when
    the habit has the badge, with one badge of the habit and type more when
    it has not; the rest of the snapshot and the clock as they were. *)
Lemma awardBadge_spec (h : string) (t : BadgeType) (w : World) :
  let r := fst (awardBadge h t w) in
  let w' := snd (awardBadge h t w) in
  habits (data w') = habits (data w) /\
  logs (data w') = logs (data w) /\
  clock w' = clock w /\
  ((hasBadge (data w) h t = true /\ r = Returned None /\
    badgeKeys (data w') = badgeKeys (data w)) \/
   (hasBadge (data w) h t = false /\
    badgeKeys (data w') = (badgeKeys (data w) ++ [(h, t)])%list /\
    (r = Rejected \/ exists b, r = Returned (Some b)))).
Proof.
  unfold awardBadge.
  set (w0 := match badges (data w) with
             | Some _ => w
             | None => assign_badges (Some []) w
             end).
  assert (H0 : habits (data w0) = habits (data w) /\ logs (data w0) = logs (data w) /\
               clock w0 = clock w /\
               badges (data w0) = Some (orEmpty (badges (data w)))).
  { unfold w0. destruct (badges (data w)) eqn:E; [auto|].
    rewrite data_assign_badges, clock_assign_badges. auto. }
  destruct H0 as [Hh [Hl [Hc Hb]]].
  assert (Hhas : hasBadge (data w0) h t = hasBadge (data w) h t).
  { unfold hasBadge. now rewrite Hb. }
  assert (Hkeys : badgeKeys (data w0) = badgeKeys (data w)).
  { unfold badgeKeys. now rewrite Hb. }
  rewrite Hhas, <- Hh, <- Hl, <- Hc, <- Hkeys.
  destruct (hasBadge (data w) h t) eqn:Hb'.
  - simpl. repeat split; auto.
  - rewrite generateId_bind.
    set (wg := mkWorld _ _ _ _ _ _ _).
    assert (Hg : data wg = data w0 /\ clock wg = clock w0) by (split; reflexivity).
    destruct Hg as [Hgd Hgc].
    set (badge := createBadge _ _ h t).
    destruct (change_save_ret (inplace_badges (push badge)) (Some badge) wg)
      as [Hd [Hck Hr]].
    cbv zeta. rewrite Hd, Hck, data_inplace_badges, clock_inplace_badges, Hgd, Hgc.
    cbn [habits logs set_badges]. repeat split; auto.
    right. split; [reflexivity|]. split.
    + unfold badgeKeys. cbn [badges set_badges]. rewrite Hb. cbn [option_map orEmpty].
      unfold push. now rewrite map_app.
    + destruct (fst ((modify (inplace_badges (push badge)) ;;; save ;;; ret (Some badge)) wg))
        as [x|] eqn:F; [|now left].
      right. exists badge. now rewrite (Hr x eq_refl).
Qed.

Lemma awardLoop_cons (m : Milestone) (ms : list Milestone) (streak : Z)
    (h : string) (acc : list Badge) (w : World) :
  awardLoop (m :: ms) streak h acc w =
  if (days m <=? streak) && negb (hasBadge (data w) h (m_type m))
  then (badge <- awardBadge h (m_type m) ;;
        awardLoop ms streak h
          (match badge with
           | Some b => push b acc
           | None => acc
           end)) w
  else awardLoop ms streak h acc w.
Proof. reflexivity. Qed.

(** What the loop over the milestones leaves: only badges are added, none
    twice, and, when the loop returns, the habit has a badge for every
    milestone its streak has reached. *)
Lemma awardLoop_spec (ms : list Milestone) (streak : Z) (h : string) :
  forall (acc : list Badge) (w : World),
    let r := fst (awardLoop ms streak h acc w) in
    let w' := snd (awardLoop ms streak h acc w) in
    habits (data w') = habits (data w) /\
    logs (data w') = logs (data w) /\
    clock w' = clock w /\
    (forall k, In k (badgeKeys (data w)) -> In k (badgeKeys (data w'))) /\
    (NoDup (badgeKeys (data w)) -> NoDup (badgeKeys (data w'))) /\
    (forall bs, r = Returned bs ->
       forall m, In m ms -> days m <= streak -> In (h, m_type m) (badgeKeys (data w'))).
Proof.
  induction ms as [|m ms IH]; intros acc w.
  - simpl. repeat split; auto. intros bs _ m [].
  - rewrite awardLoop_cons.
    destruct ((days m <=? streak) && negb (hasBadge (data w) h (m_type m))) eqn:C.
    + unfold bind.
      pose proof (awardBadge_spec h (m_type m) w) as S. cbv zeta in S.
      destruct (awardBadge h (m_type m) w) as [[b|] w1]; cbn [fst snd] in *.
      * set (acc' := match b with Some b0 => push b0 acc | None => acc end).
        specialize (IH acc' w1). cbv zeta in IH.
        destruct IH as [Ih [Il [Ic [Im [In' Ip]]]]].
        destruct S as [Sh [Sl [Sc Sb]]].
        assert (Hmono : forall k, In k (badgeKeys (data w)) -> In k (badgeKeys (data w1))).
        { intros k Hk. destruct Sb as [[_ [_ ->]]|[_ [-> _]]]; [exact Hk|].
          apply in_or_app. now left. }
        assert (Hm : In (h, m_type m) (badgeKeys (data w1))).
        { destruct Sb as [[Hb [_ ->]]|[_ [-> _]]].
          - now apply hasBadge_In.
          - apply in_or_app. right. now left. }
        assert (Hnd : NoDup (badgeKeys (data w)) -> NoDup (badgeKeys (data w1))).
        { intros Hnd. destruct Sb as [[_ [_ ->]]|[Hb [-> _]]]; [exact Hnd|].
          apply NoDup_app; [exact Hnd | constructor; [intros [] | constructor] |].
          intros x Hx [<-|[]]. apply hasBadge_In in Hx. congruence. }
        repeat split; try congruence; auto.
        intros bs Hr m' [<-|Hin] Hle; [now apply Im | now apply (Ip bs)].
      * destruct S as [Sh [Sl [Sc Sb]]].
        repeat split; auto.
        -- intros k Hk. destruct Sb as [[_ [_ ->]]|[_ [-> _]]]; [exact Hk|].
           apply in_or_app. now left.
        -- intros Hnd. destruct Sb as [[_ [_ ->]]|[Hb [-> _]]]; [exact Hnd|].
           apply NoDup_app; [exact Hnd | constructor; [intros [] | constructor] |].
           intros x Hx [<-|[]]. apply hasBadge_In in Hx. congruence.
        -- intros bs [=].
    + specialize (IH acc w). cbv zeta in IH.
      destruct IH as [Ih [Il [Ic [Im [In' Ip]]]]].
      repeat split; auto.
      intros bs Hr m' [<-|Hin] Hle; [|now apply (Ip bs)].
      apply Im. apply hasBadge_In.
      apply andb_false_iff in C. destruct C as [C|C].
      * apply Z.leb_gt in C. lia.
      * now apply negb_false_iff in C.
Qed.

(** With a badge for every milestone reached, the loop awards nothing and
    leaves the world as it is. *)
Lemma awardLoop_nothing (ms : list Milestone) (streak : Z) (h : string)
    (acc : list Badge) (w : World) :
  (forall m, In m ms -> days m <= streak -> hasBadge (data w) h (m_type m) = true) ->
  awardLoop ms streak h acc w = (Returned acc, w).
Proof.
  induction ms as [|m ms IH]; intros H; [reflexivity|].
  rewrite awardLoop_cons.
  destruct (days m <=? streak) eqn:C; simpl.
  - rewrite (H m); [|now left | now apply Z.leb_le]. simpl.
    apply IH. intros m' Hin. apply H. now right.
  - apply IH. intros m' Hin. apply H. now right.
Qed.

(** *** The in-place sort of [getLogs] *)

Lemma inplace_logs_fix (f : list HabitLog -> list HabitLog) (w : World) :
  f (logs (data w)) = logs (data w) -> inplace_logs f w = w.
Proof.
  unfold inplace_logs, data.
  destruct w as [[dh dl dc df db dv] [|[oh ol oc ofz ob ov]] ck src n st sf]; cbn.
  - now intros ->.
  - destruct ol; cbn; now intros ->.
Qed.

Lemma getLogs_effect_frame (h : string) (w : World) :
  let w' := getLogs_effect (Some h) None None w in
  habits (data w') = habits (data w) /\
  badges (data w') = badges (data w) /\
  clock w' = clock w /\
  logs (data w') = (if String.eqb h "" then sort byDateDesc (logs (data w))
                    else logs (data w)).
Proof.
  unfold getLogs_effect, sortsInPlace. simpl.
  destruct (String.eqb h ""); simpl; [|auto].
  rewrite data_inplace_logs, clock_inplace_logs. auto.
Qed.

Lemma completedLogs_logs (d1 d2 : HabitData) (h : string) :
  logs d1 = logs d2 -> completedLogs d1 h = completedLogs d2 h.
Proof. unfold completedLogs, getLogs, selectLogs. now intros ->. Qed.

Lemma completedLogs_effect (h : string) (w : World) :
  completedLogs (data (getLogs_effect (Some h) None None w)) h =
  completedLogs (data w) h.
Proof.
  destruct (getLogs_effect_frame h w) as [_ [_ [_ Hl]]].
  unfold completedLogs, getLogs, selectLogs. rewrite Hl. simpl.
  destruct (String.eqb h "") eqn:E; simpl; [|reflexivity].
  now rewrite (sort_idempotent byDateDesc byDateDesc_flip).
Qed.

Lemma getCurrentStreak_ext (fuel : nat) (d1 d2 : HabitData) (now : Z) (h : string) :
  completedLogs d1 h = completedLogs d2 h ->
  habits d1 = habits d2 ->
  getCurrentStreak fuel d1 now h = getCurrentStreak fuel d2 now h.
Proof.
  intros Hl Hh. unfold getCurrentStreak, getHabit. now rewrite Hl, Hh.
Qed.

End BadgeFacts.

Import BadgeFacts.

(** C7.  After [checkAndAwardBadges(habitId)] has returned, a second call
    returns no badge and leaves the world as it is.  [awardBadge] on a habit
    that has the badge returns [null] and changes nothing, and neither
    operation ever gives a habit a second badge of one type: a collection
    without two badges for one (habit, type) pair stays so. *)
Theorem C7_badges_awarded_once (fuel : nat) (habitId : string) (w : World) :
  (forall bs w1,
     checkAndAwardBadges fuel habitId w = Some (Returned bs, w1) ->
     checkAndAwardBadges fuel habitId w1 = Some (Returned [], w1)) /\
  (forall type,
     hasBadge (data w) habitId type = true ->
     awardBadge habitId type w = (Returned None, w)) /\
  (forall type,
     NoDup (badgeKeys (data w)) ->
     NoDup (badgeKeys (data (snd (awardBadge habitId type w))))) /\
  (forall r w1,
     checkAndAwardBadges fuel habitId w = Some (r, w1) ->
     NoDup (badgeKeys (data w)) -> NoDup (badgeKeys (data w1))).
Proof.
  split; [|split; [|split]].
  - intros bs w1 H. unfold checkAndAwardBadges in *.
    destruct (getCurrentStreak fuel (data w) (clock w) habitId) as [streak|] eqn:S;
      [|discriminate].
    set (w0 := getLogs_effect (Some habitId) None None w) in *.
    pose proof (awardLoop_spec BADGE_MILESTONES streak habitId [] w0) as L.
    cbv zeta in L.
    destruct (awardLoop BADGE_MILESTONES streak habitId [] w0) as [r0 w0'].
    injection H as -> ->. cbn [fst snd] in L.
    destruct L as [Lh [Ll [Lc [_ [_ Lp]]]]].
    destruct (getLogs_effect_frame habitId w) as [Eh [_ [Ec El]]]. fold w0 in Eh, Ec, El.
    assert (S1 : getCurrentStreak fuel (data w1) (clock w1) habitId = Some streak).
    { rewrite <- S, Lc, Ec. apply getCurrentStreak_ext; [|congruence].
      rewrite (completedLogs_logs (data w1) (data w0)) by exact Ll.
      apply completedLogs_effect. }
    rewrite S1. f_equal.
    assert (Hfix : getLogs_effect (Some habitId) None None w1 = w1).
    { unfold getLogs_effect, sortsInPlace. simpl.
      destruct (String.eqb habitId "") eqn:E; simpl; [|reflexivity].
      apply inplace_logs_fix. rewrite Ll, El.
      apply (sort_idempotent byDateDesc byDateDesc_flip). }
    rewrite Hfix. apply awardLoop_nothing.
    intros m Hin Hle. apply hasBadge_In. exact (Lp bs eq_refl m Hin Hle).
  - intros type Hb. unfold awardBadge.
    destruct (badges (data w)) eqn:E.
    + now rewrite Hb.
    + unfold hasBadge in Hb. rewrite E in Hb. discriminate.
  - intros type Hnd.
    pose proof (awardBadge_spec habitId type w) as S. cbv zeta in S.
    destruct S as [_ [_ [_ [[_ [_ ->]]|[Hb [-> _]]]]]]; [exact Hnd|].
    apply NoDup_app; [exact Hnd | constructor; [intros [] | constructor] |].
    intros x Hx [<-|[]]. apply hasBadge_In in Hx. congruence.
  - intros r w1 H Hnd. unfold checkAndAwardBadges in H.
    destruct (getCurrentStreak fuel (data w) (clock w) habitId) as [streak|];
      [|discriminate].
    set (w0 := getLogs_effect (Some habitId) None None w) in *.
    pose proof (awardLoop_spec BADGE_MILESTONES streak habitId [] w0) as L.
    cbv zeta in L.
    destruct (awardLoop BADGE_MILESTONES streak habitId [] w0) as [r0 w0'].
    injection H as -> ->. cbn [fst snd] in L.
    destruct L as [_ [_ [_ [_ [Ln _]]]]]. apply Ln.
    destruct (getLogs_effect_frame habitId w) as [_ [Eb _]]. fold w0 in Eb.
    unfold badgeKeys. now rewrite Eb.
Qed.

(** C1.  [checkAndAwardBadges] takes the streak from [getCurrentStreak], the
    walk that knows no freeze days.  On the week around the frozen
    2024-01-04 the freeze-aware streak is 7 and the plain streak 4: the call
    returns no badge and leaves the world, with no badge in it, as it is. *)
Theorem C1_badges_from_plain_streak :
  getCurrentStreakWithFreeze 100 weekSnapshot monday "h1" = Some 7 /\
  getCurrentStreak 100 weekSnapshot monday "h1" = Some 4 /\
  hasBadge weekSnapshot "h1" week = false /\
  checkAndAwardBadges 100 "h1" (worldOf weekSnapshot []) =
    Some (Returned [], worldOf weekSnapshot []).
Proof. vm_compute. repeat split; reflexivity. Qed.

(** ** Import *)

Module ImportFacts.
Import JS Model Queries Service ServiceFacts.

Section Importing.
Variable JSON_parse : string -> Parsed.

Lemma importData_rejects (text : string) (w : World) :
  givesBoth (JSON_parse text) = false ->
  importData JSON_parse text w = (Returned false, Some w).
Proof.
  unfold importData, givesBoth.
  destruct (JSON_parse text) as [| | |p]; try reflexivity.
  destruct (p_habits p), (p_logs p); simpl; try reflexivity; discriminate.
Qed.

Lemma save_outcome (w : World) :
  fst (save w) = if hd false (saveFails w) then Rejected else Returned tt.
Proof. unfold save. destruct (saveFails w) as [|[|] rest]; reflexivity. Qed.

Lemma importData_result (text : string) (w : World) :
  givesBoth (JSON_parse text) = true ->
  fst (importData JSON_parse text w) = Returned (negb (hd false (saveFails w))).
Proof.
  unfold importData, givesBoth.
  destruct (JSON_parse text) as [| | |p]; try discriminate.
  destruct (p_habits p) as [| | |hs], (p_logs p) as [| | |ls];
    try discriminate; intros _; cbn [isTruthy andb];
    (destruct (spread (defaults w) p) as [o|];
     [ unfold catch, bind, modify, ret, save;
       destruct w as [dflt r ck src n st [|[|] rest]]; reflexivity
     | pose proof (save_outcome w) as S;
       destruct (save w) as [[u|] w']; cbn [fst] in S;
       destruct (hd false (saveFails w)); try discriminate; reflexivity ]).
Qed.

Lemma importData_typed (text : string) (w : World) (p : Payload) (d' : HabitData) :
  JSON_parse text = JObject p ->
  merged (defaults w) p = Some d' ->
  exists w',
    snd (importData JSON_parse text w) = Some w' /\
    data w' = d' /\ defaults w' = defaults w /\
    (fst (importData JSON_parse text w) = Returned true -> stored w' = Some d').
Proof.
  intros Hp Hm. unfold importData. rewrite Hp.
  unfold merged in Hm.
  destruct p as [ph pl pc pf pb pv]; cbn in *.
  destruct ph as [| | |hs]; try discriminate.
  destruct pl as [| | |ls]; try discriminate.
  cbn [isTruthy andb].
  destruct pc, pf, pb, pv; cbn in Hm; try discriminate; injection Hm as <-;
    unfold spread; cbn;
    unfold catch, bind, modify, ret, save, data;
    destruct w as [dflt r ck src n st [|[|] rest]]; cbn;
    eexists; repeat split; auto; discriminate.
Qed.

Lemma importData_untyped (text : string) (w : World) (p : Payload) :
  JSON_parse text = JObject p ->
  givesBoth (JObject p) = true ->
  merged (defaults w) p = None ->
  snd (importData JSON_parse text w) = None.
Proof.
  intros Hp Hg Hm. unfold importData. rewrite Hp.
  unfold givesBoth, given in Hg. unfold merged in Hm.
  destruct p as [ph pl pc pf pb pv]; cbn in *.
  destruct ph as [| | |hs]; try discriminate;
    destruct pl as [| | |ls]; try discriminate;
    cbn [isTruthy andb]; unfold spread; cbn;
    try (destruct (save w) as [[u|] w']; reflexivity).
  destruct pc, pf, pb, pv; cbn in Hm; try discriminate; cbn;
    destruct (save w) as [[u|] w']; reflexivity.
Qed.
End Importing.

End ImportFacts.

Import ImportFacts.

(** C3, the claim as stated, fails in both its readings.  Read as "lacks
    [habits] and lacks [logs]": a payload with [habits] and without [logs] is
    not in the condition, and the import fails all the same.  Read as "does
    not have both collections": the payload of [{"habits":"none","logs":7}]
    has no collection at all, and the import replaces the snapshot by it and
    reports success. *)
Lemma C3_counterexample :
  ~ (forall JSON_parse text w, importClaim lacksBoth JSON_parse text w) /\
  ~ (forall JSON_parse text w, importClaim lacksOne JSON_parse text w).
Proof.
  split; intros H.
  - specialize (H (fun _ => JObject habitsOnly) "{}" (worldOf gapSnapshot [])).
    unfold importClaim in H. simpl in H. destruct H as [H _]. discriminate.
  - specialize (H (fun _ => JObject mistyped) "{}" (worldOf gapSnapshot [])).
    unfold importClaim in H. simpl in H. discriminate.
Qed.

(** C3, amended.  [importData] never throws.  When parsing fails, when the
    parsed value is no object, or when [habits] or [logs] is absent or
    falsy ([null], [false], [0], the empty string), it returns [false] and
    leaves the world as it is.  Otherwise, whatever the two keys hold, it
    replaces the snapshot by the payload over the object
    [DEFAULT_HABIT_DATA] and saves: it returns [true] when the save goes
    through and [false] when the save is rejected, the snapshot being
    replaced in both cases.  For a payload with both collections, and
    nothing of another type under the other keys, the new snapshot is the
    payload with the fields it lacks taken from the default object, and it
    is what a save that goes through has stored; for any other payload the
    new snapshot is no [HabitData]. *)
Theorem C3_import (JSON_parse : string -> Parsed) (text : string) (w : World) :
  let res := importData JSON_parse text w in
  (exists b, fst res = Returned b) /\
  (givesBoth (JSON_parse text) = false -> res = (Returned false, Some w)) /\
  (givesBoth (JSON_parse text) = true ->
   fst res = Returned (negb (hd false (saveFails w))) /\
   forall p, JSON_parse text = JObject p ->
     match merged (defaults w) p with
     | Some d' =>
         exists w', snd res = Some w' /\ data w' = d' /\
                    (fst res = Returned true -> stored w' = Some d')
     | None => snd res = None
     end).
Proof.
  cbv zeta. split; [|split].
  - destruct (givesBoth (JSON_parse text)) eqn:G.
    + rewrite importData_result by exact G. eauto.
    + rewrite importData_rejects by exact G. now exists false.
  - apply importData_rejects.
  - intros G. split; [now apply importData_result|].
    intros p Hp. destruct (merged (defaults w) p) as [d'|] eqn:Hm.
    + destruct (importData_typed JSON_parse text w p d' Hp Hm) as [w' [S [D [_ St]]]].
      exists w'. auto.
    + apply (importData_untyped JSON_parse text w p Hp); [|exact Hm].
      now rewrite <- Hp.
Qed.

(** The object [DEFAULT_HABIT_DATA] is shared.  In a service that started
    without saved data, [this.data] is that object: the badge awarded for
    seven days in a row is pushed onto its [badges] array, and an old backup
    imported afterwards, which has no [badges] field, gets that array, with
    the badge in it. *)
Example import_shares_the_default_arrays :
  exists badge w1,
    checkAndAwardBadges 100 "h1" (firstRun sevenDays) = Some (Returned [badge], w1) /\
    b_type badge = week /\
    badges DEFAULT_HABIT_DATA = Some [] /\
    badges (defaults w1) = Some [badge] /\
    option_map (fun w2 => badges (data w2))
               (snd (importData (fun _ => JObject oldBackup) "{}" w1)) =
      Some (Some [badge]).
Proof. eexists. eexists. vm_compute. repeat split; reflexivity. Qed.

(** ** Longest streak *)

Module LongestFacts.
Import JS Model Queries.

Section Scan.
Context {A : Type} (next : A -> A -> bool).

Lemma runFrom_pos (first : A) (rest : list A) : 1 <= runFrom next first rest.
Proof.
  revert first. induction rest as [|x rest IH]; intros first; cbn [runFrom]; [lia|].
  destruct (next first x); [specialize (IH x)|]; lia.
Qed.

Lemma longestRun_nonneg (l : list A) : 0 <= longestRun next l.
Proof. induction l as [|x l IH]; cbn [longestRun]; lia. Qed.
End Scan.

Section Longest.
Variable hostDateParse : string -> option Z.

(** The loop of [getLongestStreak], with [currentStreak] the length of the
    run that ends at [prev] and [longestStreak] at least as long: its
    result is the longest of [longestStreak], of the run that goes on from
    [prev], and of the runs further on. *)
Lemma scan_longestRun (rest : list HabitLog) :
  forall (prev : HabitLog) (longestStreak currentStreak : Z),
    1 <= currentStreak <= longestStreak ->
    scan hostDateParse prev rest longestStreak currentStreak =
    Z.max longestStreak
          (Z.max (currentStreak - 1 + runFrom (nextDay hostDateParse) prev rest)
                 (longestRun (nextDay hostDateParse) rest)).
Proof.
  induction rest as [|curr rest IH]; intros prev L c Hc;
    cbn [scan runFrom longestRun].
  - lia.
  - pose proof (runFrom_pos (nextDay hostDateParse) curr rest).
    pose proof (longestRun_nonneg (nextDay hostDateParse) rest).
    destruct (nextDay hostDateParse prev curr).
    + rewrite IH by lia. lia.
    + rewrite IH by lia. lia.
Qed.

Lemma getLongestStreak_longestRun (d : HabitData) (habitId : string) :
  getLongestStreak hostDateParse d habitId =
  longestRun (nextDay hostDateParse) (sort byDateAsc (completedLogs d habitId)).
Proof.
  unfold getLongestStreak.
  destruct (sort byDateAsc (completedLogs d habitId)) as [|first rest];
    [reflexivity|].
  rewrite scan_longestRun by lia. cbn [longestRun].
  pose proof (runFrom_pos (nextDay hostDateParse) first rest).
  pose proof (longestRun_nonneg (nextDay hostDateParse) rest). lia.
Qed.
End Longest.

End LongestFacts.

Import LongestFacts.

(** ** The theorems at concrete inputs *)


(** C7 on seven completed days in a row: the first call awards the week
    badge, the second call returns no badge and changes nothing. *)
Lemma C7_badges_awarded_once_witness :
  checkAndAwardBadges 100 "h1" (worldOf sevenDays []) =
    Some (Returned [weekBadge], awarded) /\
  checkAndAwardBadges 100 "h1" awarded = Some (Returned [], awarded) /\
  awardBadge "h1" week awarded = (Returned None, awarded).
Proof.
  assert (H : checkAndAwardBadges 100 "h1" (worldOf sevenDays []) =
              Some (Returned [weekBadge], awarded)) by (vm_compute; reflexivity).
  split; [exact H|]. split.
  - exact (proj1 (C7_badges_awarded_once 100 "h1" (worldOf sevenDays []))
                 [weekBadge] awarded H).
  - apply (proj1 (proj2 (C7_badges_awarded_once 100 "h1" awarded)) week).
    vm_compute. reflexivity.
Defined.


(** C9 on the frozen 2024-01-04: a second [addFreezeDay] for the date returns
    [null] and leaves the world, with its one entry, as it is. *)
Lemma C9_addFreezeDay_no_duplicate_witness :
  isFrozen (data (worldOf gapSnapshot [])) "2024-01-04" = true /\
  addFreezeDay "2024-01-04" (Some "Rest day") (worldOf gapSnapshot []) =
    (Returned None, worldOf gapSnapshot []) /\
  NoDup (map f_date (orEmpty (freezeDays (data (snd
    (addFreezeDay "2024-01-05" None (worldOf gapSnapshot []))))))).
Proof.
  split; [vm_compute; reflexivity|]. split.
  - apply (proj1 (C9_addFreezeDay_no_duplicate "2024-01-04" (Some "Rest day")
                    (worldOf gapSnapshot []))).
    vm_compute. reflexivity.
  - apply (proj2 (C9_addFreezeDay_no_duplicate "2024-01-05" None
                    (worldOf gapSnapshot []))).
    vm_compute. constructor; [intros [] | constructor].
Defined.

(** C10 on a log with the note "20 pages". *)
Lemma C10_note_cleared_by_set_kept_by_toggle_witness :
  (exists log',
     getLog (data (snd (setHabitCompletion "h1" "2024-01-07" true None
                          (worldOf notedSnapshot [])))) "h1" "2024-01-07" = Some log' /\
     note log' = None) /\
  (forall date', exists log',
     getLog (data (snd (toggleHabit "h1" date' (worldOf notedSnapshot []))))
            "h1" "2024-01-07" = Some log' /\
     note log' = Some "20 pages").
Proof.
  apply (C10_note_cleared_by_set_kept_by_toggle "h1" "2024-01-07" true
           (worldOf notedSnapshot []) noted "20 pages").
  - reflexivity.
  - reflexivity.
Defined.

(** C3 on an old backup: the import goes through and the fields the backup
    lacks are those of the default object; without [logs] it fails and
    leaves the world as it is; with a string and a number for the two
    collections it reports success and leaves no [HabitData]. *)
Lemma C3_import_witness :
  importData (fun _ => JObject habitsOnly) "{}" (worldOf gapSnapshot []) =
    (Returned false, Some (worldOf gapSnapshot [])) /\
  (exists w',
     snd (importData (fun _ => JObject oldBackup) "{}" (worldOf gapSnapshot [])) =
       Some w' /\
     data w' = {| habits := [habitOf daily None]; logs := [done "2023-12-01"];
                  categories := Some []; freezeDays := Some []; badges := Some [];
                  version := Some 2 |}) /\
  fst (importData (fun _ => JObject oldBackup) "{}" (worldOf gapSnapshot [])) =
    Returned true /\
  importData (fun _ => JObject mistyped) "{}" (worldOf gapSnapshot []) =
    (Returned true, None).
Proof.
  split; [|split; [|split]].
  - exact (proj1 (proj2 (C3_import (fun _ => JObject habitsOnly) "{}"
                                   (worldOf gapSnapshot []))) eq_refl).
  - destruct (proj2 (proj2 (C3_import (fun _ => JObject oldBackup) "{}"
                                      (worldOf gapSnapshot []))) eq_refl)
      as [_ H].
    destruct (H oldBackup eq_refl) as [w' [Hs [Hd _]]].
    exists w'. split; [exact Hs | exact Hd].
  - exact (proj1 (proj2 (proj2 (C3_import (fun _ => JObject oldBackup) "{}"
                                          (worldOf gapSnapshot []))) eq_refl)).
  - destruct (proj2 (proj2 (C3_import (fun _ => JObject mistyped) "{}"
                                      (worldOf gapSnapshot []))) eq_refl)
      as [Hr H].
    specialize (H mistyped eq_refl). cbn in H.
    apply injective_projections; [exact Hr | exact H].
Defined.

(** * Properties of the rest of the service *)

Import Registry.

(** ** Habits and categories *)

Module RegistryFacts.
Import JS Model Queries Service Registry ServiceFacts SortFacts.

Ltac world_split w :=
  destruct w as [dflt [|[oh ol oc ofz ob ov]] ck src n st sf]; cbn;
  try reflexivity.

Lemma data_inplace_habits (f : list Habit -> list Habit) (w : World) :
  data (inplace_habits f w) = set_habits (f (habits (data w))) (data w).
Proof. unfold inplace_habits, data. world_split w. destruct oh; reflexivity. Qed.

Lemma data_inplace_categories (f : list Category -> list Category) (w : World) :
  data (inplace_categories f w) =
  set_categories (option_map f (categories (data w))) (data w).
Proof. unfold inplace_categories, data. world_split w. destruct oc; reflexivity. Qed.

Lemma data_assign_logs (v : list HabitLog) (w : World) :
  data (assign_logs v w) = set_logs v (data w).
Proof. unfold assign_logs, data. world_split w. Qed.

Lemma data_assign_categories (v : option (list Category)) (w : World) :
  data (assign_categories v w) = set_categories v (data w).
Proof. unfold assign_categories, data. world_split w. Qed.

(** What [modify f ;;; save ;;; ret a] leaves. *)
Lemma change_save_ret_full {A : Type} (f : World -> World) (a : A) (w : World) :
  let res := (modify f ;;; save ;;; ret a) w in
  data (snd res) = data (f w) /\
  (fst res = Returned a /\ stored (snd res) = Some (data (f w)) \/
   fst res = Rejected /\ stored (snd res) = stored (f w)).
Proof.
  unfold bind, modify, ret, save.
  destruct (f w) as [dflt r ck src n st [|[|] rest]]; cbn; auto.
Qed.

(** *** Arrays *)

Lemma findIndex_None {A : Type} (p : A -> bool) (l : list A) :
  findIndex p l = None <-> forall x, In x l -> p x = false.
Proof.
  induction l as [|y l IH]; simpl; [intuition|].
  destruct (p y) eqn:E.
  - split; [discriminate|]. intros H. specialize (H y (or_introl eq_refl)). congruence.
  - destruct (findIndex p l); simpl.
    + split; [discriminate|]. intros H.
      assert (Some n = None) by (apply IH; intros x Hx; apply H; now right).
      discriminate.
    + split; [|reflexivity]. intros _ x [<-|Hx]; [exact E|].
      now apply (proj1 IH).
Qed.

(** The index found is that of the first element that satisfies [p]. *)
Lemma findIndex_Some {A : Type} (p : A -> bool) (l : list A) (i : nat) :
  findIndex p l = Some i ->
  exists before x after,
    l = (before ++ x :: after)%list /\ List.length before = i /\ p x = true /\
    (forall y, In y before -> p y = false).
Proof.
  revert i. induction l as [|y l IH]; intros i; simpl; [discriminate|].
  destruct (p y) eqn:E.
  - intros [= <-]. exists [], y, l. repeat split; auto. intros z [].
  - destruct (findIndex p l) as [j|]; [|discriminate]. simpl. intros [= <-].
    destruct (IH j eq_refl) as [before [x [after [-> [Hlen [Hx Hb]]]]]].
    exists (y :: before), x, after. simpl. repeat split; auto.
    intros z [<-|Hz]; auto.
Qed.

Lemma splice1_app {A : Type} (before : list A) (x : A) (after : list A) :
  splice1 (List.length before) (before ++ x :: after) = (before ++ after)%list.
Proof. induction before as [|y b IH]; simpl; [reflexivity | now rewrite IH]. Qed.

Lemma setAt_app {A : Type} (before : list A) (x x' : A) (after : list A) :
  setAt (List.length before) x' (before ++ x :: after) = (before ++ x' :: after)%list.
Proof. induction before as [|y b IH]; simpl; [reflexivity | now rewrite IH]. Qed.

Lemma nth_error_middle {A : Type} (before : list A) (x : A) (after : list A) :
  nth_error (before ++ x :: after) (List.length before) = Some x.
Proof. induction before as [|y b IH]; simpl; auto. Qed.

Lemma find_app_first {A : Type} (p : A -> bool) (before : list A) (x : A)
    (after : list A) :
  (forall y, In y before -> p y = false) -> p x = true ->
  find p (before ++ x :: after) = Some x.
Proof.
  intros Hb Hx. induction before as [|y b IH]; simpl.
  - now rewrite Hx.
  - rewrite (Hb y (or_introl eq_refl)). apply IH. intros z Hz. apply Hb. now right.
Qed.

Lemma findIndex_find_None {A : Type} (p : A -> bool) (l : list A) :
  findIndex p l = None <-> find p l = None.
Proof.
  rewrite findIndex_None. split.
  - intros H. destruct (find p l) as [x|] eqn:F; [|reflexivity].
    apply find_some in F. destruct F as [Hin Hp]. rewrite (H x Hin) in Hp. discriminate.
  - intros F x Hin. exact (find_none p l F x Hin).
Qed.

(** *** Sorting, again *)

Section Stable.
Context {A : Type} (cmp : A -> A -> comparison).

Lemma insert_Permutation (x : A) (l : list A) : Permutation (insert cmp x l) (x :: l).
Proof.
  induction l as [|y l IH]; simpl; [reflexivity|].
  destruct (cmp x y); try reflexivity.
  rewrite IH. apply perm_swap.
Qed.

Lemma sort_Permutation (l : list A) : Permutation (sort cmp l) l.
Proof.
  induction l as [|x l IH]; simpl; [reflexivity|].
  rewrite insert_Permutation. now constructor.
Qed.

(** The sort is stable: the elements a test [p] selects keep their order,
    when [p] cannot tell apart elements that compare as equal or that stand
    on the same side of an element selected. *)
Lemma insert_filter (p : A -> bool) (x : A) (l : list A) :
  (forall y, p y = true -> cmp x y = Gt -> p x = false) ->
  filter p (insert cmp x l) = filter p (x :: l).
Proof.
  intros H. induction l as [|y l IH]; [reflexivity|].
  simpl insert. destruct (cmp x y) eqn:E; try reflexivity.
  simpl in *. destruct (p y) eqn:Py.
  - rewrite IH. rewrite (H y Py E). reflexivity.
  - exact IH.
Qed.
End Stable.

Lemma byNumber_flip (a b : Z) : byNumber b a = CompOpp (byNumber a b).
Proof. unfold byNumber. apply Z.compare_antisym. Qed.

Lemma byOrder_flip (a b : Habit) : byOrder b a = CompOpp (byOrder a b).
Proof. unfold byOrder. apply byNumber_flip. Qed.

(** An array in the order of [byOrder]: the orders never go down. *)
Lemma ordered_byOrder_sorted (l : list Habit) :
  ordered byOrder l -> StronglySorted (fun a b => order a <= order b) l.
Proof.
  induction l as [|x l IH]; intros H; [constructor|].
  destruct H as [Hx Hl]. specialize (IH Hl). constructor; [exact IH|].
  destruct l as [|y l]; [constructor|].
  assert (Hxy : order x <= order y).
  { unfold byOrder, byNumber in Hx. now apply Z.compare_le_iff. }
  constructor; [exact Hxy|].
  inversion IH as [|? ? _ Hall]; subst.
  eapply Forall_impl; [|exact Hall]. intros z Hz. simpl in Hz. lia.
Qed.

Lemma sort_byOrder_key (k : Z) (l : list Habit) :
  filter (fun h => order h =? k) (sort byOrder l) = filter (fun h => order h =? k) l.
Proof.
  induction l as [|x l IH]; [reflexivity|].
  simpl sort. rewrite insert_filter.
  - simpl. now rewrite IH.
  - intros y Hy Hgt. unfold byOrder, byNumber in Hgt.
    apply Z.eqb_eq in Hy. apply Z.compare_gt_iff in Hgt.
    apply Z.eqb_neq. lia.
Qed.

(** Up to 2^53 the doubles count in ones: adding 1 is exact below it, and
    at 2^53 it changes nothing. *)
Lemma plus_one_exact (n : Z) : 0 <= n < 2 ^ 53 -> plus n 1 = n + 1.
Proof.
  intros Hn. unfold plus, toDouble.
  assert (C : n + 1 < 2 ^ 53 \/ n + 1 = 2 ^ 53) by lia.
  destruct C as [C|C].
  - assert (L : Z.log2 (Z.abs (n + 1)) < 53).
    { rewrite Z.abs_eq by lia. apply Z.log2_lt_pow2; lia. }
    destruct (Z.leb_spec (Z.log2 (Z.abs (n + 1)) + 1) 53); [reflexivity | lia].
  - rewrite C. vm_compute. reflexivity.
Qed.

Lemma plus_one_saturates : plus (2 ^ 53) 1 = 2 ^ 53.
Proof. vm_compute. reflexivity. Qed.

End RegistryFacts.

Import RegistryFacts.

(** X1.  [getHabits(includeArchived)] returns the habits, without the
    archived ones unless [includeArchived], in ascending [order]; habits of
    the same [order] stay in the order of [this.data.habits]. *)
Theorem getHabits_sorted_stable (d : HabitData) (includeArchived : bool) :
  (forall h, In h (getHabits d includeArchived) <->
             In h (habits d) /\ (includeArchived = true \/ archived h = false)) /\
  StronglySorted (fun a b => order a <= order b) (getHabits d includeArchived) /\
  (forall k, filter (fun h => order h =? k) (getHabits d includeArchived) =
             filter (fun h => (order h =? k) && (includeArchived || negb (archived h)))
                    (habits d)).
Proof.
  unfold getHabits. split; [|split].
  - intros h. rewrite In_sort. destruct includeArchived.
    + intuition.
    + rewrite filter_In, negb_true_iff. intuition discriminate.
  - apply ordered_byOrder_sorted, sort_ordered, byOrder_flip.
  - intros k. rewrite sort_byOrder_key. destruct includeArchived; simpl.
    + apply filter_ext. intros h. now rewrite andb_true_r.
    + induction (habits d) as [|h l IH]; [reflexivity|]. simpl.
      destruct (archived h); simpl.
      * now rewrite andb_false_r.
      * rewrite andb_true_r. destruct (order h =? k); [now rewrite IH | exact IH].
Qed.

Module HabitFacts.
Import JS Model Queries Service Registry ServiceFacts RegistryFacts.

Lemma getHabit_find (d : HabitData) (id : string) :
  getHabit d id = find (hasId id) (habits d).
Proof. reflexivity. Qed.

Lemma hasId_eq (id : string) (h : Habit) : hasId id h = true <-> h_id h = id.
Proof. unfold hasId. apply String.eqb_eq. Qed.

(** The first habit of an identifier, in the array. *)
Lemma getHabit_split (d : HabitData) (id : string) (h : Habit) :
  getHabit d id = Some h ->
  exists before after,
    habits d = (before ++ h :: after)%list /\
    findIndex (hasId id) (habits d) = Some (List.length before) /\
    (forall y, In y before -> h_id y <> id) /\ h_id h = id.
Proof.
  rewrite getHabit_find. intros F.
  destruct (findIndex (hasId id) (habits d)) as [i|] eqn:E.
  - destruct (findIndex_Some _ _ _ E) as [before [x [after [Hl [Hlen [Hx Hb]]]]]].
    assert (x = h).
    { rewrite Hl, (find_app_first _ before x after Hb Hx) in F. congruence. }
    subst x. exists before, after.
    split; [exact Hl|]. split; [now rewrite Hlen|]. split.
    + intros y Hy Hid. apply hasId_eq in Hid. rewrite (Hb y Hy) in Hid. discriminate.
    + now apply hasId_eq.
  - apply findIndex_find_None in E. congruence.
Qed.

Lemma getHabit_None_findIndex (d : HabitData) (id : string) :
  getHabit d id = None -> findIndex (hasId id) (habits d) = None.
Proof. rewrite getHabit_find. apply findIndex_find_None. Qed.

Lemma find_hasId_absent (id : string) (l : list Habit) :
  ~ In id (map h_id l) -> find (hasId id) l = None.
Proof.
  intros H. induction l as [|x l IH]; [reflexivity|]. simpl.
  destruct (hasId id x) eqn:E.
  - apply hasId_eq in E. exfalso. apply H. left. exact E.
  - apply IH. intros Hin. apply H. now right.
Qed.

Lemma maxOrZero_bound (ns : list Z) :
  0 <= maxOrZero ns /\ forall n, In n ns -> n <= maxOrZero ns.
Proof.
  unfold maxOrZero. induction ns as [|x ns [IH0 IH]]; simpl; [split; [lia | intros n []]|].
  split; [lia|]. intros n [<-|Hn]; [lia|]. specialize (IH n Hn). lia.
Qed.

(** An element that follows all the others goes last. *)
Lemma sort_last {A : Type} (cmp : A -> A -> comparison) (l : list A) (x : A) :
  (forall y, In y l -> cmp y x = Lt) ->
  sort cmp (l ++ [x]) = (sort cmp l ++ [x])%list.
Proof.
  intros H.
  assert (Hins : forall y L, cmp y x = Lt -> insert cmp y (L ++ [x]) = (insert cmp y L ++ [x])%list).
  { intros y L Hy. induction L as [|z L IH]; simpl.
    - now rewrite Hy.
    - destruct (cmp y z); try reflexivity. now rewrite IH. }
  induction l as [|y l IH]; [reflexivity|].
  simpl. rewrite IH by (intros z Hz; apply H; now right).
  apply Hins. apply H. now left.
Qed.

(** What a call of [updateHabit] on the first habit [h] of the identifier
    leaves. *)
Lemma updateHabit_found (id : string) (updates : HabitPatch) (w : World) (h : Habit) :
  getHabit (data w) id = Some h ->
  let h' := set_id id (patchHabit h updates) in
  let res := updateHabit id updates w in
  (exists before after,
     habits (data w) = (before ++ h :: after)%list /\
     habits (data (snd res)) = (before ++ h' :: after)%list /\
     (forall y, In y before -> h_id y <> id)) /\
  logs (data (snd res)) = logs (data w) /\
  (fst res = Returned (Some h') /\ stored (snd res) = Some (data (snd res)) \/
   fst res = Rejected /\ stored (snd res) = stored w).
Proof.
  intros H h' res.
  destruct (getHabit_split _ _ _ H) as [before [after [Hl [Hi [Hb Hh]]]]].
  unfold res, updateHabit. rewrite Hi, Hl, nth_error_middle. fold h'.
  pose proof (change_save_ret_full (inplace_habits (setAt (List.length before) h'))
                                   (Some h') w) as S.
  cbv zeta in S. destruct S as [Sd Ss].
  rewrite Sd, data_inplace_habits. cbn [habits logs set_habits].
  rewrite Hl, setAt_app.
  split; [exists before, after; auto|]. split; [reflexivity|].
  destruct Ss as [[Sr Sst]|[Sr Sst]]; [left | right]; split; auto.
  - rewrite Sst, data_inplace_habits, Hl, setAt_app. reflexivity.
  - rewrite Sst. unfold inplace_habits.
    destruct w as [dflt [|[oh ol oc ofz ob ov]] ck src n st sf]; cbn;
      try reflexivity; destruct oh; reflexivity.
Qed.

End HabitFacts.

Import HabitFacts.

(** X2.  [deleteHabit(id)] returns [false] and changes nothing when no habit
    has the identifier.  Otherwise it takes the first habit of the
    identifier out of the array and every log of the identifier out of the
    logs, the other logs staying in their order; the call returns [true],
    with the snapshot stored, unless the save is rejected. *)
Theorem deleteHabit_cascade (id : string) (w : World) :
  let res := deleteHabit id w in
  (getHabit (data w) id = None -> res = (Returned false, w)) /\
  (forall h, getHabit (data w) id = Some h ->
     logs (data (snd res)) =
       filter (fun l => negb (String.eqb (l_habitId l) id)) (logs (data w)) /\
     (forall l, In l (logs (data (snd res))) -> l_habitId l <> id) /\
     (exists before after,
        habits (data w) = (before ++ h :: after)%list /\
        habits (data (snd res)) = (before ++ after)%list /\
        (forall y, In y before -> h_id y <> id)) /\
     (NoDup (map h_id (habits (data w))) -> getHabit (data (snd res)) id = None) /\
     (fst res = Returned true /\ stored (snd res) = Some (data (snd res)) \/
      fst res = Rejected /\ stored (snd res) = stored w)).
Proof.
  cbv zeta. split.
  - intros H. unfold deleteHabit. now rewrite (getHabit_None_findIndex _ _ H).
  - intros h H.
    destruct (getHabit_split _ _ _ H) as [before [after [Hl [Hi [Hb Hh]]]]].
    unfold deleteHabit. rewrite Hi.
    set (w1 := inplace_habits (splice1 (List.length before)) w).
    set (keep := fun l : HabitLog => negb (String.eqb (l_habitId l) id)).
    set (w2 := assign_logs (filter keep (logs (data w1))) w1).
    assert (E : (modify (inplace_habits (splice1 (List.length before))) ;;;
                 modify (fun w' => assign_logs (filter keep (logs (data w'))) w') ;;;
                 save ;;; ret true) w =
                (modify (fun _ => w2) ;;; save ;;; ret true) w) by reflexivity.
    rewrite E. clear E.
    pose proof (change_save_ret_full (fun _ => w2) true w) as S. cbv zeta in S.
    destruct S as [Sd Ss].
    assert (D2 : data w2 = set_logs (filter keep (logs (data w)))
                                    (set_habits (before ++ after)%list (data w))).
    { unfold w2. rewrite data_assign_logs. unfold w1.
      rewrite data_inplace_habits. cbn [logs set_habits]. rewrite Hl, splice1_app.
      reflexivity. }
    assert (St : stored w2 = stored w).
    { unfold w2, w1, assign_logs, inplace_habits.
      destruct w as [dflt [|[oh ol oc ofz ob ov]] ck src n st sf]; cbn;
        try reflexivity; destruct oh; reflexivity. }
    rewrite Sd, D2. cbn [logs habits set_logs set_habits].
    split; [reflexivity|]. split; [|split; [|split]].
    + intros l Hin. apply filter_In in Hin. destruct Hin as [_ Hk].
      unfold keep in Hk. apply negb_true_iff, String.eqb_neq in Hk. exact Hk.
    + exists before, after. auto.
    + intros Hnd. rewrite getHabit_find. cbn [habits set_logs set_habits]. apply find_hasId_absent.
      rewrite Hl, map_app in Hnd. simpl in Hnd. rewrite Hh in Hnd.
      apply NoDup_remove_2 in Hnd. now rewrite map_app.
    + destruct Ss as [[Sr Sst]|[Sr Sst]]; [left | right]; split; auto.
      * rewrite Sst. cbv beta. now rewrite D2.
      * now rewrite Sst.
Qed.

(** X3.  [updateHabit(id, updates)] returns [undefined] and changes nothing
    when no habit has the identifier.  Otherwise the first habit of the
    identifier is replaced, in its place, by the habit with the updates laid
    over it, and the identifier stays [id] even when the updates carry
    another one; the other habits and the logs stay as they are. *)
Theorem updateHabit_keeps_id (id : string) (updates : HabitPatch) (w : World) :
  let res := updateHabit id updates w in
  (getHabit (data w) id = None -> res = (Returned None, w)) /\
  (forall h, getHabit (data w) id = Some h ->
     let h' := set_id id (patchHabit h updates) in
     h_id h' = id /\
     getHabit (data (snd res)) id = Some h' /\
     (exists before after,
        habits (data w) = (before ++ h :: after)%list /\
        habits (data (snd res)) = (before ++ h' :: after)%list) /\
     logs (data (snd res)) = logs (data w) /\
     (fst res = Returned (Some h') \/ fst res = Rejected)).
Proof.
  cbv zeta. split.
  - intros H. unfold updateHabit. now rewrite (getHabit_None_findIndex _ _ H).
  - intros h H.
    destruct (updateHabit_found id updates w h H)
      as [[before [after [Hl [Hl' Hb]]]] [Hlogs Hr]].
    split; [reflexivity|]. split; [|split; [|split]].
    + rewrite getHabit_find, Hl'. apply find_app_first.
      * intros y Hy. specialize (Hb y Hy). unfold hasId.
        now apply String.eqb_neq.
      * unfold hasId. simpl. apply String.eqb_refl.
    + exists before, after. auto.
    + exact Hlogs.
    + destruct Hr as [[Hr _]|[Hr _]]; auto.
Qed.

(** X4.  [archiveHabit(id)] is a soft delete: it returns [false] and changes
    nothing when no habit has the identifier; otherwise the first habit of
    the identifier gets [archived = true] and nothing else about it changes,
    it is no longer among [getHabits()] and still among [getHabits(true)],
    and the logs stay. *)
Theorem archiveHabit_soft_delete (id : string) (w : World) :
  let res := archiveHabit id w in
  (getHabit (data w) id = None -> res = (Returned false, w)) /\
  (forall h, getHabit (data w) id = Some h ->
     let h' := patchHabit h archivedPatch in
     archived h' = true /\
     getHabit (data (snd res)) id = Some h' /\
     ~ In h' (getHabits (data (snd res)) false) /\
     In h' (getHabits (data (snd res)) true) /\
     logs (data (snd res)) = logs (data w) /\
     (fst res = Returned true \/ fst res = Rejected)).
Proof.
  cbv zeta. unfold archiveHabit, bind. split.
  - intros H. unfold updateHabit. rewrite (getHabit_None_findIndex _ _ H). reflexivity.
  - intros h H.
    destruct (proj2 (updateHabit_keeps_id id archivedPatch w) h H)
      as [_ [Hg [[before [after [Hl Hl']]] [Hlogs Hr]]]].
    assert (Hsame : set_id id (patchHabit h archivedPatch) = patchHabit h archivedPatch).
    { destruct (getHabit_split _ _ _ H) as [_ [_ [_ [_ [_ Hh]]]]].
      unfold set_id, patchHabit, archivedPatch. simpl. now rewrite Hh. }
    rewrite Hsame in *.
    destruct (updateHabit id archivedPatch w) as [[x|] w'] eqn:U;
      cbv beta iota delta [ret fst snd] in *.
    + split; [reflexivity|]. split; [exact Hg|]. split; [|split; [|split]].
      * intros Hin. apply (proj1 (getHabits_sorted_stable _ _)) in Hin.
        destruct Hin as [_ [Hc|Hc]]; discriminate.
      * apply (proj1 (getHabits_sorted_stable _ _)). split; [|now left].
        rewrite Hl'. apply in_or_app. right. now left.
      * exact Hlogs.
      * destruct Hr as [Hr|Hr]; [|discriminate]. injection Hr as ->. now left.
    + split; [reflexivity|]. split; [exact Hg|]. split; [|split; [|split]].
      * intros Hin. apply (proj1 (getHabits_sorted_stable _ _)) in Hin.
        destruct Hin as [_ [Hc|Hc]]; discriminate.
      * apply (proj1 (getHabits_sorted_stable _ _)). split; [|now left].
        rewrite Hl'. apply in_or_app. right. now left.
      * exact Hlogs.
      * now right.
Qed.

(** X5.  [addHabit] appends the new habit to the array, with the [order]
    that the double addition [maxOrder + 1] gives, whatever [order] the
    options carry.  While the largest [order] there is below 2^53 this is
    one more than it (1 in an empty array, and at least 1 always): the
    order is above that of every habit there, and [getHabits(true)] lists
    the new habit last.  At 2^53 the sum is 2^53 again. *)
Theorem addHabit_goes_last (name : string) (frequency : option HabitFrequency)
    (options : HabitPatch) (w : World) :
  let res := addHabit name frequency options w in
  let maxOrder := maxOrZero (map order (habits (data w))) in
  exists h',
    habits (data (snd res)) = (habits (data w) ++ [h'])%list /\
    order h' = plus maxOrder 1 /\
    logs (data (snd res)) = logs (data w) /\
    (fst res = Returned h' \/ fst res = Rejected) /\
    (maxOrder < 2 ^ 53 ->
     order h' = maxOrder + 1 /\
     1 <= order h' /\
     (habits (data w) = [] -> order h' = 1) /\
     (forall h, In h (habits (data w)) -> order h < order h') /\
     getHabits (data (snd res)) true = (getHabits (data w) true ++ [h'])%list) /\
    (maxOrder = 2 ^ 53 -> order h' = maxOrder).
Proof.
  cbv zeta. unfold addHabit. rewrite generateId_bind.
  set (wg := mkWorld _ _ _ _ _ _ _).
  set (h' := createHabit _ _ _ _ _).
  assert (Hgd : data wg = data w) by reflexivity.
  pose proof (change_save_ret_full (inplace_habits (push h')) h' wg) as S.
  cbv zeta in S. destruct S as [Sd Ss].
  destruct (maxOrZero_bound (map order (habits (data w)))) as [M0 M].
  assert (Hp : order h' = plus (maxOrZero (map order (habits (data w)))) 1)
    by reflexivity.
  exists h'. rewrite Sd, data_inplace_habits, Hgd. cbn [habits logs set_habits].
  split; [reflexivity|]. split; [exact Hp|]. split; [reflexivity|].
  split; [destruct Ss as [[Sr _]|[Sr _]]; auto|]. split.
  - intros Hsafe.
    assert (Ho : order h' = maxOrZero (map order (habits (data w))) + 1).
    { rewrite Hp. apply plus_one_exact. lia. }
    assert (Hlt : forall h, In h (habits (data w)) -> order h < order h').
    { intros h Hin. rewrite Ho. specialize (M (order h) (in_map order _ _ Hin)). lia. }
    split; [exact Ho|]. split; [lia|]. split; [|split].
    + intros E. rewrite Ho, E. reflexivity.
    + exact Hlt.
    + unfold getHabits. cbn [habits set_habits]. unfold push. apply sort_last.
      intros y Hy. unfold byOrder, byNumber. apply Z.compare_lt_iff. now apply Hlt.
  - intros E. rewrite Hp, E. apply plus_one_saturates.
Qed.

Import Aux2.

Module ReorderFacts.
Import JS Model Queries Service Registry Aux2 ServiceFacts RegistryFacts HabitFacts.

Lemma hasId_set_order (x : string) (n : Z) (h : Habit) :
  hasId x (set_order n h) = hasId x h.
Proof. reflexivity. Qed.

Lemma reorderFrom_ids (ids : list string) :
  forall (i : nat) (hs : list Habit),
    map h_id (reorderFrom i ids hs) = map h_id hs.
Proof.
  induction ids as [|a ids IH]; intros i hs; [reflexivity|].
  simpl. rewrite IH. clear IH.
  induction hs as [|h hs IHh]; [reflexivity|]. simpl.
  destruct (hasId a h); simpl; [reflexivity | now rewrite IHh].
Qed.

Lemma find_reorder_step (x a : string) (n : Z) (hs : list Habit) :
  x <> a ->
  find (hasId x) (update_first (hasId a) (set_order n) hs) = find (hasId x) hs.
Proof.
  intros Hne. apply find_update_first_other.
  - intros h. reflexivity.
  - intros h Ha. apply hasId_eq in Ha. unfold hasId. apply String.eqb_neq. congruence.
Qed.

Lemma reorderFrom_other (x : string) (ids : list string) :
  ~ In x ids ->
  forall (i : nat) (hs : list Habit),
    find (hasId x) (reorderFrom i ids hs) = find (hasId x) hs.
Proof.
  induction ids as [|a ids IH]; intros Hx i hs; [reflexivity|].
  simpl. rewrite IH by (intros H; apply Hx; now right).
  apply find_reorder_step. intros ->. apply Hx. now left.
Qed.

(** The habit of the identifier at position [k] gets the order [k]. *)
Lemma reorderFrom_nth (ids : list string) :
  NoDup ids ->
  forall (k i : nat) (x : string) (hs : list Habit),
    nth_error ids k = Some x ->
    find (hasId x) (reorderFrom i ids hs) =
    option_map (set_order (Z.of_nat (i + k))) (find (hasId x) hs).
Proof.
  induction ids as [|a ids IH]; intros Hnd k i x hs Hk.
  - destruct k; discriminate.
  - inversion Hnd as [|? ? Ha Hnd']; subst. destruct k as [|k]; simpl in *.
    + injection Hk as ->. rewrite reorderFrom_other by exact Ha.
      rewrite find_update_first_same by (intros h; reflexivity).
      now rewrite Nat.add_0_r.
    + rewrite (IH Hnd' k (S i) x _ Hk).
      rewrite find_reorder_step.
      * now replace (S i + k)%nat with (i + S k)%nat by lia.
      * intros ->. apply Ha. eapply nth_error_In; eauto.
Qed.

(** *** Positions *)

Lemma indexOf_nth (x : string) (ids : list string) :
  In x ids -> nth_error ids (indexOf x ids) = Some x.
Proof.
  induction ids as [|y ids IH]; intros H; [destruct H|]. simpl.
  destruct (String.eqb y x) eqn:E.
  - apply String.eqb_eq in E. now subst.
  - destruct H as [->|H]; [now rewrite String.eqb_refl in E|]. simpl. now apply IH.
Qed.

Lemma indexOf_seq (ids : list string) :
  NoDup ids -> map (fun x => indexOf x ids) ids = seq 0 (List.length ids).
Proof.
  induction ids as [|y ids IH]; intros Hnd; [reflexivity|].
  inversion Hnd as [|? ? Hy Hnd']; subst. simpl. rewrite String.eqb_refl. f_equal.
  rewrite <- seq_shift, <- (IH Hnd'), map_map.
  apply map_ext_in. intros x Hx.
  destruct (String.eqb y x) eqn:E; [|reflexivity].
  apply String.eqb_eq in E. subst. contradiction.
Qed.

(** Two arrays of numbers in ascending order with the same elements are
    the same array. *)
Lemma sorted_Permutation_eq (l1 l2 : list nat) :
  StronglySorted le l1 -> StronglySorted le l2 -> Permutation l1 l2 -> l1 = l2.
Proof.
  revert l2. induction l1 as [|x l1 IH]; intros l2 S1 S2 P.
  - apply Permutation_nil in P. now subst.
  - destruct l2 as [|y l2]; [apply Permutation_sym, Permutation_nil in P; discriminate|].
    inversion S1 as [|? ? S1' F1]; inversion S2 as [|? ? S2' F2]; subst.
    assert (x = y).
    { assert (Hy : In y (x :: l1)) by (eapply Permutation_in; [apply Permutation_sym; exact P | now left]).
      assert (Hx : In x (y :: l2)) by (eapply Permutation_in; [exact P | now left]).
      rewrite Forall_forall in F1, F2.
      destruct Hy as [->|Hy]; [reflexivity|]. destruct Hx as [->|Hx]; [reflexivity|].
      specialize (F1 y Hy). specialize (F2 x Hx). lia. }
    subst y. f_equal. apply IH; auto. eapply Permutation_cons_inv; eauto.
Qed.

Lemma seq_sorted (n a : nat) : StronglySorted le (seq a n).
Proof.
  revert a. induction n as [|n IH]; intros a; simpl; constructor; [apply IH|].
  apply Forall_forall. intros x Hx. apply in_seq in Hx. lia.
Qed.

(** An array with the positions of [ids], in [ids], is [ids]. *)
Lemma positions_eq (ids l : list string) :
  (forall x, In x l -> In x ids) ->
  map (fun x => indexOf x ids) l = seq 0 (List.length ids) ->
  l = ids.
Proof.
  intros Hin Hmap.
  assert (E : map (fun k => nth k ids "") (map (fun x => indexOf x ids) l) = l).
  { rewrite map_map. rewrite <- (map_id l) at 2. apply map_ext_in.
    intros x Hx. apply nth_error_nth. apply indexOf_nth. now apply Hin. }
  rewrite Hmap in E. rewrite <- E.
  clear. induction ids as [|y ids IH]; [reflexivity|].
  simpl. f_equal. rewrite <- seq_shift, map_map. exact IH.
Qed.

End ReorderFacts.

Import ReorderFacts.

(** X6.  [reorderHabits(orderedIds)], for identifiers without repetition:
    the first habit of the identifier at position [k] gets the order [k],
    the habits of identifiers that are not listed keep theirs, and no habit
    changes place in the array or in anything else.  When the identifiers
    are those of the habits, each once, [getHabits(true)] lists the habits
    in the order of [orderedIds]. *)
Theorem reorderHabits_gives_the_order (orderedIds : list string) (w : World) :
  NoDup orderedIds ->
  let w' := snd (reorderHabits orderedIds w) in
  (forall k x h, nth_error orderedIds k = Some x ->
                 getHabit (data w) x = Some h ->
                 getHabit (data w') x = Some (set_order (Z.of_nat k) h)) /\
  (forall x, ~ In x orderedIds -> getHabit (data w') x = getHabit (data w) x) /\
  map h_id (habits (data w')) = map h_id (habits (data w)) /\
  logs (data w') = logs (data w) /\
  (NoDup (map h_id (habits (data w))) ->
   Permutation orderedIds (map h_id (habits (data w))) ->
   map h_id (getHabits (data w') true) = orderedIds).
Proof.
  intros Hnd w'.
  assert (D : data w' = set_habits (reorderFrom 0 orderedIds (habits (data w))) (data w)).
  { unfold w', reorderHabits, bind, modify.
    pose proof (save_frame (inplace_habits (reorderFrom 0 orderedIds) w)) as [Sd _].
    destruct (save (inplace_habits (reorderFrom 0 orderedIds) w)) as [[[]|] w1];
      cbn [fst snd] in *; rewrite Sd; apply data_inplace_habits. }
  rewrite D. cbn [habits logs set_habits].
  assert (Hnth : forall k x h, nth_error orderedIds k = Some x ->
                   find (hasId x) (habits (data w)) = Some h ->
                   find (hasId x) (reorderFrom 0 orderedIds (habits (data w))) =
                   Some (set_order (Z.of_nat k) h)).
  { intros k x h Hk F. rewrite (reorderFrom_nth _ Hnd k 0 x _ Hk), F. reflexivity. }
  split; [|split; [|split; [|split]]].
  - intros k x h Hk F. rewrite getHabit_find in *. cbn [habits set_habits].
    now apply Hnth.
  - intros x Hx. rewrite !getHabit_find. cbn [habits set_habits].
    now apply reorderFrom_other.
  - apply reorderFrom_ids.
  - reflexivity.
  - intros Hids Hperm. unfold getHabits. cbn [habits set_habits].
    set (hs' := reorderFrom 0 orderedIds (habits (data w))).
    assert (Hids' : map h_id hs' = map h_id (habits (data w))) by apply reorderFrom_ids.
    (* every habit has the position of its identifier for order *)
    assert (Hord : forall h, In h hs' -> order h = Z.of_nat (indexOf (h_id h) orderedIds)).
    { intros h Hh.
      assert (Hin : In (h_id h) orderedIds).
      { eapply Permutation_in; [apply Permutation_sym; exact Hperm|].
        rewrite <- Hids'. now apply in_map. }
      assert (Hf : find (hasId (h_id h)) hs' = Some h).
      { destruct (in_split _ _ Hh) as [before [after Hs]]. rewrite Hs.
        apply find_app_first; [|apply String.eqb_refl].
        intros y Hy. unfold hasId. apply String.eqb_neq. intros E.
        rewrite <- Hids', Hs, map_app in Hids. simpl in Hids.
        apply NoDup_remove_2 in Hids. apply Hids. apply in_or_app. left.
        rewrite <- E. now apply in_map. }
      unfold hs' in Hf.
      destruct (find (hasId (h_id h)) (habits (data w))) as [h0|] eqn:F0.
      - rewrite (Hnth _ _ _ (indexOf_nth _ _ Hin) F0) in Hf.
        injection Hf as Hf. pose proof (f_equal order Hf) as Ho.
        cbn [order set_order] in Ho. now rewrite <- Ho.
      - rewrite (reorderFrom_nth _ Hnd _ 0 _ _ (indexOf_nth _ _ Hin)), F0 in Hf.
        discriminate. }
    set (S := sort byOrder hs').
    assert (HP : Permutation S hs') by apply sort_Permutation.
    apply positions_eq.
    + intros x Hx. eapply Permutation_in; [apply Permutation_sym; exact Hperm|].
      rewrite <- Hids'. eapply Permutation_in; [|exact Hx].
      now apply Permutation_map.
    + rewrite map_map. apply sorted_Permutation_eq.
      * assert (Hs : StronglySorted (fun a b => order a <= order b) S)
          by apply ordered_byOrder_sorted, sort_ordered, byOrder_flip.
        assert (Hall : forall h, In h S -> In h hs')
          by (intros h Hh; eapply Permutation_in; eauto).
        clear -Hs Hall Hord. induction Hs as [|h l Hs IH F]; simpl; constructor.
        -- apply IH. intros y Hy. apply Hall. now right.
        -- rewrite Forall_forall in *. intros n Hn.
           apply in_map_iff in Hn. destruct Hn as [y [<- Hy]].
           specialize (F y Hy).
           rewrite (Hord h), (Hord y) in F by (apply Hall; simpl; auto). lia.
      * apply seq_sorted.
      * rewrite <- (indexOf_seq _ Hnd).
        rewrite <- (map_map h_id (fun x => indexOf x orderedIds)).
        apply Permutation_map.
        rewrite Hperm, <- Hids'. now apply Permutation_map.
Qed.

(** ** Logs and freeze days *)

Module LedgerFacts.
Import JS Model Queries Service Registry Aux2 ServiceFacts RegistryFacts.

Lemma setHabitCompletion_frame (h date : string) (c : bool) (nt : option string)
    (w : World) :
  let res := setHabitCompletion h date c nt w in
  data (snd res) = set_logs (upsertLogs (clock w) h date c nt (logs (data w))) (data w) /\
  (fst res = Returned (createHabitLog (clock w) h date c nt) /\
   stored (snd res) = Some (data (snd res)) \/
   fst res = Rejected /\ stored (snd res) = stored w).
Proof.
  cbv zeta. unfold setHabitCompletion, upsertLogs. rewrite getLog_find.
  destruct (find (sameLog h date) (logs (data w))) as [existing|] eqn:F.
  - match goal with |- context [(modify ?f ;;; save ;;; ret ?a) w] =>
      pose proof (change_save_ret_full f a w) as S end.
    cbv zeta in S. destruct S as [Sd Ss].
    rewrite Sd, data_inplace_logs. split; [reflexivity|].
    apply find_some in F. destruct F as [_ F]. apply sameLog_eq in F. destruct F as [E1 E2].
    assert (E : completionSet (clock w) c nt existing = createHabitLog (clock w) h date c nt).
    { unfold completionSet, createHabitLog. now rewrite E1, E2. }
    destruct Ss as [[Sr Sst]|[Sr Sst]]; [left | right]; split; auto.
    + now rewrite Sr, E.
    + now rewrite Sst, data_inplace_logs.
    + rewrite Sst. unfold inplace_logs.
      destruct w as [dflt [|[oh ol oc ofz ob ov]] ck src n st sf]; cbn;
        try reflexivity; destruct ol; reflexivity.
  - match goal with |- context [(modify ?f ;;; save ;;; ret ?a) w] =>
      pose proof (change_save_ret_full f a w) as S end.
    cbv zeta in S. destruct S as [Sd Ss].
    rewrite Sd, data_inplace_logs. split; [reflexivity|].
    destruct Ss as [[Sr Sst]|[Sr Sst]]; [left | right]; split; auto.
    + now rewrite Sst, data_inplace_logs.
    + rewrite Sst. unfold inplace_logs.
      destruct w as [dflt [|[oh ol oc ofz ob ov]] ck src n st sf]; cbn;
        try reflexivity; destruct ol; reflexivity.
Qed.

Lemma find_upsertLogs_target (now : Z) (h date : string) (c : bool)
    (nt : option string) (logs : list HabitLog) :
  find (sameLog h date) (upsertLogs now h date c nt logs) =
  Some (createHabitLog now h date c nt).
Proof.
  unfold upsertLogs.
  destruct (find (sameLog h date) logs) as [existing|] eqn:F.
  - rewrite find_update_first_same, F by (intros x; reflexivity). simpl.
    apply find_some in F. destruct F as [_ F]. apply sameLog_eq in F. destruct F as [E1 E2].
    unfold completionSet, createHabitLog. now rewrite E1, E2.
  - rewrite find_push, F. unfold sameLog, createHabitLog. simpl.
    now rewrite !String.eqb_refl.
Qed.

Lemma sameLog_apart (h d h' d' : string) (x : HabitLog) :
  ~ (h' = h /\ d' = d) -> sameLog h d x = true -> sameLog h' d' x = false.
Proof.
  intros Hne Hx. apply sameLog_eq in Hx. destruct Hx as [E1 E2].
  destruct (sameLog h' d' x) eqn:E; [|reflexivity].
  apply sameLog_eq in E. destruct E. exfalso. apply Hne. split; congruence.
Qed.

Lemma find_upsertLogs_other (now : Z) (h date h' d' : string) (c : bool)
    (nt : option string) (logs : list HabitLog) :
  ~ (h' = h /\ d' = date) ->
  find (sameLog h' d') (upsertLogs now h date c nt logs) = find (sameLog h' d') logs.
Proof.
  intros Hne. unfold upsertLogs.
  destruct (find (sameLog h date) logs) as [existing|] eqn:F.
  - apply find_update_first_other; [intros x; reflexivity|].
    intros x. now apply sameLog_apart.
  - rewrite find_push. destruct (find (sameLog h' d') logs); [reflexivity|].
    rewrite (sameLog_apart h date h' d'); auto.
    unfold sameLog, createHabitLog. simpl. now rewrite !String.eqb_refl.
Qed.

(** The keys of the logs after a change of the first log of a key that
    leaves the key alone, and after a push. *)
Lemma keys_update_first (p : HabitLog -> bool) (f : HabitLog -> HabitLog)
    (logs : list HabitLog) :
  (forall x, l_habitId (f x) = l_habitId x /\ l_date (f x) = l_date x) ->
  map (fun l => (l_habitId l, l_date l)) (update_first p f logs) =
  map (fun l => (l_habitId l, l_date l)) logs.
Proof.
  intros Hf. induction logs as [|x logs IH]; [reflexivity|]. simpl.
  destruct (p x); simpl; [|now rewrite IH].
  destruct (Hf x) as [-> ->]. reflexivity.
Qed.

Lemma find_sameLog_None (h d : string) (logs : list HabitLog) :
  find (sameLog h d) logs = None ->
  ~ In (h, d) (map (fun l => (l_habitId l, l_date l)) logs).
Proof.
  intros F Hin. apply in_map_iff in Hin. destruct Hin as [x [E Hx]].
  injection E as E1 E2.
  pose proof (find_none _ _ F x Hx) as N.
  assert (sameLog h d x = true) by (apply sameLog_eq; auto). congruence.
Qed.

Lemma NoDup_push {A : Type} (x : A) (l : list A) :
  NoDup l -> ~ In x l -> NoDup (l ++ [x]).
Proof.
  intros Hnd Hx. apply NoDup_app; [exact Hnd | constructor; [intros [] | constructor] |].
  intros y Hy [<-|[]]. contradiction.
Qed.

Lemma toggleLogs_keys (now : Z) (h target : string) (logs : list HabitLog) :
  NoDup (map (fun l => (l_habitId l, l_date l)) logs) ->
  NoDup (map (fun l => (l_habitId l, l_date l)) (toggleLogs now h target logs)).
Proof.
  intros Hnd. unfold toggleLogs.
  destruct (find (sameLog h target) logs) eqn:F.
  - rewrite keys_update_first; [exact Hnd | intros x; split; reflexivity].
  - unfold push. rewrite map_app. apply NoDup_push; [exact Hnd|].
    now apply find_sameLog_None.
Qed.

Lemma upsertLogs_keys (now : Z) (h date : string) (c : bool) (nt : option string)
    (logs : list HabitLog) :
  NoDup (map (fun l => (l_habitId l, l_date l)) logs) ->
  NoDup (map (fun l => (l_habitId l, l_date l)) (upsertLogs now h date c nt logs)).
Proof.
  intros Hnd. unfold upsertLogs.
  destruct (find (sameLog h date) logs) eqn:F.
  - rewrite keys_update_first; [exact Hnd | intros x; split; reflexivity].
  - unfold push. rewrite map_app. apply NoDup_push; [exact Hnd|].
    now apply find_sameLog_None.
Qed.

(** *** Freeze days *)


Lemma isFrozenDate_findIndex (date : string) (l : list FreezeDay) :
  isFrozenDate date l = false <-> findIndex (onDate date) l = None.
Proof.
  rewrite findIndex_None. unfold isFrozenDate.
  rewrite <- not_true_iff_false, existsb_exists. split.
  - intros H x Hx. destruct (onDate date x) eqn:E; [|reflexivity].
    exfalso. apply H. exists x. auto.
  - intros H [x [Hx E]]. change (onDate date x = true) in E.
    rewrite (H x Hx) in E. discriminate.
Qed.

Lemma isFrozenDate_app (date : string) (l1 l2 : list FreezeDay) :
  isFrozenDate date (l1 ++ l2) = isFrozenDate date l1 || isFrozenDate date l2.
Proof. unfold isFrozenDate. apply existsb_app. Qed.

(** What [removeFreezeDay] leaves of a ledger [fs]. *)
Lemma removeFreezeDay_found (date : string) (w : World) (fs : list FreezeDay)
    (index : nat) :
  freezeDays (data w) = Some fs ->
  findIndex (onDate date) fs = Some index ->
  let res := removeFreezeDay date w in
  data (snd res) = set_freezeDays (Some (splice1 index fs)) (data w) /\
  (fst res = Returned true /\ stored (snd res) = Some (data (snd res)) \/
   fst res = Rejected /\ stored (snd res) = stored w).
Proof.
  intros Hfs Hi. cbv zeta. unfold removeFreezeDay. rewrite Hfs, Hi.
  pose proof (change_save_ret_full (inplace_freezeDays (splice1 index)) true w) as S.
  cbv zeta in S. destruct S as [Sd Ss].
  rewrite Sd, data_inplace_freezeDays, Hfs. split; [reflexivity|].
  destruct Ss as [[Sr Sst]|[Sr Sst]]; [left | right]; split; auto.
  - now rewrite Sst, data_inplace_freezeDays, Hfs.
  - rewrite Sst. unfold inplace_freezeDays.
    destruct w as [dflt [|[oh ol oc ofz ob ov]] ck src n st sf]; cbn;
      try reflexivity; destruct ofz; reflexivity.
Qed.

End LedgerFacts.

Import LedgerFacts.

(** X7.  [setHabitCompletion(habitId, date, completed, note)] is an upsert:
    afterwards the log of the habit for the date is the log
    [createHabitLog(habitId, date, completed, note)] would make, with
    [completedAt] stamped exactly when [completed], whether a log was there
    or not; the logs of other habits and dates are as they were.  When the
    call returns, the snapshot stored is the one in memory; when the save is
    rejected the change stays in memory and the store keeps what it had. *)
Theorem setHabitCompletion_upsert (habitId date : string) (completed' : bool)
    (note' : option string) (w : World) :
  let res := setHabitCompletion habitId date completed' note' w in
  let log := createHabitLog (clock w) habitId date completed' note' in
  getLog (data (snd res)) habitId date = Some log /\
  (completedAt log = None <-> completed' = false) /\
  (forall h d, ~ (h = habitId /\ d = date) ->
               getLog (data (snd res)) h d = getLog (data w) h d) /\
  (fst res = Returned log /\ stored (snd res) = Some (data (snd res)) \/
   fst res = Rejected /\ stored (snd res) = stored w).
Proof.
  cbv zeta.
  destruct (setHabitCompletion_frame habitId date completed' note' w) as [D R].
  rewrite D. split; [|split; [|split]].
  - rewrite getLog_find. cbn [logs set_logs]. apply find_upsertLogs_target.
  - unfold createHabitLog. simpl. destruct completed'; split; intros; congruence.
  - intros h d Hne. rewrite !getLog_find. cbn [logs set_logs].
    now apply find_upsertLogs_other.
  - rewrite <- D. exact R.
Qed.

(** X8.  Neither [toggleHabit] nor [setHabitCompletion] ever makes a second
    log for a habit and date: logs with at most one log per (habit, date)
    pair stay so. *)
Theorem logs_one_per_habit_and_date (habitId : string) (w : World) :
  NoDup (logKeys (data w)) ->
  (forall date, NoDup (logKeys (data (snd (toggleHabit habitId date w))))) /\
  (forall date completed' note',
     NoDup (logKeys (data (snd (setHabitCompletion habitId date completed' note' w))))).
Proof.
  intros Hnd. split.
  - intros date. destruct (toggleHabit_frame habitId date w) as [D _].
    rewrite D. unfold logKeys. cbn [logs set_logs]. now apply toggleLogs_keys.
  - intros date c nt. destruct (setHabitCompletion_frame habitId date c nt w) as [D _].
    rewrite D. unfold logKeys. cbn [logs set_logs]. now apply upsertLogs_keys.
Qed.


(** X10.  Freezing a date that is not frozen and unfreezing it gives the
    ledger back as it was, entry for entry. *)
Theorem addFreezeDay_then_remove (date : string) (reason : option string) (w : World) :
  isFrozen (data w) date = false ->
  let w1 := snd (addFreezeDay date reason w) in
  let w2 := snd (removeFreezeDay date w1) in
  isFrozen (data w1) date = true /\
  freezeDays (data w2) = Some (orEmpty (freezeDays (data w))) /\
  (forall x, isFrozen (data w2) x = isFrozen (data w) x).
Proof.
  intros H w1 w2.
  assert (F1 : freezeDays (data w1) =
               Some (orEmpty (freezeDays (data w)) ++ [createFreezeDay date reason])%list).
  { unfold w1. rewrite addFreezeDay_data, H. reflexivity. }
  set (l := orEmpty (freezeDays (data w))) in *.
  assert (Hi : findIndex (onDate date) (l ++ [createFreezeDay date reason]) =
               Some (List.length l)).
  { unfold isFrozen in H. fold l in H. apply isFrozenDate_findIndex in H.
    rewrite findIndex_None in H. clear -H.
    induction l as [|y l IH]; simpl.
    - unfold onDate. simpl. now rewrite String.eqb_refl.
    - rewrite (H y (or_introl eq_refl)).
      rewrite IH by (intros x Hx; apply H; now right). reflexivity. }
  destruct (removeFreezeDay_found date w1 _ _ F1 Hi) as [D _]. fold w2 in D.
  rewrite D. cbn [freezeDays set_freezeDays].
  rewrite (splice1_app l (createFreezeDay date reason) []), app_nil_r.
  split; [|split].
  - unfold isFrozen. rewrite F1. simpl. rewrite isFrozenDate_app. simpl.
    rewrite String.eqb_refl. now rewrite orb_true_r.
  - reflexivity.
  - intros x. reflexivity.
Qed.

(** ** Categories *)

Module CategoryFacts.
Import JS Model Queries Service Registry Aux2 ServiceFacts RegistryFacts.

Lemma palette_nonempty (c : string) :
  In c CATEGORY_COLORS -> String.eqb c "" = false.
Proof.
  unfold CATEGORY_COLORS. simpl.
  intros H. repeat (destruct H as [<-|H]; [reflexivity|]). destruct H.
Qed.

Lemma includesColor_In (used : list string) (c : string) :
  includesColor used c = true <-> In c used.
Proof.
  unfold includesColor. rewrite existsb_exists. split.
  - intros [x [Hx E]]. apply String.eqb_eq in E. now subst.
  - intros H. exists c. split; [exact H | apply String.eqb_refl].
Qed.

(** The colour chosen when none is given: one of the palette, and one no
    category has when the palette has such a colour. *)
Lemma availableColor_fresh (color : option string) (used : list string) :
  truthy color = false ->
  In (availableColor color used) CATEGORY_COLORS /\
  ((exists p, In p CATEGORY_COLORS /\ ~ In p used) ->
   ~ In (availableColor color used) used).
Proof.
  intros Hc. unfold availableColor. rewrite Hc.
  destruct (find (fun c => negb (includesColor used c)) CATEGORY_COLORS) as [c|] eqn:F.
  - apply find_some in F. destruct F as [Hin Hfree].
    rewrite (palette_nonempty c Hin). split; [exact Hin|].
    intros _ Hu. apply includesColor_In in Hu. rewrite Hu in Hfree. discriminate.
  - split; [now left|]. intros [p [Hp Hfree]].
    pose proof (find_none _ _ F p Hp) as N. apply negb_false_iff in N.
    apply includesColor_In in N. contradiction.
Qed.

Lemma getCategory_split (d : HabitData) (id : string) (c : Category) :
  getCategory d id = Some c ->
  exists before after,
    categories d = Some (before ++ c :: after)%list /\
    findIndex (hasCategoryId id) (before ++ c :: after) = Some (List.length before).
Proof.
  unfold getCategory. destruct (categories d) as [cs|]; [|discriminate]. intros F.
  destruct (findIndex (hasCategoryId id) cs) as [i|] eqn:E.
  - destruct (findIndex_Some _ _ _ E) as [before [x [after [Hl [Hlen [Hx Hb]]]]]].
    assert (x = c).
    { rewrite Hl, (find_app_first _ before x after Hb Hx) in F. congruence. }
    subst x cs. exists before, after. split; [reflexivity|]. now rewrite E, Hlen.
  - apply findIndex_find_None in E. congruence.
Qed.

End CategoryFacts.

Import CategoryFacts.

(** X11.  [deleteCategory(id)] returns [false] and changes nothing when no
    category has the identifier.  Otherwise it takes the first category of
    the identifier out and detaches the habits: no habit refers to the
    identifier afterwards, every habit is otherwise as it was, in its place,
    and the logs stay. *)
Theorem deleteCategory_detaches (id : string) (w : World) :
  let res := deleteCategory id w in
  (getCategory (data w) id = None -> res = (Returned false, w)) /\
  (forall c, getCategory (data w) id = Some c ->
     (exists before after,
        categories (data w) = Some (before ++ c :: after)%list /\
        categories (data (snd res)) = Some (before ++ after)%list) /\
     habits (data (snd res)) = map (detach id) (habits (data w)) /\
     (forall h, In h (habits (data (snd res))) -> categoryId h <> Some id) /\
     (forall h, In h (habits (data w)) -> categoryId h <> Some id ->
                In h (habits (data (snd res)))) /\
     map h_id (habits (data (snd res))) = map h_id (habits (data w)) /\
     logs (data (snd res)) = logs (data w) /\
     (fst res = Returned true \/ fst res = Rejected)).
Proof.
  cbv zeta. split.
  - intros H. unfold deleteCategory, getCategory in *.
    destruct (categories (data w)) as [cs|]; [|reflexivity].
    apply findIndex_find_None in H. now rewrite H.
  - intros c H.
    destruct (getCategory_split _ _ _ H) as [before [after [Hc Hi]]].
    unfold deleteCategory. rewrite Hc, Hi.
    set (w1 := inplace_categories (splice1 (List.length before)) w).
    set (w2 := inplace_habits (map (detach id)) w1).
    assert (E : (modify (inplace_categories (splice1 (List.length before))) ;;;
                 modify (inplace_habits (map (detach id))) ;;; save ;;; ret true) w =
                (modify (fun _ => w2) ;;; save ;;; ret true) w) by reflexivity.
    rewrite E. clear E.
    pose proof (change_save_ret_full (fun _ => w2) true w) as S. cbv zeta in S.
    destruct S as [Sd Ss]. rewrite Sd.
    assert (D2 : data w2 = set_habits (map (detach id) (habits (data w)))
                             (set_categories (Some (before ++ after)%list) (data w))).
    { unfold w2. rewrite data_inplace_habits. unfold w1.
      rewrite data_inplace_categories, Hc. cbn [habits option_map set_categories].
      now rewrite splice1_app. }
    rewrite D2. cbn [habits logs categories set_habits set_categories].
    split; [exists before, after; auto|]. split; [reflexivity|].
    split; [|split; [|split; [|split]]].
    + intros h Hin. apply in_map_iff in Hin. destruct Hin as [h0 [<- _]].
      unfold detach. destruct (categoryId h0) as [x|] eqn:C; [|congruence].
      destruct (String.eqb x id) eqn:X; [simpl; discriminate|].
      rewrite C. apply String.eqb_neq in X. congruence.
    + intros h Hin Hne. apply in_map_iff. exists h. split; [|exact Hin].
      unfold detach. destruct (categoryId h) as [x|] eqn:C; [|reflexivity].
      destruct (String.eqb x id) eqn:X; [|reflexivity].
      apply String.eqb_eq in X. congruence.
    + rewrite map_map. apply map_ext. intros h. unfold detach.
      destruct (categoryId h) as [x|]; [|reflexivity].
      destruct (String.eqb x id); reflexivity.
    + reflexivity.
    + destruct Ss as [[Sr _]|[Sr _]]; auto.
Qed.

(** X12.  [addCategory(name, color, emoji)] appends a category with the
    name and the emoji, the [order] that the double addition [maxOrder + 1]
    gives, and the colour given; without a colour it takes one of the
    palette, and one that no category has as long as the palette has such a
    colour.  While the largest [order] there is below 2^53 the new order is
    one more, above that of every category there; at 2^53 the sum is 2^53
    again. *)
Theorem addCategory_picks_a_free_colour (name : string) (color emoji : option string)
    (w : World) :
  let res := addCategory name color emoji w in
  let old := orEmpty (categories (data w)) in
  let maxOrder := maxOrZero (map c_order old) in
  exists c',
    categories (data (snd res)) = Some (old ++ [c'])%list /\
    c_name c' = name /\ c_emoji c' = emoji /\
    c_order c' = plus maxOrder 1 /\
    (maxOrder < 2 ^ 53 ->
     c_order c' = maxOrder + 1 /\
     forall c, In c old -> c_order c < c_order c') /\
    (maxOrder = 2 ^ 53 -> c_order c' = maxOrder) /\
    (truthy color = true -> c_color c' = strArg color) /\
    (truthy color = false ->
       In (c_color c') CATEGORY_COLORS /\
       ((exists p, In p CATEGORY_COLORS /\ ~ In p (map c_color old)) ->
        ~ In (c_color c') (map c_color old))) /\
    (fst res = Returned c' \/ fst res = Rejected).
Proof.
  cbv zeta. unfold addCategory.
  set (w0 := match categories (data w) with
             | Some _ => w
             | None => assign_categories (Some []) w
             end).
  assert (H0 : categories (data w0) = Some (orEmpty (categories (data w)))).
  { unfold w0. destruct (categories (data w)) eqn:E; [exact E|].
    now rewrite data_assign_categories. }
  rewrite generateId_bind. set (wg := mkWorld _ _ _ _ _ _ _).
  assert (Hg : data wg = data w0) by reflexivity.
  rewrite H0. cbn [orEmpty].
  set (old := orEmpty (categories (data w))) in *.
  set (c' := createCategory _ _ _ _).
  pose proof (change_save_ret_full (inplace_categories (push c')) c' wg) as S.
  cbv zeta in S. destruct S as [Sd Ss].
  destruct (maxOrZero_bound (map c_order old)) as [M0 M].
  assert (Hp : c_order c' = plus (maxOrZero (map c_order old)) 1) by reflexivity.
  exists c'. rewrite Sd, data_inplace_categories, Hg, H0.
  cbn [categories set_categories option_map].
  split; [reflexivity|]. split; [reflexivity|]. split; [reflexivity|].
  split; [exact Hp|]. split; [|split; [|split; [|split]]].
  - intros Hsafe.
    assert (Ho : c_order c' = maxOrZero (map c_order old) + 1).
    { rewrite Hp. apply plus_one_exact. lia. }
    split; [exact Ho|].
    intros c Hin. specialize (M (c_order c) (in_map c_order _ _ Hin)). lia.
  - intros E. rewrite Hp, E. apply plus_one_saturates.
  - intros Hc. change (c_color c') with (availableColor color (map c_color old)).
    unfold availableColor. now rewrite Hc.
  - intros Hc. change (c_color c') with (availableColor color (map c_color old)).
    now apply availableColor_fresh.
  - destruct Ss as [[Sr _]|[Sr _]]; auto.
Qed.

(** ** The current streaks, for every schedule *)

Module StreakFacts.
Import JS Model Queries Service Aux Registry Aux2 DateFacts WalkFacts.



Lemma daysBack_week (stop : Z -> bool) (wd : Z) :
  existsb stop weekdays = true -> 0 <= wd < 7 ->
  (daysBack stop 7 wd <= 6)%nat /\
  (stop wd = false ->
   daysBack stop 7 wd = S (daysBack stop 7 ((wd + 6) mod 7))).
Proof.
  intros He Hwd. unfold weekdays in He. cbn [existsb] in He.
  assert (C : wd = 0 \/ wd = 1 \/ wd = 2 \/ wd = 3 \/ wd = 4 \/ wd = 5 \/ wd = 6)
    by lia.
  destruct (stop 0) eqn:S0, (stop 1) eqn:S1, (stop 2) eqn:S2, (stop 3) eqn:S3,
           (stop 4) eqn:S4, (stop 5) eqn:S5, (stop 6) eqn:S6;
    try discriminate He;
    repeat (destruct C as [->|C]); try subst wd;
    cbn; rewrite ?S0, ?S1, ?S2, ?S3, ?S4, ?S5, ?S6; cbn;
    (split; [lia | congruence]).
Qed.

Lemma daysBack_stop (stop : Z -> bool) (k : nat) (wd : Z) :
  stop wd = true -> daysBack stop (S k) wd = O.
Proof. intros H. cbn. now rewrite H. Qed.





Section Walks.
Variable habit : Habit.

(** The walks read the logs only at the days they visit. *)
Lemma while_logs_ext (d : HabitData) (logs1 logs2 : list HabitLog)
    (fuel : nat) (t s : Z) :
  (forall t', dayNumber t' <= dayNumber t ->
              completedOn logs1 (formatDate t') = completedOn logs2 (formatDate t')) ->
  while (freezeBody d logs1 habit) fuel t s = while (freezeBody d logs2 habit) fuel t s.
Proof.
  revert t s. induction fuel as [|fuel IH]; intros t s H; [reflexivity|].
  rewrite !while_S.
  assert (E : freezeBody d logs1 habit t s = freezeBody d logs2 habit t s).
  { unfold freezeBody. rewrite (H t) by lia. reflexivity. }
  rewrite <- E.
  destruct (freezeBody d logs1 habit t s) as [n|t' s'] eqn:B; [reflexivity|].
  apply freezeBody_Continue in B. subst t'.
  apply IH. intros t' Ht'. apply H. rewrite dayNumber_pred in Ht'. lia.
Qed.

(** Without a frozen day the freeze-aware walk is the plain walk. *)
Lemma while_no_freeze (d : HabitData) (logs : list HabitLog) (fuel : nat) (t s : Z) :
  (forall x, isFrozen d x = false) ->
  while (freezeBody d logs habit) fuel t s = while (streakBody logs habit) fuel t s.
Proof.
  intros H. revert t s. induction fuel as [|fuel IH]; intros t s; [reflexivity|].
  rewrite !while_S.
  assert (E : freezeBody d logs habit t s = streakBody logs habit t s).
  { unfold freezeBody, streakBody. now rewrite H. }
  rewrite E. destruct (streakBody logs habit t s); [reflexivity | apply IH].
Qed.

Lemma completedOn_otherDates (x y : string) (logs : list HabitLog) :
  x <> y -> completedOn (otherDates x logs) y = completedOn logs y.
Proof.
  intros Hxy. unfold completedOn, otherDates.
  induction logs as [|l logs IH]; [reflexivity|]. cbn [filter find].
  destruct (String.eqb (l_date l) x) eqn:E; cbn [negb find].
  - apply String.eqb_eq in E.
    destruct (String.eqb (l_date l) y) eqn:E'; [|exact IH].
    apply String.eqb_eq in E'. congruence.
  - destruct (String.eqb (l_date l) y); [reflexivity | exact IH].
Qed.

Lemma otherDates_shorter (x : string) (logs : list HabitLog) :
  completedOn logs x = true ->
  (List.length (otherDates x logs) < List.length logs)%nat.
Proof.
  intros H. apply completedOn_In in H. destruct H as [l [Hin [E _]]].
  unfold otherDates. induction logs as [|l0 logs IH]; [destruct Hin|].
  cbn [filter].
  pose proof (filter_length_le (fun l => negb (String.eqb (l_date l) x)) logs) as L.
  destruct Hin as [->|Hin].
  - subst x. rewrite String.eqb_refl. cbn [negb List.length]. lia.
  - specialize (IH Hin).
    destruct (negb (String.eqb (l_date l0) x)); cbn [List.length]; lia.
Qed.

(** Each day counted has a log of its own: the streak grows by no more than
    the number of logs. *)
Lemma while_counts_logs (d : HabitData) (fuel : nat) :
  forall (logs : list HabitLog) (t s b : Z),
    while (freezeBody d logs habit) fuel t s = Some b ->
    b - s <= Z.of_nat (List.length logs).
Proof.
  induction fuel as [|fuel IH]; intros logs t s b H; [discriminate|].
  rewrite while_S in H. unfold freezeBody at 1 in H.
  destruct (isFrozen d (formatDate t)).
  { apply IH in H. exact H. }
  destruct (completedOn logs (formatDate t)) eqn:Hc.
  - pose proof (otherDates_shorter _ _ Hc) as Hlt.
    destruct (safetyLimit_cases (setDate_pred t) (s + 1)) as [[E _]|[E _]];
      rewrite E in H.
    + injection H as <-. lia.
    + rewrite (while_logs_ext d logs (otherDates (formatDate t) logs)) in H.
      * apply IH in H. lia.
      * intros t' Ht'. symmetry. apply completedOn_otherDates.
        intros Eq. apply formatDate_inj in Eq.
        rewrite dayNumber_pred in Ht'. lia.
  - pose proof (missedDay_grows habit t s) as G.
    destruct (missedDay habit t s) as [n|t' s'].
    + injection H as <-. lia.
    + apply IH in H. lia.
Qed.

(** The limit: a streak that starts at 3650 or below ends at 3651 or below. *)
Lemma while_limit (d : HabitData) (logs : list HabitLog) (fuel : nat) :
  forall (t s b : Z),
    while (freezeBody d logs habit) fuel t s = Some b -> s <= 3650 -> b <= 3651.
Proof.
  induction fuel as [|fuel IH]; intros t s b H Hs; [discriminate|].
  rewrite while_S in H. unfold freezeBody at 1 in H.
  destruct (isFrozen d (formatDate t)).
  { exact (IH _ _ _ H Hs). }
  destruct (completedOn logs (formatDate t)).
  - destruct (safetyLimit_cases (setDate_pred t) (s + 1)) as [[E ?]|[E ?]];
      rewrite E in H.
    + injection H as <-. lia.
    + apply (IH _ _ _ H). lia.
  - pose proof (missedDay_grows habit t s) as G.
    destruct (missedDay habit t s) as [n|t' s'].
    + injection H as <-. lia.
    + subst s'. exact (IH _ _ _ H Hs).
Qed.


Hypothesis Hdue : hasDueDay habit = true.





End Walks.

End StreakFacts.

Import StreakFacts.


(** X15.  Without an entry in the freeze-day ledger the freeze-aware streak
    is the plain streak. *)
Theorem streaks_agree_without_freeze_days (fuel : nat) (d : HabitData) (now : Z)
    (habitId : string) :
  orEmpty (freezeDays d) = [] ->
  getCurrentStreakWithFreeze fuel d now habitId = getCurrentStreak fuel d now habitId.
Proof.
  intros He.
  assert (Hno : forall x, isFrozen d x = false).
  { intros x. unfold isFrozen. now rewrite He. }
  unfold getCurrentStreak, getCurrentStreakWithFreeze.
  destruct (List.length (completedLogs d habitId) =? 0)%nat; [reflexivity|].
  destruct (getHabit d habitId) as [habit|]; [|reflexivity].
  rewrite Hno.
  destruct (find _ (completedLogs d habitId)); now apply while_no_freeze.
Qed.

(** ** The completion trend and the quick toggle *)

Module TrendFacts.
Import JS Model Queries Service Aux Registry Aux2 DateFacts ServiceFacts.


Lemma setDate_back_fixed (offset t i : Z) :
  Host.setDate_back (Host.fixedZone offset) t i = t - i * msPerDay.
Proof. unfold Host.setDate_back, Host.UTC, Host.LocalTime. cbn. lia. Qed.





Lemma formatDate_nonempty (t : Z) : String.eqb (formatDate t) "" = false.
Proof.
  rewrite formatDate_isoDate. unfold isoDate.
  destruct (civil_from_days (dayNumber t)) as [[y m] dd].
  apply String.eqb_neq. intros E. apply (f_equal String.length) in E.
  rewrite !length_append in E. cbn in E. lia.
Qed.

(** A call that is not awaited: the caller sees no rejection, the state
    is the one the call leaves. *)
Lemma catch_unit {A : Type} (m : M A) (w : World) :
  fst (catch (m ;;; ret tt) tt w) = Returned tt /\
  snd (catch (m ;;; ret tt) tt w) = snd (m w).
Proof.
  unfold catch, bind, ret. destruct (m w) as [[a|] w']; split; reflexivity.
Qed.

End TrendFacts.

Import TrendFacts.


(** X17.  The quick toggle never reports a failure.  When a habit due today
    has no completed log for today, the first such habit in display order
    gets one, and no log of another habit or date changes; otherwise
    nothing changes.  It never takes a completion away. *)
Theorem showQuickToggle_completes_first_due (w : World) :
  let dateStr := formatDate (clock w) in
  let dueToday := filter (fun h => isHabitDueOnDate h (clock w))
                         (getHabits (data w) false) in
  let res := showQuickToggle w in
  fst res = Returned tt /\
  (find (incompleteOn (data w) dateStr) dueToday = None -> snd res = w) /\
  (forall h, find (incompleteOn (data w) dateStr) dueToday = Some h ->
     completedValue (data w) (h_id h) dateStr = false /\
     completedValue (data (snd res)) (h_id h) dateStr = true /\
     (forall h' d', ~ (h' = h_id h /\ d' = dateStr) ->
        getLog (data (snd res)) h' d' = getLog (data w) h' d') /\
     habits (data (snd res)) = habits (data w)) /\
  (forall h' d', completedValue (data w) h' d' = true ->
                 completedValue (data (snd res)) h' d' = true).
Proof.
  cbv zeta. unfold showQuickToggle.
  set (dateStr := formatDate (clock w)).
  set (dueToday := filter _ (getHabits (data w) false)).
  assert (Hnil : (List.length dueToday =? 0)%nat = true ->
                 find (incompleteOn (data w) dateStr) dueToday = None).
  { intros H. apply Nat.eqb_eq in H. now destruct dueToday. }
  destruct (List.length dueToday =? 0)%nat.
  { rewrite (Hnil eq_refl). cbn [fst snd].
    split; [reflexivity|]. split; [reflexivity|]. split; [discriminate | auto]. }
  clear Hnil.
  destruct (find (incompleteOn (data w) dateStr) dueToday) as [h|] eqn:F.
  2:{ cbn [fst snd]. split; [reflexivity|]. split; [reflexivity|].
      split; [discriminate | auto]. }
  destruct (catch_unit (toggleHabit (h_id h) (Some dateStr)) w) as [C1 C2].
  rewrite C1, C2.
  destruct (toggleHabit_frame (h_id h) (Some dateStr) w) as [Hd _].
  assert (Ht : targetDate (Some dateStr) w = dateStr).
  { unfold targetDate, truthy. unfold dateStr at 1.
    now rewrite formatDate_nonempty. }
  rewrite Ht in Hd.
  apply find_some in F. destruct F as [_ Hinc].
  unfold incompleteOn in Hinc. apply negb_true_iff in Hinc.
  assert (Hbefore : completedValue (data w) (h_id h) dateStr = false)
    by exact Hinc.
  assert (Hafter : completedValue (data (snd (toggleHabit (h_id h) (Some dateStr) w)))
                     (h_id h) dateStr = true).
  { unfold completedValue. rewrite getLog_find, Hd. cbn [logs set_logs].
    rewrite find_toggleLogs_target.
    unfold completedValue in Hbefore. rewrite getLog_find in Hbefore.
    destruct (find (sameLog (h_id h) dateStr) (logs (data w))) as [l|].
    - cbn [toggled completed]. now rewrite Hbefore.
    - reflexivity. }
  assert (Hother : forall h' d', ~ (h' = h_id h /\ d' = dateStr) ->
            getLog (data (snd (toggleHabit (h_id h) (Some dateStr) w))) h' d' =
            getLog (data w) h' d').
  { intros h' d' Hne. rewrite !getLog_find, Hd. cbn [logs set_logs].
    now apply find_toggleLogs_other. }
  split; [reflexivity|]. split; [discriminate|]. split.
  - intros h0 [= <-]. split; [exact Hbefore|]. split; [exact Hafter|].
    split; [exact Hother|]. now rewrite Hd.
  - intros h' d' Hc.
    destruct (String.eqb h' (h_id h)) eqn:E1; [destruct (String.eqb d' dateStr) eqn:E2|].
    + apply String.eqb_eq in E1, E2. subst h' d'. exact Hafter.
    + apply String.eqb_neq in E2. unfold completedValue in *.
      rewrite Hother; [exact Hc | intros [_ ?]; contradiction].
    + apply String.eqb_neq in E1. unfold completedValue in *.
      rewrite Hother; [exact Hc | intros [? _]; contradiction].
Qed.

(** ** The badges awarded, the logs selected *)

Module AwardFacts.
Import JS Model Queries Service Aux Registry Aux2 ServiceFacts BadgeFacts RegistryFacts.

(** A badge the habit does not have: the call appends it to the
    collection. *)
Lemma awardBadge_new (h : string) (t : BadgeType) (w : World) :
  hasBadge (data w) h t = false ->
  let b := createBadge (idSource w (idsDrawn w)) (clock w) h t in
  let res := awardBadge h t w in
  badges (data (snd res)) = Some (orEmpty (badges (data w)) ++ [b])%list /\
  clock (snd res) = clock w /\
  (fst res = Returned (Some b) \/ fst res = Rejected).
Proof.
  intros Hno. cbv zeta. unfold awardBadge.
  set (w0 := match badges (data w) with
             | Some _ => w
             | None => assign_badges (Some []) w
             end).
  assert (H0 : clock w0 = clock w /\ idSource w0 = idSource w /\
               idsDrawn w0 = idsDrawn w /\
               badges (data w0) = Some (orEmpty (badges (data w)))).
  { unfold w0. destruct (badges (data w)) eqn:E; [auto|].
    rewrite data_assign_badges, clock_assign_badges.
    repeat split; try reflexivity;
      destruct w as [dflt [|[oh ol oc ofz ob ov]] ck src n st sf]; reflexivity. }
  destruct H0 as [Hc [Hs [Hn Hb]]].
  assert (Hhas : hasBadge (data w0) h t = false).
  { unfold hasBadge in *. now rewrite Hb. }
  rewrite Hhas, generateId_bind, <- Hc, <- Hs, <- Hn.
  set (wg := mkWorld _ _ _ _ _ _ _).
  assert (Hg : data wg = data w0 /\ clock wg = clock w0) by (split; reflexivity).
  destruct Hg as [Hgd Hgc].
  set (b := createBadge _ _ h t).
  destruct (change_save_ret (inplace_badges (push b)) (Some b) wg) as [Hd [Hck Hr]].
  rewrite Hd, Hck, data_inplace_badges, clock_inplace_badges, Hgd, Hgc, Hb.
  split; [reflexivity|]. split; [reflexivity|].
  destruct (fst ((modify (inplace_badges (push b)) ;;; save ;;; ret (Some b)) wg))
    as [x|]; [left | now right].
  now rewrite (Hr x eq_refl).
Qed.

Lemma hasBadge_app (d d' : HabitData) (h : string) (t : BadgeType) (b : Badge) :
  orEmpty (badges d') = (orEmpty (badges d) ++ [b])%list ->
  hasBadge d' h t =
  hasBadge d h t || (String.eqb (b_habitId b) h && BadgeType_eqb (b_type b) t).
Proof.
  intros E. unfold hasBadge. rewrite E, existsb_app. cbn [existsb].
  now rewrite orb_false_r.
Qed.

(** The loop over milestones of distinct types: what it returns is what it
    has appended, a badge for each milestone reached and not held, in the
    order of the milestones. *)
Lemma awardLoop_exact (streak : Z) (h : string) (ms : list Milestone) :
  NoDup (map m_type ms) ->
  forall (acc : list Badge) (w : World) (bs : list Badge) (w' : World),
    awardLoop ms streak h acc w = (Returned bs, w') ->
    exists new,
      bs = (acc ++ new)%list /\
      orEmpty (badges (data w')) = (orEmpty (badges (data w)) ++ new)%list /\
      map b_type new =
        map m_type (filter (fun m => (days m <=? streak)
                                     && negb (hasBadge (data w) h (m_type m))) ms) /\
      (forall b, In b new -> b_habitId b = h /\ earnedAt b = toISOString (clock w)).
Proof.
  induction ms as [|m ms IH]; intros Hnd acc w bs w' H.
  - cbn in H. injection H as <- <-. exists []. rewrite !app_nil_r.
    split; [reflexivity|]. split; [reflexivity|]. split; [reflexivity|].
    intros b [].
  - rewrite awardLoop_cons in H. cbn [filter].
    inversion Hnd as [|? ? Hnotin Hnd']; subst.
    destruct ((days m <=? streak) && negb (hasBadge (data w) h (m_type m))) eqn:C.
    + apply andb_true_iff in C. destruct C as [_ C]. apply negb_true_iff in C.
      pose proof (awardBadge_new h (m_type m) w C) as S. cbv zeta in S.
      unfold bind in H.
      destruct (awardBadge h (m_type m) w) as [[b|] w1]; cbn [fst snd] in S;
        [|discriminate].
      destruct S as [Sb [Sc [Sr|Sr]]]; [|discriminate].
      injection Sr as ->.
      set (b := createBadge _ _ h (m_type m)) in *.
      destruct (IH Hnd' _ _ _ _ H) as [new [E1 [E2 [E3 E4]]]].
      assert (Eb : orEmpty (badges (data w1)) = (orEmpty (badges (data w)) ++ [b])%list)
        by now rewrite Sb.
      exists (b :: new). split; [|split; [|split]].
      * rewrite E1. unfold push. now rewrite <- app_assoc.
      * rewrite E2, Eb. now rewrite <- app_assoc.
      * cbn [map]. f_equal. rewrite E3. f_equal. apply filter_ext_in.
        intros m' Hm'. rewrite (hasBadge_app (data w) (data w1) h (m_type m') b Eb).
        cbn [b_type b createBadge].
        destruct (BadgeType_eqb (m_type m) (m_type m')) eqn:T.
        -- apply BadgeType_eqb_eq in T. exfalso. apply Hnotin. rewrite T.
           now apply in_map.
        -- now rewrite andb_false_r, orb_false_r.
      * intros b' [<-|Hin]; [split; reflexivity|].
        rewrite <- Sc. now apply E4.
    + destruct (IH Hnd' _ _ _ _ H) as [new [E1 [E2 [E3 E4]]]].
      exists new. auto.
Qed.

Lemma milestones_distinct : NoDup (map m_type BADGE_MILESTONES).
Proof.
  cbn. repeat constructor; cbn; intuition discriminate.
Qed.

End AwardFacts.

Module LogsFacts.
Import JS Model Queries Service Aux Registry Aux2 ServiceFacts SortFacts RegistryFacts.

Lemma Nat_compare_trans_le (a b c : nat) :
  Nat.compare a b <> Gt -> Nat.compare b c <> Gt -> Nat.compare a c <> Gt.
Proof.
  destruct (Nat.compare_spec a b), (Nat.compare_spec b c), (Nat.compare_spec a c);
    try congruence; lia.
Qed.

Lemma localeCompare_Eq (a b : string) : localeCompare a b = Eq -> a = b.
Proof.
  revert b. induction a as [|x a IH]; intros [|y b]; cbn; try discriminate; auto.
  destruct (Nat.compare_spec (nat_of_ascii x) (nat_of_ascii y)) as [E| |];
    try discriminate.
  intros H. apply IH in H. subst b. f_equal.
  rewrite <- (ascii_nat_embedding x), <- (ascii_nat_embedding y). now rewrite E.
Qed.

Lemma str_le_trans (a b c : string) :
  str_le a b = true -> str_le b c = true -> str_le a c = true.
Proof.
  unfold str_le. revert b c.
  induction a as [|x a IH]; intros [|y b] [|z c]; cbn; try discriminate; auto.
  destruct (Nat.compare_spec (nat_of_ascii x) (nat_of_ascii y)) as [E1|L1|G1];
    destruct (Nat.compare_spec (nat_of_ascii y) (nat_of_ascii z)) as [E2|L2|G2];
    destruct (Nat.compare_spec (nat_of_ascii x) (nat_of_ascii z)) as [E3|L3|G3];
    try discriminate; try lia; auto.
  apply IH.
Qed.

Lemma ordered_byDateDesc_sorted (l : list HabitLog) :
  ordered byDateDesc l ->
  StronglySorted (fun a b => str_le (l_date b) (l_date a) = true) l.
Proof.
  intros H. apply Sorted_StronglySorted.
  - intros a b c Hab Hbc. exact (str_le_trans _ _ _ Hbc Hab).
  - induction l as [|x l IH]; constructor.
    + apply IH. apply H.
    + destruct l as [|y l]; constructor.
      destruct H as [H _]. unfold byDateDesc in H. unfold str_le.
      destruct (localeCompare (l_date y) (l_date x)); congruence.
Qed.

Lemma localeCompare_refl (a : string) : localeCompare a a = Eq.
Proof.
  induction a as [|x a IH]; [reflexivity|]. cbn. now rewrite Nat.compare_refl.
Qed.

(** The sort is stable: the logs of one date keep their order. *)
Lemma sort_byDateDesc_key (k : string) (l : list HabitLog) :
  filter (fun x => String.eqb (l_date x) k) (sort byDateDesc l) =
  filter (fun x => String.eqb (l_date x) k) l.
Proof.
  induction l as [|x l IH]; [reflexivity|].
  simpl sort. rewrite insert_filter.
  - simpl. now rewrite IH.
  - intros y Hy Hgt. unfold byDateDesc in Hgt.
    apply String.eqb_eq in Hy. apply String.eqb_neq. intros Hx.
    rewrite Hx, Hy, localeCompare_refl in Hgt. discriminate.
Qed.

Lemma selectLogs_In (d : HabitData) (habitId startDate endDate : option string)
    (l : HabitLog) :
  In l (selectLogs d habitId startDate endDate) <->
  In l (logs d) /\
  (truthy habitId = true -> l_habitId l = strArg habitId) /\
  (truthy startDate = true -> str_le (strArg startDate) (l_date l) = true) /\
  (truthy endDate = true -> str_le (l_date l) (strArg endDate) = true).
Proof.
  unfold selectLogs.
  destruct (truthy habitId), (truthy startDate), (truthy endDate);
    rewrite ?filter_In, ?String.eqb_eq; intuition discriminate.
Qed.

End LogsFacts.

Import AwardFacts LogsFacts.

(** X18.  When [checkAndAwardBadges(habitId)] returns, the badges it returns
    are the badges it has appended to the collection: one for each
    milestone that the plain streak has reached and the habit did not hold,
    in the order of the milestones, for this habit and earned now.
    Afterwards the habit holds a milestone's badge exactly when it held it
    before or the streak has reached the milestone. *)
Theorem checkAndAwardBadges_awards_reached (fuel : nat) (habitId : string)
    (w : World) (streak : Z) (bs : list Badge) (w1 : World) :
  getCurrentStreak fuel (data w) (clock w) habitId = Some streak ->
  checkAndAwardBadges fuel habitId w = Some (Returned bs, w1) ->
  map b_type bs =
    map m_type (filter (fun m => (days m <=? streak)
                                 && negb (hasBadge (data w) habitId (m_type m)))
                       BADGE_MILESTONES) /\
  (forall b, In b bs -> b_habitId b = habitId /\ earnedAt b = toISOString (clock w)) /\
  orEmpty (badges (data w1)) = (orEmpty (badges (data w)) ++ bs)%list /\
  (forall m, In m BADGE_MILESTONES ->
     (hasBadge (data w1) habitId (m_type m) = true <->
      hasBadge (data w) habitId (m_type m) = true \/ days m <= streak)).
Proof.
  intros Hs H0. unfold checkAndAwardBadges in H0. rewrite Hs in H0.
  assert (H : awardLoop BADGE_MILESTONES streak habitId []
                (getLogs_effect (Some habitId) None None w) = (Returned bs, w1))
    by congruence.
  clear H0.
  pose proof (getLogs_effect_frame habitId w) as F. cbv zeta in F.
  destruct F as [_ [Fb [Fc _]]].
  set (w0 := getLogs_effect (Some habitId) None None w) in *.
  destruct (awardLoop_exact streak habitId BADGE_MILESTONES milestones_distinct
              [] w0 bs w1 H) as [new [E1 [E2 [E3 E4]]]].
  cbn [app] in E1. subst new.
  assert (Hhas : forall t, hasBadge (data w0) habitId t = hasBadge (data w) habitId t).
  { intros t. unfold hasBadge. now rewrite Fb. }
  split; [|split; [|split]].
  - rewrite E3. f_equal. apply filter_ext. intros m. now rewrite Hhas.
  - intros b Hb. rewrite <- Fc. now apply E4.
  - now rewrite E2, Fb.
  - intros m Hm. split.
    + intros Hafter. destruct (hasBadge (data w) habitId (m_type m)) eqn:Hb; [now left|].
      right. apply hasBadge_In in Hafter. unfold badgeKeys in Hafter.
      rewrite E2, map_app, in_app_iff in Hafter. destruct Hafter as [Hin|Hin].
      * rewrite Fb in Hin. change (In (habitId, m_type m) (badgeKeys (data w))) in Hin.
        apply hasBadge_In in Hin. congruence.
      * assert (Ht : In (m_type m) (map b_type bs)).
        { apply in_map_iff in Hin. destruct Hin as [b [Eb Hin]].
          injection Eb as _ Eb. rewrite <- Eb. now apply in_map. }
        rewrite E3 in Ht. apply in_map_iff in Ht. destruct Ht as [m' [Et Hm']].
        apply filter_In in Hm'. destruct Hm' as [Hm' C].
        apply andb_true_iff in C. destruct C as [C _]. apply Z.leb_le in C.
        assert (m' = m).
        { revert Hm Hm' Et. unfold BADGE_MILESTONES. cbn [In].
          intros [<-|[<-|[<-|[<-|[]]]]] [<-|[<-|[<-|[<-|[]]]]]; cbn;
            congruence. }
        now subst m'.
    + intros [Hb|Hle].
      * apply hasBadge_In. unfold badgeKeys. rewrite E2, map_app, in_app_iff. left.
        rewrite Fb. apply hasBadge_In in Hb. exact Hb.
      * destruct (awardLoop_spec BADGE_MILESTONES streak habitId [] w0)
          as [_ [_ [_ [_ [_ Hp]]]]].
        rewrite H in Hp. cbn [fst snd] in Hp.
        apply hasBadge_In. exact (Hp bs eq_refl m Hm Hle).
Qed.

(** X19.  [getLogs(habitId, startDate, endDate)] returns the logs of the
    habit whose date is within the two bounds, each bound and the habit
    applying only when given and not empty; none is lost and none comes
    twice, and logs of one date come in the order they had.  When the dates
    of the logs have the form [YYYY-MM-DD], on which the collation of
    [localeCompare] is the order of the code units, the logs come by falling
    date.  Called without any filter the call sorts the array of the
    service itself; with a filter it leaves the service as it is. *)
Theorem getLogs_selects_and_sorts (d : HabitData)
    (habitId startDate endDate : option string) :
  let result := getLogs d habitId startDate endDate in
  (forall l, In l result <->
     In l (logs d) /\
     (truthy habitId = true -> l_habitId l = strArg habitId) /\
     (truthy startDate = true -> str_le (strArg startDate) (l_date l) = true) /\
     (truthy endDate = true -> str_le (l_date l) (strArg endDate) = true)) /\
  Permutation result (selectLogs d habitId startDate endDate) /\
  (forall date, filter (fun l => String.eqb (l_date l) date) result =
                filter (fun l => String.eqb (l_date l) date)
                       (selectLogs d habitId startDate endDate)) /\
  ((forall l, In l (logs d) -> isPlainDate (l_date l) = true) ->
   StronglySorted (fun a b => str_le (l_date b) (l_date a) = true) result) /\
  (forall w, data w = d ->
     data (getLogs_effect habitId startDate endDate w) =
     if truthy habitId || truthy startDate || truthy endDate then d
     else set_logs result d).
Proof.
  cbv zeta. unfold getLogs. split; [|split; [|split; [|split]]].
  - intros l. rewrite In_sort. apply selectLogs_In.
  - apply sort_Permutation.
  - intros date. apply sort_byDateDesc_key.
  - intros _. apply ordered_byDateDesc_sorted. apply sort_ordered.
    exact byDateDesc_flip.
  - intros w <-. unfold getLogs_effect, sortsInPlace, selectLogs.
    destruct (truthy habitId), (truthy startDate), (truthy endDate); cbn [orb negb];
      try reflexivity.
    apply data_inplace_logs.
Qed.

(** ** Dates as strings: the month of a freeze day, reading a date back *)

Module CalendarFacts.
Import JS Model Queries Service Aux Registry Aux2 DateFacts TrendFacts.

Lemma digits2_ok : all_from (digits_ok 2) 100 0 = true.
Proof. vm_compute. reflexivity. Qed.

Lemma digits4_ok : all_from (digits_ok 4) (Z.to_nat 10000) 0 = true.
Proof. vm_compute. reflexivity. Qed.

Lemma plainYears_ok : all_from plainYear_ok (Z.to_nat 9000) 1000 = true.
Proof. vm_compute. reflexivity. Qed.

Lemma digitsVal_pad2 (n : Z) :
  0 <= n < 100 -> digitsVal (padStart 2 (dec n)) 0 = Some n.
Proof.
  intros Hn.
  assert (H : digits_ok 2 n = true)
    by (apply (all_from_spec _ 100 0 digits2_ok); simpl; lia).
  unfold digits_ok in H. destruct (digitsVal _ 0) as [v|]; [|discriminate].
  apply Z.eqb_eq in H. now subst.
Qed.

Lemma digitsVal_pad4 (n : Z) :
  0 <= n <= 9999 -> digitsVal (padStart 4 (dec n)) 0 = Some n.
Proof.
  intros Hn.
  assert (H : digits_ok 4 n = true)
    by (apply (all_from_spec _ (Z.to_nat 10000) 0 digits4_ok); lia).
  unfold digits_ok in H. destruct (digitsVal _ 0) as [v|]; [|discriminate].
  apply Z.eqb_eq in H. now subst.
Qed.

Lemma numToString_year (y : Z) :
  1000 <= y <= 9999 -> numToString y = padStart 4 (dec y).
Proof.
  intros Hy.
  assert (H : plainYear_ok y = true)
    by (apply (all_from_spec _ (Z.to_nat 9000) 1000 plainYears_ok); lia).
  unfold plainYear_ok in H. apply String.eqb_eq in H. rewrite H.
  unfold yearStr.
  replace ((0 <=? y) && (y <=? 9999)) with true; [reflexivity|].
  symmetry. apply andb_true_iff. split; [apply Z.leb_le | apply Z.leb_le]; lia.
Qed.

Lemma yearStr_plain (y : Z) : 0 <= y <= 9999 -> yearStr y = padStart 4 (dec y).
Proof.
  intros Hy. unfold yearStr.
  replace ((0 <=? y) && (y <=? 9999)) with true; [reflexivity|].
  symmetry. apply andb_true_iff. split; apply Z.leb_le; lia.
Qed.

(** [s.startsWith(p)] piece by piece. *)
Lemma prefix_same_length (p1 p2 s1 s2 : string) :
  String.length p1 = String.length s1 ->
  String.prefix (p1 ++ p2) (s1 ++ s2) = String.eqb p1 s1 && String.prefix p2 s2.
Proof.
  revert s1. induction p1 as [|c p1 IH]; intros [|c' s1] H; try discriminate.
  - reflexivity.
  - cbn [append String.prefix String.eqb]. injection H as H. rewrite (IH _ H).
    destruct (ascii_dec c c') as [->|Hne].
    + now rewrite Ascii.eqb_refl.
    + apply Ascii.eqb_neq in Hne. now rewrite Hne.
Qed.

Lemma append_empty_r (s : string) : s ++ "" = s.
Proof. induction s as [|c s IH]; cbn; congruence. Qed.

Lemma prefix_nil (s : string) : String.prefix "" s = true.
Proof. now destruct s. Qed.

Lemma pad_eqb (w : nat) (a b : Z) :
  0 <= a -> 0 <= b ->
  String.eqb (padStart w (dec a)) (padStart w (dec b)) = (a =? b).
Proof.
  intros Ha Hb. destruct (Z.eqb_spec a b) as [->|Hne].
  - apply String.eqb_refl.
  - apply String.eqb_neq. intros E. now apply padStart_dec_inj in E.
Qed.

(** A date of a four-digit year is in the month of the UTC day of [now]
    exactly when its string starts with the month string of that day. *)
Lemma startsWith_monthPrefix (t now : Z) :
  1000 <= Host.getUTCFullYear now <= 9999 -> 0 <= Host.getUTCFullYear t <= 9999 ->
  startsWith (formatDate t)
             (monthPrefix (Host.getUTCFullYear now) (Host.getUTCMonth now)) =
  (Host.getUTCFullYear t =? Host.getUTCFullYear now)
  && (Host.getUTCMonth t =? Host.getUTCMonth now).
Proof.
  unfold Host.getUTCFullYear, Host.getUTCMonth, startsWith, monthPrefix.
  rewrite formatDate_isoDate. unfold isoDate.
  pose proof (civil_roundtrip (dayNumber t)) as Rt.
  pose proof (civil_roundtrip (dayNumber now)) as Rn.
  destruct (civil_from_days (dayNumber t)) as [[y m] dd].
  destruct (civil_from_days (dayNumber now)) as [[y' m'] dd'].
  intros Hy' Hy.
  rewrite (numToString_year y' Hy'), (yearStr_plain y Hy).
  replace (m' - 1 + 1) with m' by lia.
  replace (numToString m') with (dec m')
    by (unfold numToString; destruct (Z.ltb_spec m' 0); [lia | reflexivity]).
  rewrite prefix_same_length by (rewrite !length_pad4; lia).
  change ("-" ++ padStart 2 (dec m')) with (String "-" (padStart 2 (dec m'))).
  change ("-" ++ padStart 2 (dec m) ++ "-" ++ padStart 2 (dec dd))
    with (String "-" (padStart 2 (dec m) ++ "-" ++ padStart 2 (dec dd))).
  cbn [String.prefix].
  destruct (ascii_dec "-"%char "-"%char) as [_|N]; [|now contradiction N].
  rewrite <- (append_empty_r (padStart 2 (dec m'))) at 1.
  rewrite prefix_same_length by (rewrite !length_pad2; lia).
  rewrite prefix_nil, andb_true_r.
  rewrite !pad_eqb by lia.
  rewrite (Z.eqb_sym y' y), (Z.eqb_sym m' m).
  f_equal. destruct (Z.eqb_spec m m'), (Z.eqb_spec (m - 1) (m' - 1)); lia || reflexivity.
Qed.

Lemma length_filter_map {A B : Type} (f : A -> B) (p : B -> bool) (l : list A) :
  List.length (filter p (map f l)) = List.length (filter (fun x => p (f x)) l).
Proof.
  induction l as [|x l IH]; [reflexivity|]. cbn [map filter].
  destruct (p (f x)); cbn [List.length]; now rewrite IH.
Qed.

(** The day numbers of four-digit years are within the range of [Date]. *)
Lemma days_from_civil_range (y m d : Z) :
  0 <= y <= 9999 -> 1 <= m <= 12 -> 1 <= d <= 31 ->
  Z.abs (days_from_civil y m d) <= 3000000.
Proof.
  intros Hy Hm Hd. unfold days_from_civil.
  destruct (m <=? 2), (2 <? m); Z.div_mod_to_equations; lia.
Qed.

Lemma string_length2 (s : string) :
  String.length s = 2%nat -> exists a b, s = String a (String b "").
Proof.
  destruct s as [|a [|b [|c s]]]; try discriminate. intros _. now exists a, b.
Qed.

Lemma string_length4 (s : string) :
  String.length s = 4%nat ->
  exists a b c d, s = String a (String b (String c (String d ""))).
Proof.
  destruct s as [|a [|b [|c [|d [|e s]]]]]; try discriminate.
  intros _. now exists a, b, c, d.
Qed.

Lemma digitVal_sign (c : ascii) (v : Z) :
  digitVal c = Some v -> c <> "+"%char /\ c <> "-"%char.
Proof. intros H. split; intros ->; discriminate. Qed.

(** A date-only string whose year starts with a digit is read in the
    four-digit form. *)
Lemma parseIsoDate_plain (a : ascii) (s : string) :
  a <> "+"%char -> a <> "-"%char ->
  parseIsoDate (String a s) =
  if (String.length (String a s) =? 10)%nat
  then isoDateOfFields 1 (substring 0 4 (String a s)) (substring 4 6 (String a s))
  else None.
Proof.
  intros Hp Hm. unfold parseIsoDate.
  destruct a as [[|] [|] [|] [|] [|] [|] [|] [|]]; try reflexivity;
    exfalso; (now apply Hm) || (now apply Hp).
Qed.

(** Reading back the date that [formatDate] prints: the midnight of the
    day, for the years 0 to 9999. *)
Lemma parseIsoDate_formatDate (t : Z) :
  0 <= Host.getUTCFullYear t <= 9999 ->
  parseIsoDate (formatDate t) = Some (dayNumber t * msPerDay).
Proof.
  unfold Host.getUTCFullYear. rewrite formatDate_isoDate. unfold isoDate.
  pose proof (civil_roundtrip (dayNumber t)) as R.
  destruct (civil_from_days (dayNumber t)) as [[y m] dd] eqn:C.
  destruct R as [Rn [Rm Rd]]. intros Hy.
  rewrite (yearStr_plain y Hy).
  pose proof (digitsVal_pad4 y Hy) as Vy.
  pose proof (digitsVal_pad2 m ltac:(lia)) as Vm.
  pose proof (digitsVal_pad2 dd ltac:(lia)) as Vd.
  destruct (string_length4 _ (length_pad4 y Hy)) as [y1 [y2 [y3 [y4 Ey]]]].
  destruct (string_length2 _ (length_pad2 m ltac:(lia))) as [m1 [m2 Em]].
  destruct (string_length2 _ (length_pad2 dd ltac:(lia))) as [d1 [d2 Ed]].
  rewrite Ey, Em, Ed in *.
  assert (Hsign : y1 <> "+"%char /\ y1 <> "-"%char).
  { cbn [digitsVal] in Vy. destruct (digitVal y1) as [v|] eqn:V; [|discriminate].
    exact (digitVal_sign _ _ V). }
  destruct Hsign as [Hp Hm].
  cbn [append]. rewrite (parseIsoDate_plain _ _ Hp Hm).
  cbn [String.length Nat.eqb substring]. unfold isoDateOfFields.
  rewrite Vy, Vm, Vd. replace (1 * y) with y by lia. rewrite Rn, C.
  pose proof (days_from_civil_range y m dd Hy Rm Rd) as B. rewrite Rn in B.
  replace ((1 <=? m) && (m <=? 12) && (1 <=? dd) && (dd <=? 31) &&
           ((y =? y) && (m =? m) && (dd =? dd)) &&
           (Z.abs (dayNumber t) <=? 100000000) && negb ((1 =? -1) && (y =? 0)))
    with true; [reflexivity|].
  symmetry. rewrite !Z.eqb_refl. cbn [andb negb Z.eqb].
  repeat (apply andb_true_iff; split); try apply Z.leb_le; try lia; reflexivity.
Qed.

Lemma dayNumber_midnight (n : Z) : dayNumber (n * msPerDay) = n.
Proof. unfold dayNumber. apply Z.div_mul. unfold msPerDay. lia. Qed.

End CalendarFacts.

Import DateFacts CalendarFacts.

(** X20.  [getFreezeDaysThisMonth()] counts the entries of the ledger
    whose date, the UTC day that [formatDate] has printed, lies in the
    month and year that now has in the local time of the host: for a
    ledger of such dates in the years 0 to 9999 and a local year from 1000
    to 9999, it is the number of those entries. *)
Theorem getFreezeDaysThisMonth_counts (z : Host.Zone) (d : HabitData) (now : Z)
    (ts : list Z) :
  1000 <= Host.getFullYear z now <= 9999 ->
  (forall t, In t ts -> 0 <= Host.getUTCFullYear t <= 9999) ->
  map f_date (orEmpty (freezeDays d)) = map formatDate ts ->
  getFreezeDaysThisMonth z d now =
  Z.of_nat (List.length (filter (fun t => sameMonth z t now) ts)).
Proof.
  intros Hnow Hts E. unfold getFreezeDaysThisMonth. cbv zeta. f_equal.
  set (P := monthPrefix (Host.getFullYear z now) (Host.getMonth z now)).
  rewrite <- (length_filter_map f_date (fun s => startsWith s P)), E.
  rewrite length_filter_map. f_equal. apply filter_ext_in.
  intros t Ht. unfold P, sameMonth, Host.getFullYear, Host.getMonth.
  apply startsWith_monthPrefix; auto.
Qed.

(** X21.  [parseDate] reads a date that [formatDate] has printed, of the
    years 0 to 9999, as the local midnight of that date, whatever the host
    makes of other strings.  [formatDate] of the result is the date again
    exactly when the offset of the host at that midnight is negative or
    zero: on a host ahead of UTC it is the day before. *)
Theorem parseDate_formatDate (z : Host.Zone) (hostDateParse : string -> option Z)
    (t : Z) :
  let midnight := dayNumber t * msPerDay in
  0 <= Host.getUTCFullYear t <= 9999 ->
  Z.abs (Host.atLocalTime z midnight) < msPerDay ->
  parseDate z hostDateParse (formatDate t) = Some (midnight - Host.atLocalTime z midnight) /\
  (formatDate (midnight - Host.atLocalTime z midnight) = formatDate t <->
   Host.atLocalTime z midnight <= 0).
Proof.
  cbv zeta. intros Hy Hoff. pose proof (parseIsoDate_formatDate t Hy) as P.
  assert (B : Z.abs (dayNumber t) <= 3000000).
  { unfold Host.getUTCFullYear in Hy.
    pose proof (civil_roundtrip (dayNumber t)) as R.
    destruct (civil_from_days (dayNumber t)) as [[y m] dd].
    destruct R as [<- [Rm Rd]]. now apply days_from_civil_range. }
  split.
  - unfold parseDate. rewrite P. unfold timeClip, Host.UTC.
    unfold msPerDay in *.
    destruct (Z.leb_spec (Z.abs (dayNumber t * 86400000
                                 - Host.atLocalTime z (dayNumber t * 86400000)))
                         8640000000000000); [reflexivity | lia].
  - set (off := Host.atLocalTime z (dayNumber t * msPerDay)) in *.
    assert (D : dayNumber (dayNumber t * msPerDay - off) = dayNumber t <-> off <= 0).
    { unfold dayNumber at 1. unfold msPerDay in *. split.
      - intros E.
        assert (H := Z.div_mod (dayNumber t * 86400000 - off) 86400000 ltac:(lia)).
        assert (H' := Z.mod_pos_bound (dayNumber t * 86400000 - off) 86400000 ltac:(lia)).
        rewrite E in H. lia.
      - intros Hle. symmetry. apply Z.div_unique with (r := - off); lia. }
    rewrite <- D. rewrite !formatDate_isoDate. split.
    + intros E. now apply isoDate_inj in E.
    + intros E. now rewrite E.
Qed.

(** ** What a deletion leaves, the bounds of the longest streak *)

Module RemovalFacts.
Import JS Model Queries Service Aux Registry Aux2 ServiceFacts RegistryFacts
  HabitFacts CategoryFacts LongestFacts.

Lemma deleteHabit_data (id : string) (w : World) (h : Habit) :
  getHabit (data w) id = Some h ->
  exists before after,
    habits (data w) = (before ++ h :: after)%list /\
    (forall y, In y before -> h_id y <> id) /\ h_id h = id /\
    data (snd (deleteHabit id w)) =
      set_logs (filter (fun l => negb (String.eqb (l_habitId l) id)) (logs (data w)))
               (set_habits (before ++ after)%list (data w)).
Proof.
  intros H.
  destruct (getHabit_split _ _ _ H) as [before [after [Hl [Hi [Hb Hh]]]]].
  exists before, after. split; [exact Hl|]. split; [exact Hb|]. split; [exact Hh|].
  unfold deleteHabit. rewrite Hi.
  set (w1 := inplace_habits (splice1 (List.length before)) w).
  set (keep := fun l : HabitLog => negb (String.eqb (l_habitId l) id)).
  set (w2 := assign_logs (filter keep (logs (data w1))) w1).
  assert (E : (modify (inplace_habits (splice1 (List.length before))) ;;;
               modify (fun w' => assign_logs (filter keep (logs (data w'))) w') ;;;
               save ;;; ret true) w =
              (modify (fun _ => w2) ;;; save ;;; ret true) w) by reflexivity.
  rewrite E. clear E.
  pose proof (change_save_ret_full (fun _ => w2) true w) as S. cbv zeta in S.
  destruct S as [Sd _]. rewrite Sd.
  unfold w2. rewrite data_assign_logs. unfold w1.
  rewrite data_inplace_habits. cbn [logs set_habits]. now rewrite Hl, splice1_app.
Qed.

Lemma milestone_found (t : BadgeType) :
  exists m, find (fun m => BadgeType_eqb (m_type m) t) BADGE_MILESTONES = Some m /\
            m_type m = t.
Proof. destruct t; eexists; split; reflexivity. Qed.

Lemma getCategory_split_first (d : HabitData) (id : string) (c : Category) :
  getCategory d id = Some c ->
  exists before after,
    categories d = Some (before ++ c :: after)%list /\
    findIndex (hasCategoryId id) (before ++ c :: after) = Some (List.length before) /\
    (forall y, In y before -> hasCategoryId id y = false) /\
    hasCategoryId id c = true.
Proof.
  unfold getCategory. destruct (categories d) as [cs|]; [|discriminate]. intros F.
  destruct (findIndex (hasCategoryId id) cs) as [i|] eqn:E.
  - destruct (findIndex_Some _ _ _ E) as [before [x [after [Hl [Hlen [Hx Hb]]]]]].
    assert (x = c).
    { rewrite Hl, (find_app_first _ before x after Hb Hx) in F. congruence. }
    subst x cs. exists before, after. rewrite E, Hlen. auto.
  - apply findIndex_find_None in E. congruence.
Qed.

Section Runs.
Context {A : Type} (next : A -> A -> bool).

Lemma runFrom_length (first : A) (rest : list A) :
  runFrom next first rest <= 1 + Z.of_nat (List.length rest).
Proof.
  revert first. induction rest as [|x rest IH]; intros first;
    cbn [runFrom List.length]; [lia|].
  destruct (next first x); [specialize (IH x)|]; lia.
Qed.

Lemma longestRun_length (l : list A) :
  longestRun next l <= Z.of_nat (List.length l).
Proof.
  induction l as [|x l IH]; cbn [longestRun List.length]; [lia|].
  pose proof (runFrom_length x l). lia.
Qed.

Lemma longestRun_pos (x : A) (l : list A) : 1 <= longestRun next (x :: l).
Proof. cbn [longestRun]. pose proof (runFrom_pos next x l). lia. Qed.
End Runs.

End RemovalFacts.

Import RemovalFacts.

(** X22.  [updateCategory(id, updates)] returns [undefined] and changes
    nothing when no category has the identifier.  Otherwise the first
    category of the identifier takes the fields given, keeps the identifier
    whatever [updates] says, and stays in its place; the habits stay as
    they are. *)
Theorem updateCategory_keeps_id (id : string) (updates : CategoryPatch) (w : World) :
  let res := updateCategory id updates w in
  (getCategory (data w) id = None -> res = (Returned None, w)) /\
  (forall c, getCategory (data w) id = Some c ->
     let c' := set_c_id id (patchCategory c updates) in
     c_id c' = id /\
     (exists before after,
        categories (data w) = Some (before ++ c :: after)%list /\
        categories (data (snd res)) = Some (before ++ c' :: after)%list) /\
     getCategory (data (snd res)) id = Some c' /\
     habits (data (snd res)) = habits (data w) /\
     (fst res = Returned (Some c') \/ fst res = Rejected)).
Proof.
  cbv zeta. split.
  - intros H. unfold updateCategory, getCategory in *.
    destruct (categories (data w)) as [cs|]; [|reflexivity].
    apply findIndex_find_None in H. now rewrite H.
  - intros c H.
    destruct (getCategory_split_first _ _ _ H) as [before [after [Hc [Hi [Hb Hx]]]]].
    unfold updateCategory. rewrite Hc, Hi, nth_error_middle.
    set (c' := set_c_id id (patchCategory c updates)).
    pose proof (change_save_ret_full
                  (inplace_categories (setAt (List.length before) c')) (Some c') w) as S.
    cbv zeta in S. destruct S as [Sd Ss].
    rewrite Sd, data_inplace_categories, Hc.
    cbn [option_map categories habits set_categories]. rewrite setAt_app.
    split; [reflexivity|]. split; [exists before, after; auto|].
    split; [|split; [reflexivity|]].
    + unfold getCategory. cbn [categories set_categories].
      apply find_app_first; [exact Hb|]. unfold hasCategoryId, c'. cbn.
      apply String.eqb_refl.
    + destruct Ss as [[Sr _]|[Sr _]]; auto.
Qed.

(** X23.  [deleteHabit] takes the logs of the habit away but not its
    badges: the collection of badges is as before, and when the habit was
    the only one of its identifier, [getAllBadgesWithDetails] lists its
    badges without a habit.  A badge always has its milestone there. *)
Theorem deleteHabit_keeps_badges (id : string) (w : World) :
  let d' := data (snd (deleteHabit id w)) in
  badges d' = badges (data w) /\
  (forall h, getHabit (data w) id = Some h ->
     NoDup (map h_id (habits (data w))) ->
     forall b, In b (orEmpty (badges (data w))) -> b_habitId b = id ->
       exists m, In (b, None, Some m) (getAllBadgesWithDetails d') /\
                 m_type m = b_type b) /\
  (forall d b habit milestone,
     In (b, habit, milestone) (getAllBadgesWithDetails d) ->
     exists m, milestone = Some m /\ m_type m = b_type b /\ In m BADGE_MILESTONES).
Proof.
  cbv zeta. split; [|split].
  - destruct (getHabit (data w) id) as [h|] eqn:H.
    + destruct (deleteHabit_data id w h H) as [before [after [_ [_ [_ ->]]]]].
      reflexivity.
    + unfold deleteHabit. now rewrite (getHabit_None_findIndex _ _ H).
  - intros h H Hnd b Hb Hid.
    destruct (deleteHabit_data id w h H) as [before [after [Hl [_ [Hh D]]]]].
    destruct (milestone_found (b_type b)) as [m [Fm Tm]].
    exists m. split; [|exact Tm].
    unfold getAllBadgesWithDetails. apply in_map_iff. exists b.
    rewrite D. cbn [badges set_logs set_habits]. split; [|exact Hb].
    rewrite Fm. f_equal. f_equal.
    rewrite getHabit_find. cbn [habits set_logs set_habits]. rewrite Hid.
    apply find_hasId_absent.
    rewrite Hl, map_app in Hnd. simpl in Hnd. rewrite Hh in Hnd.
    apply NoDup_remove_2 in Hnd. now rewrite map_app.
  - intros d b habit milestone Hin. unfold getAllBadgesWithDetails in Hin.
    apply in_map_iff in Hin. destruct Hin as [b0 [E _]].
    injection E as -> _ <-.
    destruct (milestone_found (b_type b)) as [m [Fm Tm]].
    exists m. split; [exact Fm|]. split; [exact Tm|].
    now apply find_some in Fm.
Qed.

(** X24.  After [deleteCategory(id)] has taken a category out, no habit is
    listed under the identifier, and the habits that are not archived and
    were in the category are listed as being in no category. *)
Theorem deleteCategory_uncategorizes (id : string) (w : World) (c : Category) :
  getCategory (data w) id = Some c ->
  let d' := data (snd (deleteCategory id w)) in
  getHabitsByCategory d' (Some id) = [] /\
  (forall h, In h (getHabitsByCategory (data w) (Some id)) ->
             In (set_categoryId None h) (getHabitsByCategory d' None)) /\
  (forall h, In h (getHabitsByCategory (data w) None) ->
             categoryId h <> Some id ->
             In h (getHabitsByCategory d' None)).
Proof.
  intros H. cbv zeta.
  assert (D : habits (data (snd (deleteCategory id w))) =
              map (detach id) (habits (data w))).
  { destruct (getCategory_split _ _ _ H) as [before [after [Hc Hi]]].
    unfold deleteCategory. rewrite Hc, Hi.
    set (w1 := inplace_categories (splice1 (List.length before)) w).
    set (w2 := inplace_habits (map (detach id)) w1).
    assert (E : (modify (inplace_categories (splice1 (List.length before))) ;;;
                 modify (inplace_habits (map (detach id))) ;;; save ;;; ret true) w =
                (modify (fun _ => w2) ;;; save ;;; ret true) w) by reflexivity.
    rewrite E. clear E.
    pose proof (change_save_ret_full (fun _ => w2) true w) as S. cbv zeta in S.
    destruct S as [Sd _]. rewrite Sd. unfold w2. rewrite data_inplace_habits.
    unfold w1. now rewrite data_inplace_categories. }
  assert (Hin : forall h, In h (getHabits (data (snd (deleteCategory id w))) false) <->
                          exists h0, h = detach id h0 /\ In h0 (habits (data w)) /\
                                     archived h0 = false).
  { intros h. unfold getHabits. rewrite In_sort, filter_In, D, in_map_iff.
    split.
    - intros [[h0 [<- Hh0]] Ha]. exists h0. split; [reflexivity|]. split; [exact Hh0|].
      apply negb_true_iff in Ha. revert Ha. unfold detach.
      destruct (categoryId h0) as [x|]; [|auto].
      destruct (String.eqb x id); auto.
    - intros [h0 [-> [Hh0 Ha]]]. split; [now exists h0|].
      apply negb_true_iff. unfold detach.
      destruct (categoryId h0) as [x|]; [|exact Ha].
      destruct (String.eqb x id); exact Ha. }
  assert (Hold : forall h, In h (getHabits (data w) false) <->
                           In h (habits (data w)) /\ archived h = false).
  { intros h. unfold getHabits. rewrite In_sort, filter_In.
    now rewrite negb_true_iff. }
  split; [|split].
  - unfold getHabitsByCategory.
    destruct (filter _ (getHabits (data (snd (deleteCategory id w))) false))
      as [|h l] eqn:F; [reflexivity|].
    assert (Hh : In h (h :: l)) by now left.
    rewrite <- F in Hh. apply filter_In in Hh. destruct Hh as [Hh Hc].
    apply Hin in Hh. destruct Hh as [h0 [-> _]]. exfalso. revert Hc. unfold detach.
    destruct (categoryId h0) as [x|] eqn:C; [|now rewrite C].
    destruct (String.eqb x id) eqn:X; [cbn; discriminate|].
    now rewrite C, X.
  - intros h Hh. unfold getHabitsByCategory in *.
    apply filter_In in Hh. destruct Hh as [Hh Hc]. apply Hold in Hh.
    apply filter_In. split.
    + apply Hin. exists h. split; [|exact Hh].
      unfold detach. destruct (categoryId h) as [x|]; [|discriminate].
      now rewrite Hc.
    + reflexivity.
  - intros h Hh Hne. unfold getHabitsByCategory in *.
    apply filter_In in Hh. destruct Hh as [Hh Hc]. apply Hold in Hh.
    apply filter_In. split; [|exact Hc].
    apply Hin. exists h. split; [|exact Hh].
    unfold detach. destruct (categoryId h) as [x|] eqn:C; [|reflexivity].
    destruct (String.eqb x id) eqn:X; [|reflexivity].
    apply String.eqb_eq in X. congruence.
Qed.

(** X25.  [getLongestStreak] is between 0 and [getTotalCompletions]; it is
    0 exactly when the habit has no completed log, and 1 at least
    otherwise. *)
Theorem getLongestStreak_bounds (hostDateParse : string -> option Z)
    (d : HabitData) (habitId : string) :
  0 <= getLongestStreak hostDateParse d habitId <= getTotalCompletions d habitId /\
  (getLongestStreak hostDateParse d habitId = 0 <-> getTotalCompletions d habitId = 0) /\
  (getTotalCompletions d habitId <> 0 -> 1 <= getLongestStreak hostDateParse d habitId).
Proof.
  rewrite getLongestStreak_longestRun. unfold getTotalCompletions.
  pose proof (Permutation_length (sort_Permutation byDateAsc (completedLogs d habitId)))
    as L.
  rewrite <- L.
  set (sorted := sort byDateAsc (completedLogs d habitId)).
  pose proof (longestRun_length (nextDay hostDateParse) sorted) as U.
  pose proof (longestRun_nonneg (nextDay hostDateParse) sorted) as N.
  destruct sorted as [|x l].
  - cbn. repeat split; lia.
  - pose proof (longestRun_pos (nextDay hostDateParse) x l) as P.
    cbn [List.length] in *. repeat split; lia.
Qed.


(** ** Checking today off *)

Module ExtendFacts.
Import JS Model Queries Service Aux Registry Aux2 DateFacts WalkFacts ServiceFacts
  SortFacts StreakFacts.

Lemma completedLogs_completed (d : HabitData) (id : string) (l : HabitLog) :
  In l (completedLogs d id) -> completed l = true.
Proof. unfold completedLogs. intros H. now apply filter_In in H. Qed.

Lemma find_date_completedOn (logs : list HabitLog) (x : string) :
  (forall l, In l logs -> completed l = true) ->
  (completedOn logs x = true <-> exists l, In l logs /\ l_date l = x) /\
  (completedOn logs x = false ->
   find (fun l => String.eqb (l_date l) x) logs = None) /\
  (completedOn logs x = true ->
   exists l, find (fun l => String.eqb (l_date l) x) logs = Some l).
Proof.
  intros Hall. unfold completedOn.
  destruct (find (fun l => String.eqb (l_date l) x) logs) as [l|] eqn:F.
  - pose proof (find_some _ _ F) as [Hin E]. apply String.eqb_eq in E.
    rewrite (Hall l Hin). split; [|split].
    + split; [intros _; now exists l | reflexivity].
    + discriminate.
    + intros _. now exists l.
  - split; [|split].
    + split; [discriminate|]. intros [l [Hin E]].
      pose proof (find_none _ _ F l Hin) as N. cbv beta in N.
      apply String.eqb_neq in N. contradiction.
    + reflexivity.
    + discriminate.
Qed.

Lemma completedOn_completedLogs (d : HabitData) (id x : string) :
  id <> "" ->
  (completedOn (completedLogs d id) x = true <->
   exists l, In l (logs d) /\ l_habitId l = id /\ completed l = true /\ l_date l = x).
Proof.
  intros Hid.
  destruct (find_date_completedOn (completedLogs d id) x (completedLogs_completed d id))
    as [E _].
  rewrite E. split.
  - intros [l [Hin Hx]]. apply (completedLogs_In d id l Hid) in Hin. exists l. tauto.
  - intros [l [Hin [Hh [Hc Hx]]]]. exists l. split; [|exact Hx].
    apply (completedLogs_In d id l Hid). auto.
Qed.

Lemma In_update_first {A : Type} (p : A -> bool) (f : A -> A) (ls : list A) (l : A) :
  In l (update_first p f ls) ->
  In l ls \/ exists e, In e ls /\ p e = true /\ l = f e.
Proof.
  induction ls as [|y ls IH]; cbn [update_first]; [intros []|].
  destruct (p y) eqn:Py.
  - intros [<-|H]; [right; exists y; repeat split; auto; now left | left; now right].
  - intros [<-|H]; [left; now left|].
    destruct (IH H) as [H'|[e [He [Pe El]]]]; [left; now right|].
    right. exists e. repeat split; auto. now right.
Qed.

Lemma update_first_keeps {A : Type} (p : A -> bool) (f : A -> A) (ls : list A) (l : A) :
  In l ls -> p l = false -> In l (update_first p f ls).
Proof.
  induction ls as [|y ls IH]; cbn [update_first]; [intros []|].
  intros [->|H] Pl.
  - rewrite Pl. now left.
  - destruct (p y); right; auto.
Qed.

Lemma update_first_hit {A : Type} (p : A -> bool) (f : A -> A) (ls : list A) (e : A) :
  find p ls = Some e -> In (f e) (update_first p f ls).
Proof.
  induction ls as [|y ls IH]; cbn [find update_first]; [discriminate|].
  destruct (p y).
  - intros [= ->]. now left.
  - intros H. right. auto.
Qed.

(** The completed logs of the habit after [toggleHabit] has settled on
    [today], a date for which the habit had no completed log: one for
    [today], and the ones there were. *)
Lemma toggleLogs_completed (now : Z) (id today : string) (ls : list HabitLog) :
  (forall l, In l ls -> l_habitId l = id -> l_date l = today -> completed l = false) ->
  forall x,
    (exists l, In l (toggleLogs now id today ls) /\
               l_habitId l = id /\ completed l = true /\ l_date l = x) <->
    x = today \/
    (exists l, In l ls /\ l_habitId l = id /\ completed l = true /\ l_date l = x).
Proof.
  intros Hnot x. unfold toggleLogs.
  destruct (find (sameLog id today) ls) as [e|] eqn:F.
  - pose proof (find_some _ _ F) as [He Pe]. apply sameLog_eq in Pe.
    destruct Pe as [Eh Ed]. pose proof (Hnot e He Eh Ed) as Ec.
    split.
    + intros [l [Hin [Hh [Hc Hx]]]].
      apply In_update_first in Hin. destruct Hin as [Hin|[e' [He' [Pe' ->]]]].
      * right. exists l. auto.
      * left. apply sameLog_eq in Pe'. cbn in Hx. now rewrite <- Hx.
    + intros [->|[l [Hin [Hh [Hc Hx]]]]].
      * exists (toggled now e). split; [now apply update_first_hit|].
        cbn. rewrite Ec. auto.
      * exists l. split; [|auto]. apply update_first_keeps; [exact Hin|].
        destruct (sameLog id today l) eqn:P; [|reflexivity].
        apply sameLog_eq in P. destruct P as [_ P].
        rewrite (Hnot l Hin Hh P) in Hc. discriminate.
  - unfold push. split.
    + intros [l [Hin [Hh [Hc Hx]]]]. apply in_app_iff in Hin.
      destruct Hin as [Hin|[<-|[]]]; [right; exists l; auto | left].
      now rewrite <- Hx.
    + intros [->|[l [Hin H]]].
      * exists (createHabitLog now id today true None).
        split; [apply in_app_iff; right; now left | cbn; auto].
      * exists l. split; [apply in_app_iff; now left | exact H].
Qed.


End ExtendFacts.

Import ExtendFacts.
(** ** The current streaks on a host of any fixed offset *)

Module HostFacts.
Import JS Model Queries Service Aux Registry Aux2 DateFacts WalkFacts ServiceFacts
  StreakFacts TrendFacts ExtendFacts.

(** On a host whose local time is UTC the walks are those of [Queries]. *)
Lemma host_UTC_bodies (d : HabitData) (logs : list HabitLog) (habit : Habit)
    (t s : Z) :
  Host.streakBody (Host.fixedZone 0) logs habit t s = streakBody logs habit t s /\
  Host.freezeBody (Host.fixedZone 0) d logs habit t s = freezeBody d logs habit t s.
Proof.
  assert (P : Host.setDate_pred (Host.fixedZone 0) t = setDate_pred t).
  { unfold Host.setDate_pred. rewrite setDate_back_fixed. unfold setDate_pred. lia. }
  assert (G : Host.getDay (Host.fixedZone 0) t = getDay t).
  { unfold Host.getDay, Host.LocalTime, getDay. cbn. now rewrite Z.add_0_r. }
  assert (M : Host.missedDay (Host.fixedZone 0) habit t s = missedDay habit t s).
  { unfold Host.missedDay, missedDay. now rewrite P, G. }
  unfold Host.streakBody, Host.freezeBody, streakBody, freezeBody.
  now rewrite P, M.
Qed.

Lemma while_ext_body (body1 body2 : Z -> Z -> Step) (fuel : nat) (t s : Z) :
  (forall t s, body1 t s = body2 t s) ->
  while body1 fuel t s = while body2 fuel t s.
Proof.
  intros E. revert t s. induction fuel as [|fuel IH]; intros t s; [reflexivity|].
  rewrite !while_S, E. destruct (body2 t s); [reflexivity | apply IH].
Qed.

Lemma host_UTC_streaks (fuel : nat) (d : HabitData) (now : Z) (habitId : string) :
  Host.getCurrentStreak (Host.fixedZone 0) fuel d now habitId =
    getCurrentStreak fuel d now habitId /\
  Host.getCurrentStreakWithFreeze (Host.fixedZone 0) fuel d now habitId =
    getCurrentStreakWithFreeze fuel d now habitId.
Proof.
  assert (P : Host.setDate_pred (Host.fixedZone 0) now = setDate_pred now).
  { unfold Host.setDate_pred. rewrite setDate_back_fixed. unfold setDate_pred. lia. }
  unfold Host.getCurrentStreak, Host.getCurrentStreakWithFreeze,
    getCurrentStreak, getCurrentStreakWithFreeze. rewrite P.
  destruct (List.length (completedLogs d habitId) =? 0)%nat; [auto|].
  destruct (getHabit d habitId) as [habit|]; [|auto].
  split; apply while_ext_body; intros t s;
    apply (host_UTC_bodies d (completedLogs d habitId) habit t s).
Qed.

Section Fixed.
Variable offset : Z.
Variable habit : Habit.

Lemma setDate_pred_fixed (t : Z) :
  Host.setDate_pred (Host.fixedZone offset) t = setDate_pred t.
Proof.
  unfold Host.setDate_pred. rewrite setDate_back_fixed. unfold setDate_pred. lia.
Qed.

Lemma host_getDay_range (t : Z) : 0 <= Host.getDay (Host.fixedZone offset) t < 7.
Proof. unfold Host.getDay. apply Z.mod_pos_bound. lia. Qed.

Lemma host_getDay_pred (t : Z) :
  Host.getDay (Host.fixedZone offset) (setDate_pred t) =
  (Host.getDay (Host.fixedZone offset) t + 6) mod 7.
Proof.
  unfold Host.getDay, Host.LocalTime. cbn.
  replace (setDate_pred t + offset) with (setDate_pred (t + offset))
    by (unfold setDate_pred; lia).
  rewrite dayNumber_pred, Z.add_mod_idemp_l by lia.
  replace (dayNumber (t + offset) + 4 + 6)
    with (dayNumber (t + offset) - 1 + 4 + 1 * 7) by lia.
  now rewrite Z_mod_plus_full.
Qed.

Lemma host_missedDay_eq (t s : Z) :
  Host.missedDay (Host.fixedZone offset) habit t s =
  if stopsOn habit (Host.getDay (Host.fixedZone offset) t) then Break s
  else safetyLimit (setDate_pred t) s.
Proof.
  unfold Host.missedDay, stopsOn. rewrite setDate_pred_fixed.
  destruct (frequency habit); try reflexivity;
    destruct (customDays habit) as [cd|]; reflexivity.
Qed.

Lemma host_streakBody_eq (logs : list HabitLog) (t s : Z) :
  Host.streakBody (Host.fixedZone offset) logs habit t s =
  if completedOn logs (formatDate t) then safetyLimit (setDate_pred t) (s + 1)
  else if stopsOn habit (Host.getDay (Host.fixedZone offset) t) then Break s
  else safetyLimit (setDate_pred t) s.
Proof.
  unfold Host.streakBody. now rewrite setDate_pred_fixed, host_missedDay_eq.
Qed.

Lemma host_freezeBody_eq (d : HabitData) (logs : list HabitLog) (t s : Z) :
  Host.freezeBody (Host.fixedZone offset) d logs habit t s =
  if isFrozen d (formatDate t) then Continue (setDate_pred t) s
  else if completedOn logs (formatDate t) then safetyLimit (setDate_pred t) (s + 1)
  else if stopsOn habit (Host.getDay (Host.fixedZone offset) t) then Break s
  else safetyLimit (setDate_pred t) s.
Proof.
  unfold Host.freezeBody. now rewrite setDate_pred_fixed, host_missedDay_eq.
Qed.

(** One evaluation of the body: the streak grows by one at most, and the
    walk goes on from the day before. *)
Lemma host_freezeBody_step (d : HabitData) (logs : list HabitLog) (t s : Z) :
  match Host.freezeBody (Host.fixedZone offset) d logs habit t s with
  | Break n => s <= n <= s + 1 /\ (s <= 3650 -> n <= 3651)
  | Continue t' s' => t' = setDate_pred t /\ s <= s' <= s + 1 /\ s' <= Z.max s 3650
  end.
Proof.
  rewrite host_freezeBody_eq.
  destruct (isFrozen d (formatDate t)); [lia|].
  destruct (completedOn logs (formatDate t)).
  - destruct (safetyLimit_cases (setDate_pred t) (s + 1)) as [[-> ?]|[-> ?]]; lia.
  - destruct (stopsOn habit (Host.getDay (Host.fixedZone offset) t)); [lia|].
    destruct (safetyLimit_cases (setDate_pred t) s) as [[-> ?]|[-> ?]]; lia.
Qed.

Lemma host_while_grows (d : HabitData) (logs : list HabitLog) (fuel : nat)
    (t s b : Z) :
  while (Host.freezeBody (Host.fixedZone offset) d logs habit) fuel t s = Some b ->
  s <= b /\ (s <= 3650 -> b <= 3651).
Proof.
  revert t s. induction fuel as [|fuel IH]; intros t s H; [discriminate|].
  rewrite while_S in H.
  pose proof (host_freezeBody_step d logs t s) as G.
  destruct (Host.freezeBody (Host.fixedZone offset) d logs habit t s) as [n|t' s'].
  - injection H as <-. lia.
  - apply IH in H. lia.
Qed.

Lemma host_while_logs_ext (d : HabitData) (logs1 logs2 : list HabitLog)
    (fuel : nat) (t s : Z) :
  (forall t', dayNumber t' <= dayNumber t ->
              completedOn logs1 (formatDate t') = completedOn logs2 (formatDate t')) ->
  while (Host.freezeBody (Host.fixedZone offset) d logs1 habit) fuel t s =
  while (Host.freezeBody (Host.fixedZone offset) d logs2 habit) fuel t s.
Proof.
  revert t s. induction fuel as [|fuel IH]; intros t s H; [reflexivity|].
  rewrite !while_S.
  assert (E : Host.freezeBody (Host.fixedZone offset) d logs1 habit t s =
              Host.freezeBody (Host.fixedZone offset) d logs2 habit t s).
  { rewrite !host_freezeBody_eq. rewrite (H t) by lia. reflexivity. }
  rewrite <- E.
  pose proof (host_freezeBody_step d logs1 t s) as G.
  destruct (Host.freezeBody (Host.fixedZone offset) d logs1 habit t s) as [n|t' s'];
    [reflexivity|].
  destruct G as [-> _].
  apply IH. intros t' Ht'. apply H. rewrite dayNumber_pred in Ht'. lia.
Qed.

Lemma host_while_no_freeze (d : HabitData) (logs : list HabitLog) (fuel : nat)
    (t s : Z) :
  (forall x, isFrozen d x = false) ->
  while (Host.freezeBody (Host.fixedZone offset) d logs habit) fuel t s =
  while (Host.streakBody (Host.fixedZone offset) logs habit) fuel t s.
Proof.
  intros H. apply while_ext_body. intros t0 s0.
  rewrite host_freezeBody_eq, host_streakBody_eq. now rewrite H.
Qed.

(** Each day counted has a log of its own. *)
Lemma host_while_counts_logs (d : HabitData) (fuel : nat) :
  forall (logs : list HabitLog) (t s b : Z),
    while (Host.freezeBody (Host.fixedZone offset) d logs habit) fuel t s = Some b ->
    b - s <= Z.of_nat (List.length logs).
Proof.
  induction fuel as [|fuel IH]; intros logs t s b H; [discriminate|].
  rewrite while_S, host_freezeBody_eq in H.
  destruct (isFrozen d (formatDate t)).
  { apply IH in H. exact H. }
  destruct (completedOn logs (formatDate t)) eqn:Hc.
  - pose proof (otherDates_shorter _ _ Hc) as Hlt.
    destruct (safetyLimit_cases (setDate_pred t) (s + 1)) as [[E _]|[E _]];
      rewrite E in H.
    + injection H as <-. lia.
    + rewrite (host_while_logs_ext d logs (otherDates (formatDate t) logs)) in H.
      * apply IH in H. lia.
      * intros t' Ht'. symmetry. apply completedOn_otherDates.
        intros Eq. apply formatDate_inj in Eq.
        rewrite dayNumber_pred in Ht'. lia.
  - destruct (stopsOn habit (Host.getDay (Host.fixedZone offset) t)).
    + injection H as <-. lia.
    + destruct (safetyLimit_cases (setDate_pred t) s) as [[E _]|[E _]];
        rewrite E in H.
      * injection H as <-. lia.
      * apply IH in H. lia.
Qed.

(** A walk that starts one higher ends one higher, up to the limit. *)
Lemma host_while_shift (logs : list HabitLog) (fuel : nat) :
  forall (t s b : Z),
    s <= 3649 ->
    while (Host.streakBody (Host.fixedZone offset) logs habit) fuel t s = Some b ->
    while (Host.streakBody (Host.fixedZone offset) logs habit) fuel t (s + 1) =
    Some (Z.min (b + 1) 3651).
Proof.
  induction fuel as [|fuel IH]; intros t s b Hs H; [discriminate|].
  rewrite while_S, host_streakBody_eq in *.
  destruct (completedOn logs (formatDate t)).
  - destruct (safetyLimit_cases (setDate_pred t) (s + 1)) as [[E ?]|[E ?]];
      rewrite E in H; [lia|].
    destruct (safetyLimit_cases (setDate_pred t) (s + 1 + 1)) as [[E' ?]|[E' ?]];
      rewrite E'.
    + assert (s = 3649) by lia. subst s.
      assert (3650 <= b).
      { rewrite <- (host_while_no_freeze (mkData [] [] None None None None)) in H
          by reflexivity.
        apply host_while_grows in H. lia. }
      f_equal. lia.
    + apply IH; [lia | exact H].
  - destruct (stopsOn habit (Host.getDay (Host.fixedZone offset) t)).
    + injection H as <-. f_equal. lia.
    + destruct (safetyLimit_cases (setDate_pred t) s) as [[E ?]|[E ?]];
        rewrite E in H; [lia|].
      destruct (safetyLimit_cases (setDate_pred t) (s + 1)) as [[E' ?]|[E' ?]];
        rewrite E'; [lia|].
      apply IH; [lia | exact H].
Qed.

Hypothesis Hdue : hasDueDay habit = true.

(** The plain walk is over after [localRank] evaluations of the body. *)
Lemma host_plain_rank (logs : list HabitLog) (r : nat) :
  forall (t s : Z),
    (localRank (Host.fixedZone offset) habit t s <= r)%nat ->
    exists b,
      while (Host.streakBody (Host.fixedZone offset) logs habit) (S r) t s = Some b.
Proof.
  induction r as [|r IH]; intros t s Hr;
    rewrite while_S, host_streakBody_eq;
    (destruct (completedOn logs (formatDate t));
     [ destruct (safetyLimit_cases (setDate_pred t) (s + 1)) as [[-> ?]|[-> ?]];
       [eexists; reflexivity|]
     | destruct (stopsOn habit (Host.getDay (Host.fixedZone offset) t)) eqn:St;
       [eexists; reflexivity|];
       destruct (safetyLimit_cases (setDate_pred t) s) as [[-> ?]|[-> ?]];
       [eexists; reflexivity|] ]);
    unfold localRank in *;
    pose proof (daysBack_week _ _ Hdue (host_getDay_range t)) as [B1 B2];
    pose proof (daysBack_week _ _ Hdue (host_getDay_range (setDate_pred t))) as [B3 _];
    rewrite host_getDay_pred in B3.
  - exfalso.
    assert (Z.to_nat (3651 - s) = S (Z.to_nat (3651 - (s + 1)))) by lia. lia.
  - exfalso. specialize (B2 St). lia.
  - apply IH. unfold localRank. rewrite host_getDay_pred.
    assert (Z.to_nat (3651 - s) = S (Z.to_nat (3651 - (s + 1)))) by lia. lia.
  - apply IH. unfold localRank. rewrite host_getDay_pred.
    specialize (B2 St). lia.
Qed.

Lemma host_plain_returns (logs : list HabitLog) (t : Z) :
  exists a,
    while (Host.streakBody (Host.fixedZone offset) logs habit) (7 * 3652) t 0 = Some a.
Proof.
  destruct (host_plain_rank logs (7 * 3651 + 6) t 0) as [a Ha].
  - unfold localRank.
    destruct (daysBack_week _ _ Hdue (host_getDay_range t)) as [B _].
    change (Z.to_nat (3651 - 0)) with 3651%nat. lia.
  - exists a. rewrite <- Ha. f_equal.
Qed.

End Fixed.

End HostFacts.

Import HostFacts.

(** X14.  On a host whose offset from UTC never changes, a current streak,
    plain or freeze-aware, is between 0 and 3651, and it is at most
    [getTotalCompletions]: the walk steps back by 24 hours, the dates it
    prints are different days, and every day counted has a completed log of
    its own. *)
Theorem current_streak_bounds (offset : Z) (fuel : nat) (d : HabitData) (now : Z)
    (habitId : string) (n : Z) :
  Host.getCurrentStreak (Host.fixedZone offset) fuel d now habitId = Some n \/
  Host.getCurrentStreakWithFreeze (Host.fixedZone offset) fuel d now habitId = Some n ->
  0 <= n <= 3651 /\ n <= getTotalCompletions d habitId.
Proof.
  unfold Host.getCurrentStreak, Host.getCurrentStreakWithFreeze, getTotalCompletions.
  set (logs := completedLogs d habitId).
  assert (W : forall habit d' t,
            while (Host.freezeBody (Host.fixedZone offset) d' logs habit) fuel t 0
              = Some n ->
            0 <= n <= 3651 /\ n <= Z.of_nat (List.length logs)).
  { intros habit d' t H.
    pose proof (host_while_grows offset habit _ _ _ _ _ _ H).
    pose proof (host_while_counts_logs offset habit _ _ _ _ _ _ H). lia. }
  destruct (List.length logs =? 0)%nat.
  { intros [[= <-]|[= <-]]; lia. }
  destruct (getHabit d habitId) as [habit|]; [|intros [[= <-]|[= <-]]; lia].
  intros [H|H].
  - rewrite <- (host_while_no_freeze offset habit (mkData [] [] None None None None))
      in H by reflexivity.
    exact (W _ _ _ H).
  - exact (W _ _ _ H).
Qed.

(** X26.  Checking today off adds one to the streak, on a host whose offset
    from UTC never changes.  For a habit with a weekday at which the walks
    stop and without a completed log for today, [getCurrentStreak] returns
    some [n], and after [toggleHabit(habitId)] it returns [n + 1], the
    limit of 3651 apart, whether the save has succeeded or not. *)
Theorem toggle_today_extends_streak (offset : Z) (habitId : string) (habit : Habit)
    (w : World) :
  habitId <> "" ->
  getHabit (data w) habitId = Some habit ->
  hasDueDay habit = true ->
  (forall l, In l (logs (data w)) -> l_habitId l = habitId ->
             l_date l = formatDate (clock w) -> completed l = false) ->
  let z := Host.fixedZone offset in
  let w1 := snd (toggleHabit habitId None w) in
  exists n,
    (forall fuel, (7 * 3652 <= fuel)%nat ->
       Host.getCurrentStreak z fuel (data w) (clock w) habitId = Some n) /\
    (forall fuel, (7 * 3652 + 1 <= fuel)%nat ->
       Host.getCurrentStreak z fuel (data w1) (clock w) habitId =
       Some (Z.min (n + 1) 3651)).
Proof.
  intros Hid Hh Hdue Hnot. cbv zeta.
  set (now := clock w). set (today := formatDate now).
  destruct (toggleHabit_frame habitId None w) as [Hd _].
  change (targetDate None w) with today in Hd. fold now in Hd.
  set (d1 := data (snd (toggleHabit habitId None w))) in *.
  set (logs0 := completedLogs (data w) habitId).
  set (logs1 := completedLogs d1 habitId).
  assert (Hh1 : getHabit d1 habitId = Some habit).
  { unfold getHabit. rewrite Hd. exact Hh. }
  assert (E1 : forall x, completedOn logs1 x = true <->
                         x = today \/ completedOn logs0 x = true).
  { intros x. unfold logs1, logs0. rewrite !completedOn_completedLogs by exact Hid.
    rewrite Hd. cbn [logs set_logs]. now apply toggleLogs_completed. }
  assert (N0 : completedOn logs0 today = false).
  { destruct (completedOn logs0 today) eqn:C; [|reflexivity].
    apply (completedOn_completedLogs (data w) habitId today Hid) in C.
    destruct C as [l [Hin [Eh [Ec Ed]]]]. rewrite (Hnot l Hin Eh Ed) in Ec.
    discriminate. }
  assert (T1 : completedOn logs1 today = true) by (apply E1; now left).
  destruct (find_date_completedOn logs0 today (completedLogs_completed _ _))
    as [_ [F0 _]].
  specialize (F0 N0).
  destruct (find_date_completedOn logs1 today (completedLogs_completed _ _))
    as [_ [_ F1]].
  destruct (F1 T1) as [l1 F1'].
  destruct (host_plain_returns offset habit Hdue logs0 (setDate_pred now)) as [a Ha].
  assert (Ha0 : (List.length logs0 =? 0)%nat = true -> a = 0).
  { intros L. apply Nat.eqb_eq in L.
    rewrite <- (host_while_no_freeze offset habit (mkData [] [] None None None None))
      in Ha by reflexivity.
    pose proof (host_while_grows offset habit _ _ _ _ _ _ Ha).
    pose proof (host_while_counts_logs offset habit _ _ _ _ _ _ Ha). lia. }
  exists a. split.
  - intros fuel Hf. unfold Host.getCurrentStreak. fold logs0. fold today.
    destruct (List.length logs0 =? 0)%nat; [now rewrite Ha0|].
    rewrite Hh, F0, setDate_pred_fixed. eapply while_mono; eauto.
  - intros fuel Hf. unfold Host.getCurrentStreak. fold logs1. fold today.
    assert (L1 : (List.length logs1 =? 0)%nat = false).
    { apply Nat.eqb_neq. apply find_some in F1'. destruct F1' as [Hin _].
      destruct logs1; [destruct Hin | discriminate]. }
    rewrite L1, Hh1, F1'.
    destruct fuel as [|fuel]; [lia|]. rewrite while_S, host_streakBody_eq.
    fold today. rewrite T1.
    destruct (safetyLimit_cases (setDate_pred now) (0 + 1)) as [[_ ?]|[-> _]]; [lia|].
    assert (X : while (Host.streakBody (Host.fixedZone offset) logs1 habit) fuel
                  (setDate_pred now) (0 + 1) =
                while (Host.streakBody (Host.fixedZone offset) logs0 habit) fuel
                  (setDate_pred now) (0 + 1)).
    { rewrite <- !(host_while_no_freeze offset habit
                     (mkData [] [] None None None None)) by reflexivity.
      apply host_while_logs_ext. intros t' Ht'.
      assert (Hne : formatDate t' <> today).
      { intros E. apply formatDate_inj in E. rewrite dayNumber_pred in Ht'. lia. }
      apply eq_iff_eq_true. rewrite E1. tauto. }
    rewrite X.
    apply (host_while_shift offset habit logs0 fuel (setDate_pred now) 0 a); [lia|].
    eapply while_mono; eauto. lia.
Qed.

(** Where the offset of the host changes, the local day before can be the
    same UTC day.  In Los Angeles on the afternoon of 2024-03-10 the walk
    reads the one completed log twice: the streak is 2 with one completion,
    it is 2 as well once today has been checked off on an empty history,
    and the trend of two days has the date 2024-03-10 twice.  In the
    evening of 2024-01-31 there (2024-02-01T03:00Z) a freeze day on the
    date of that instant is not one of the local month.  The three
    theorems on the bounds, the trend's distinct dates and the toggle are
    those of the hosts of a fixed offset. *)
Example offset_change_repeats_a_date :
  let z := MoreExamples.losAngeles in
  let d := MoreExamples.springForward in
  let now := MoreExamples.springEvening in
  let w := MoreExamples.springWorld in
  Host.getCurrentStreak z 100 d now "h1" = Some 2 /\
  getTotalCompletions d "h1" = 1 /\
  Host.getCurrentStreak z 100 (data w) now "h1" = Some 0 /\
  Host.getCurrentStreak z 100 (data (snd (toggleHabit "h1" None w))) now "h1" = Some 2 /\
  map fst (getCompletionTrend z d now "h1" 2) = ["2024-03-10"; "2024-03-10"] /\
  formatDate 1706756400000 = "2024-02-01" /\
  getFreezeDaysThisMonth z (snapshot (habitOf daily None) [] ["2024-02-01"])
                         1706756400000 = 0.
Proof. vm_compute. repeat split. Qed.

(** ** The longest streak and the calendar *)

Module OrderFacts.
Import JS Model Queries Service Aux Registry Aux2.
Import SortFacts RegistryFacts LogsFacts DateFacts CalendarFacts LongestFacts.

(** *** The order of the date strings *)

Lemma localeCompare_app (a b s t : string) :
  String.length a = String.length b ->
  localeCompare (a ++ s) (b ++ t) =
  match localeCompare a b with Eq => localeCompare s t | c => c end.
Proof.
  revert b. induction a as [|x a IH]; intros [|y b] L; try discriminate L.
  - reflexivity.
  - injection L as L. cbn [append localeCompare].
    destruct (nat_of_ascii x ?= nat_of_ascii y)%nat; auto.
Qed.

Lemma localeCompare_Lt_trans (a b c : string) :
  localeCompare a b = Lt -> localeCompare b c = Lt -> localeCompare a c = Lt.
Proof.
  revert b c. induction a as [|x a IH]; intros [|y b] [|z c]; cbn [localeCompare];
    try discriminate; auto.
  destruct (Nat.compare_spec (nat_of_ascii x) (nat_of_ascii y)) as [E|E|E];
    try discriminate;
    destruct (Nat.compare_spec (nat_of_ascii y) (nat_of_ascii z)) as [F|F|F];
    try discriminate; intros H1 H2.
  - rewrite E, F, Nat.compare_refl. eapply IH; eauto.
  - rewrite (proj2 (Nat.compare_lt_iff _ _)) by lia. reflexivity.
  - rewrite (proj2 (Nat.compare_lt_iff _ _)) by lia. reflexivity.
  - rewrite (proj2 (Nat.compare_lt_iff _ _)) by lia. reflexivity.
Qed.

Lemma str_le_antisym (a b : string) :
  str_le a b = true -> str_le b a = true -> a = b.
Proof.
  unfold str_le. rewrite (localeCompare_flip a b).
  destruct (localeCompare a b) eqn:E; cbn; try discriminate.
  intros _ _. now apply localeCompare_Eq.
Qed.

Lemma pad2_steps : all_from (pad_step_ok 2) (Z.to_nat 99) 0 = true.
Proof. vm_compute. reflexivity. Qed.

Lemma pad4_steps : all_from (pad_step_ok 4) (Z.to_nat 9999) 0 = true.
Proof. vm_compute. reflexivity. Qed.

(** The padded digits grow with the number. *)
Lemma pad_lt (w : nat) (k lo : Z) :
  all_from (pad_step_ok w) (Z.to_nat k) lo = true ->
  forall a b, lo <= a -> a < b -> b <= lo + k ->
    localeCompare (padStart w (dec a)) (padStart w (dec b)) = Lt.
Proof.
  intros Hall a b Ha Hab Hb.
  assert (Hstep : forall n, lo <= n < lo + Z.of_nat (Z.to_nat k) ->
            localeCompare (padStart w (dec n)) (padStart w (dec (n + 1))) = Lt).
  { intros n Hn. pose proof (all_from_spec _ _ _ Hall n Hn) as H.
    unfold pad_step_ok in H.
    destruct (localeCompare (padStart w (dec n)) (padStart w (dec (n + 1))));
      congruence. }
  replace b with (a + 1 + Z.of_nat (Z.to_nat (b - a - 1))) in * by lia.
  induction (Z.to_nat (b - a - 1)) as [|n IH].
  - replace (a + 1 + Z.of_nat 0) with (a + 1) by lia. apply Hstep. lia.
  - apply localeCompare_Lt_trans with (padStart w (dec (a + 1 + Z.of_nat n))).
    + apply IH; lia.
    + replace (a + 1 + Z.of_nat (S n)) with (a + 1 + Z.of_nat n + 1) by lia.
      apply Hstep. lia.
Qed.

(** *** The order of the calendar dates *)

Lemma civil_steps : all_from civil_step_ok (Z.to_nat 146097) 0 = true.
Proof. vm_compute. reflexivity. Qed.

Lemma civilLt_trans (a b c : Z * Z * Z) :
  civilLt a b = true -> civilLt b c = true -> civilLt a c = true.
Proof.
  destruct a as [[y m] dd], b as [[y' m'] dd'], c as [[y2 m2] dd2]. unfold civilLt.
  rewrite !orb_true_iff, !andb_true_iff, !orb_true_iff, !andb_true_iff,
    !Z.ltb_lt, !Z.eqb_eq. lia.
Qed.

Lemma civilLt_succ (n : Z) :
  civilLt (civil_from_days n) (civil_from_days (n + 1)) = true.
Proof.
  set (k := (n + 719468) / 146097).
  set (doe := (n + 719468) mod 146097).
  assert (Hn : n = (doe - 719468) + 146097 * k).
  { unfold doe, k. pose proof (Z.div_mod (n + 719468) 146097). lia. }
  assert (Hdoe : 0 <= doe < 0 + Z.of_nat (Z.to_nat 146097)).
  { unfold doe. pose proof (Z.mod_pos_bound (n + 719468) 146097). lia. }
  pose proof (all_from_spec _ _ _ civil_steps doe Hdoe) as Hok.
  unfold civil_step_ok in Hok. clearbody doe k. subst n.
  replace (doe - 719468 + 146097 * k + 1) with (doe + 1 - 719468 + 146097 * k) by lia.
  rewrite !civil_from_days_shift.
  destruct (civil_from_days (doe - 719468)) as [[y m] dd].
  destruct (civil_from_days (doe + 1 - 719468)) as [[y' m'] dd'].
  unfold civilLt in *.
  rewrite !orb_true_iff, !andb_true_iff, !orb_true_iff, !andb_true_iff,
    !Z.ltb_lt, !Z.eqb_eq in *. lia.
Qed.

Lemma civilLt_mono (a b : Z) :
  a < b -> civilLt (civil_from_days a) (civil_from_days b) = true.
Proof.
  intros Hab.
  replace b with (a + 1 + Z.of_nat (Z.to_nat (b - a - 1))) by lia.
  induction (Z.to_nat (b - a - 1)) as [|n IH].
  - replace (a + 1 + Z.of_nat 0) with (a + 1) by lia. apply civilLt_succ.
  - apply civilLt_trans with (civil_from_days (a + 1 + Z.of_nat n)); [exact IH|].
    replace (a + 1 + Z.of_nat (S n)) with (a + 1 + Z.of_nat n + 1) by lia.
    apply civilLt_succ.
Qed.

(** The dates of the years 0 to 9999 are printed in the order of the
    days. *)
Lemma isoDate_lt (a b : Z) :
  plainDay a -> plainDay b -> a < b -> localeCompare (isoDate a) (isoDate b) = Lt.
Proof.
  unfold plainDay, yearOfDay, isoDate. intros Pa Pb Hab.
  pose proof (civilLt_mono a b Hab) as Hlt.
  pose proof (civil_roundtrip a) as Ra. pose proof (civil_roundtrip b) as Rb.
  destruct (civil_from_days a) as [[y m] dd].
  destruct (civil_from_days b) as [[y' m'] dd'].
  destruct Ra as [_ [Rm Rd]]. destruct Rb as [_ [Rm' Rd']].
  rewrite (yearStr_plain y Pa), (yearStr_plain y' Pb).
  unfold civilLt in Hlt.
  rewrite !orb_true_iff, !andb_true_iff, !orb_true_iff, !andb_true_iff,
    !Z.ltb_lt, !Z.eqb_eq in Hlt.
  rewrite localeCompare_app by (rewrite !length_pad4; auto).
  destruct Hlt as [Hy | [-> Hlt]].
  - rewrite (pad_lt 4 9999 0 pad4_steps y y') by lia. reflexivity.
  - rewrite localeCompare_refl.
    change (localeCompare ("-" ++ padStart 2 (dec m) ++ "-" ++ padStart 2 (dec dd))
                          ("-" ++ padStart 2 (dec m') ++ "-" ++ padStart 2 (dec dd')))
      with (localeCompare (padStart 2 (dec m) ++ "-" ++ padStart 2 (dec dd))
                          (padStart 2 (dec m') ++ "-" ++ padStart 2 (dec dd'))).
    rewrite localeCompare_app by (rewrite !length_pad2; auto; lia).
    destruct Hlt as [Hm | [-> Hd]].
    + rewrite (pad_lt 2 99 0 pad2_steps m m') by lia. reflexivity.
    + rewrite localeCompare_refl.
      change (localeCompare ("-" ++ padStart 2 (dec dd)) ("-" ++ padStart 2 (dec dd')))
        with (localeCompare (padStart 2 (dec dd)) (padStart 2 (dec dd'))).
      apply (pad_lt 2 99 0 pad2_steps); lia.
Qed.

Lemma isoDate_le (a b : Z) :
  plainDay a -> plainDay b -> a <= b -> str_le (isoDate a) (isoDate b) = true.
Proof.
  intros Pa Pb Hab. unfold str_le.
  destruct (Z.eq_dec a b) as [->|Hne]; [now rewrite localeCompare_refl|].
  rewrite isoDate_lt; auto. lia.
Qed.

Lemma isoDate_sorted (days : list Z) :
  (forall n, In n days -> plainDay n) ->
  StronglySorted Z.le days ->
  StronglySorted (fun a b => str_le a b = true) (map isoDate days).
Proof.
  intros Hp Hs. induction Hs as [|x l Hs IH Hx]; cbn [map]; constructor.
  - apply IH. intros n Hn. apply Hp. now right.
  - rewrite Forall_forall in *. intros s Hin. apply in_map_iff in Hin.
    destruct Hin as [n [<- Hn]].
    apply isoDate_le; [apply Hp; now left | apply Hp; now right | now apply Hx].
Qed.

(** *** Sorted arrays of the same dates *)

Lemma str_sorted_unique (l1 l2 : list string) :
  StronglySorted (fun a b => str_le a b = true) l1 ->
  StronglySorted (fun a b => str_le a b = true) l2 ->
  Permutation l1 l2 -> l1 = l2.
Proof.
  revert l2. induction l1 as [|x l1 IH]; intros l2 S1 S2 P.
  - apply Permutation_nil in P. now subst.
  - destruct l2 as [|y l2];
      [apply Permutation_sym, Permutation_nil in P; discriminate|].
    inversion S1 as [|? ? S1' F1]; inversion S2 as [|? ? S2' F2]; subst.
    assert (x = y).
    { assert (Hy : In y (x :: l1))
        by (eapply Permutation_in; [apply Permutation_sym; exact P | now left]).
      assert (Hx : In x (y :: l2)) by (eapply Permutation_in; [exact P | now left]).
      rewrite Forall_forall in F1, F2.
      destruct Hy as [->|Hy]; [reflexivity|]. destruct Hx as [->|Hx]; [reflexivity|].
      apply str_le_antisym; auto. }
    subst y. f_equal. apply IH; auto. eapply Permutation_cons_inv; eauto.
Qed.

Lemma byDateAsc_flip (x y : HabitLog) : byDateAsc y x = CompOpp (byDateAsc x y).
Proof. unfold byDateAsc. apply localeCompare_flip. Qed.

Lemma ordered_byDateAsc_sorted (l : list HabitLog) :
  ordered byDateAsc l ->
  StronglySorted (fun a b => str_le a b = true) (map l_date l).
Proof.
  intros H. apply Sorted_StronglySorted.
  - intros a b c Hab Hbc. exact (str_le_trans _ _ _ Hab Hbc).
  - induction l as [|x l IH]; cbn [map]; constructor.
    + apply IH. apply H.
    + destruct l as [|y l]; cbn [map]; constructor.
      destruct H as [H _]. unfold byDateAsc in H. unfold str_le.
      destruct (localeCompare (l_date x) (l_date y)); congruence.
Qed.

Lemma filter_Permutation {A : Type} (p : A -> bool) (l l' : list A) :
  Permutation l l' -> Permutation (filter p l) (filter p l').
Proof.
  induction 1 as [|x l l' P IH|x y l|l l' l2 P1 IH1 P2 IH2]; cbn [filter].
  - constructor.
  - destruct (p x); auto.
  - destruct (p x), (p y); auto. constructor.
  - now transitivity (filter p l').
Qed.

Lemma filter_both {A : Type} (p q : A -> bool) (l : list A) :
  filter q (filter p l) = filter (fun x => p x && q x) l.
Proof.
  induction l as [|x l IH]; [reflexivity|]. cbn [filter].
  destruct (p x); cbn [filter andb]; [destruct (q x)|]; now rewrite IH.
Qed.

(** The dates [getLongestStreak] scans are the dates of the completed logs
    of the habit, in ascending order. *)
Lemma scanned_dates (d : HabitData) (habitId : string) :
  habitId <> "" ->
  Permutation (map l_date (sort byDateAsc (completedLogs d habitId)))
              (completedDates d habitId) /\
  StronglySorted (fun a b => str_le a b = true)
                 (map l_date (sort byDateAsc (completedLogs d habitId))).
Proof.
  intros Hne. split.
  - unfold completedDates. apply Permutation_map.
    etransitivity; [apply sort_Permutation|].
    unfold completedLogs, getLogs, selectLogs. cbn [truthy strArg].
    destruct (String.eqb habitId "") eqn:E; [apply String.eqb_eq in E; contradiction|].
    cbn [negb]. rewrite <- filter_both. apply filter_Permutation, sort_Permutation.
  - apply ordered_byDateAsc_sorted, sort_ordered. exact byDateAsc_flip.
Qed.

(** *** Runs *)

Section Runs.
Context {A B : Type} (f : A -> B) (next : B -> B -> bool).

Lemma runFrom_map (x : A) (l : list A) :
  runFrom next (f x) (map f l) = runFrom (fun a b => next (f a) (f b)) x l.
Proof.
  revert x. induction l as [|y l IH]; intros x; cbn [map runFrom]; [reflexivity|].
  now rewrite IH.
Qed.

Lemma longestRun_map (l : list A) :
  longestRun next (map f l) = longestRun (fun a b => next (f a) (f b)) l.
Proof.
  induction l as [|x l IH]; cbn [map longestRun]; [reflexivity|].
  now rewrite runFrom_map, IH.
Qed.
End Runs.

Lemma runFrom_ext {A : Type} (next next' : A -> A -> bool) (x : A) (l : list A) :
  (forall a b, In a (x :: l) -> In b (x :: l) -> next a b = next' a b) ->
  runFrom next x l = runFrom next' x l.
Proof.
  revert x. induction l as [|y l IH]; intros x H; cbn [runFrom]; [reflexivity|].
  rewrite (H x y) by (cbn; auto).
  rewrite IH; [reflexivity|]. intros a b Ha Hb. apply H; now right.
Qed.

Lemma longestRun_ext {A : Type} (next next' : A -> A -> bool) (l : list A) :
  (forall a b, In a l -> In b l -> next a b = next' a b) ->
  longestRun next l = longestRun next' l.
Proof.
  induction l as [|x l IH]; intros H; cbn [longestRun]; [reflexivity|].
  rewrite (runFrom_ext next next' x l H).
  rewrite IH; [reflexivity|]. intros a b Ha Hb. apply H; now right.
Qed.

Lemma Date_getTime_isoDate (hostDateParse : string -> option Z) (n : Z) :
  plainDay n -> Date_getTime hostDateParse (isoDate n) = Some (n * msPerDay).
Proof.
  intros Hn. unfold Date_getTime.
  pose proof (parseIsoDate_formatDate (n * msPerDay)) as H.
  unfold Host.getUTCFullYear in H. rewrite formatDate_isoDate, dayNumber_midnight in H.
  now rewrite (H Hn).
Qed.

Lemma nextDate_isoDate (hostDateParse : string -> option Z) (a b : Z) :
  plainDay a -> plainDay b ->
  nextDate hostDateParse (isoDate a) (isoDate b) = (b =? a + 1).
Proof.
  intros Pa Pb. unfold nextDate. rewrite !Date_getTime_isoDate by assumption.
  unfold round_div, msPerDay.
  replace (2 * (b * 86400000 - a * 86400000) + 1000 * 60 * 60 * 24)
    with (86400000 + (b - a) * (2 * (1000 * 60 * 60 * 24))) by lia.
  rewrite Z.div_add by lia. rewrite (Z.div_small 86400000) by lia.
  destruct (Z.eqb_spec (0 + (b - a)) 1), (Z.eqb_spec b (a + 1)); auto; lia.
Qed.

(** *** Runs of days in ascending order *)

Lemma runFrom_consecutive (x : Z) (l : list Z) :
  consecutive (x :: l) x (runFrom (fun a b => b =? a + 1) x l).
Proof.
  revert x. induction l as [|y l IH]; intros x i Hi; cbn [runFrom] in Hi.
  - left. lia.
  - destruct (Z.eqb_spec y (x + 1)) as [->|Hne]; [|left; lia].
    destruct (Z.eq_dec i 0) as [->|Hi0]; [left; lia|]. right.
    replace (x + i) with (x + 1 + (i - 1)) by lia. apply IH. lia.
Qed.

Lemma longestRun_consecutive (l : list Z) :
  exists a, consecutive l a (longestRun (fun a b => b =? a + 1) l).
Proof.
  induction l as [|x l [a IH]]; cbn [longestRun].
  - exists 0. intros i Hi. lia.
  - destruct (Z.max_spec (runFrom (fun a b => b =? a + 1) x l)
                         (longestRun (fun a b => b =? a + 1) l)) as [[_ ->]|[_ ->]].
    + exists a. intros i Hi. right. now apply IH.
    + exists x. apply runFrom_consecutive.
Qed.

Lemma consecutive_runFrom (x : Z) (l : list Z) (k : Z) :
  StronglySorted Z.lt (x :: l) -> consecutive (x :: l) x k ->
  k <= runFrom (fun a b => b =? a + 1) x l.
Proof.
  revert x k. induction l as [|y l IH]; intros x k S C; cbn [runFrom].
  - destruct (Z_lt_le_dec 1 k) as [Hk|Hk]; [|lia].
    destruct (C 1 ltac:(lia)) as [H|[]]. lia.
  - pose proof (runFrom_pos (fun a b => b =? a + 1) y l) as Hpos.
    destruct (Z_lt_le_dec 1 k) as [Hk|Hk]; [|destruct (y =? x + 1); lia].
    inversion S as [|? ? S' F]; subst. inversion S' as [|? ? S2 F']; subst.
    rewrite Forall_forall in F, F'.
    assert (Hy : y = x + 1).
    { destruct (C 1 ltac:(lia)) as [H|[H|H]]; [lia|lia|]. specialize (F' _ H).
      specialize (F y ltac:(now left)). lia. }
    subst y. rewrite Z.eqb_refl.
    specialize (IH (x + 1) (k - 1) S').
    assert (consecutive (x + 1 :: l) (x + 1) (k - 1)).
    { intros i Hi. destruct (C (1 + i) ltac:(lia)) as [H|H]; [lia|].
      now replace (x + 1 + i) with (x + (1 + i)) by lia. }
    specialize (IH H). lia.
Qed.

Lemma consecutive_longestRun (l : list Z) (a k : Z) :
  StronglySorted Z.lt l -> consecutive l a k ->
  k <= longestRun (fun a b => b =? a + 1) l.
Proof.
  intros S. revert a k. induction S as [|x l S IH F]; intros a k C; cbn [longestRun].
  - destruct (Z_lt_le_dec 0 k) as [Hk|Hk]; [|lia]. destruct (C 0 ltac:(lia)).
  - destruct (Z_lt_le_dec 0 k) as [Hk|Hk];
      [|pose proof (longestRun_nonneg (fun a b => b =? a + 1) l); lia].
    rewrite Forall_forall in F.
    destruct (Z.eq_dec a x) as [->|Hne].
    + pose proof (consecutive_runFrom x l k (SSorted_cons x S (proj2 (Forall_forall _ _) F)) C).
      lia.
    + assert (Ha : x < a).
      { destruct (C 0 ltac:(lia)) as [H|H]; [lia|]. specialize (F _ H). lia. }
      assert (C' : consecutive l a k).
      { intros i Hi. destruct (C i Hi) as [H|H]; [lia|exact H]. }
      specialize (IH a k C'). lia.
Qed.

Lemma sorted_NoDup_strict (l : list Z) :
  StronglySorted Z.le l -> NoDup l -> StronglySorted Z.lt l.
Proof.
  induction 1 as [|x l S IH F]; intros N; constructor; inversion N; subst.
  - now apply IH.
  - rewrite Forall_forall in *. intros y Hy. specialize (F y Hy).
    assert (x <> y) by (intros ->; contradiction). lia.
Qed.

End OrderFacts.

Import OrderFacts.

(** C6.  [getLongestStreak(habitId)] on calendar dates.  Let [days], in
    ascending order, be the days whose dates are the dates of the completed
    logs of the habit [habitId] (a non-empty identifier; dates of the years
    0 to 9999).  Then the result is the length of the longest run of [days]
    in which each day is the day after the one before: a gap of one day
    extends the run, any other gap (also a date that occurs twice) starts a
    new run of length 1.  When no date occurs twice, it is the greatest
    number of consecutive calendar days that are all dates of completed
    logs of the habit.  The result reads the logs only: it is the same
    whatever the habits (their frequencies and due days), the categories,
    the freeze days, the badges and the version are. *)
Theorem C6_longest_streak (hostDateParse : string -> option Z)
    (d : HabitData) (habitId : string) (days : list Z) :
  habitId <> "" ->
  Permutation (completedDates d habitId) (map isoDate days) ->
  (forall n, In n days -> plainDay n) ->
  StronglySorted Z.le days ->
  let r := getLongestStreak hostDateParse d habitId in
  r = longestRun (fun a b => b =? a + 1) days /\
  (NoDup days ->
   (exists a, consecutive days a r) /\ (forall a k, consecutive days a k -> k <= r)) /\
  (forall habits' categories' freezeDays' badges' version',
     getLongestStreak hostDateParse
       (mkData habits' (logs d) categories' freezeDays' badges' version') habitId = r).
Proof.
  intros Hne HP Hplain Hsorted r.
  assert (Hr : r = longestRun (fun a b => b =? a + 1) days).
  { unfold r. rewrite getLongestStreak_longestRun.
    destruct (scanned_dates d habitId Hne) as [P S].
    assert (E : map l_date (sort byDateAsc (completedLogs d habitId)) = map isoDate days).
    { apply str_sorted_unique; [exact S | now apply isoDate_sorted |].
      now transitivity (completedDates d habitId). }
    change (nextDay hostDateParse)
      with (fun a b => nextDate hostDateParse (l_date a) (l_date b)).
    rewrite <- (longestRun_map l_date (nextDate hostDateParse)), E, longestRun_map.
    apply longestRun_ext. intros a b Ha Hb. apply nextDate_isoDate; auto. }
  split; [exact Hr|]. split.
  - intros N. rewrite Hr. split.
    + apply longestRun_consecutive.
    + intros a k C. apply (consecutive_longestRun days a k); auto.
      now apply sorted_NoDup_strict.
  - intros. reflexivity.
Qed.

(** ** The properties of the rest of the service at concrete inputs *)

Import MoreExamples.

(** Deleting the first of the two habits: its two logs go, the habit is
    not found any more. *)
Lemma deleteHabit_cascade_witness :
  let res := deleteHabit "h1" (worldOf twoHabits []) in
  logs (data (snd res)) = [ran "2024-01-05"] /\
  getHabit (data (snd res)) "h1" = None.
Proof.
  intros res.
  destruct (deleteHabit_cascade "h1" (worldOf twoHabits [])) as [_ H].
  destruct (H (habitOf daily None) eq_refl) as [Hl [_ [_ [Hn _]]]].
  split; [exact Hl|]. apply Hn.
  vm_compute. repeat constructor; simpl; intuition discriminate.
Defined.

(** An update that names another identifier: the habit is renamed and
    keeps its identifier. *)
Lemma updateHabit_keeps_id_witness :
  let res := updateHabit "h1" renamed (worldOf twoHabits []) in
  exists h', getHabit (data (snd res)) "h1" = Some h' /\
             h_id h' = "h1" /\ h_name h' = "Write".
Proof.
  intros res.
  destruct (updateHabit_keeps_id "h1" renamed (worldOf twoHabits [])) as [_ H].
  destruct (H (habitOf daily None) eq_refl) as [Hid [Hg _]].
  eexists. split; [exact Hg|]. split; [exact Hid | reflexivity].
Defined.

(** Archiving the first habit: it is found by its identifier and is not
    listed. *)
Lemma archiveHabit_soft_delete_witness :
  let res := archiveHabit "h1" (worldOf twoHabits []) in
  exists h', getHabit (data (snd res)) "h1" = Some h' /\ archived h' = true /\
             ~ In h' (getHabits (data (snd res)) false).
Proof.
  intros res.
  destruct (archiveHabit_soft_delete "h1" (worldOf twoHabits [])) as [_ H].
  destruct (H (habitOf daily None) eq_refl) as [Ha [Hg [Hn _]]].
  eexists. split; [exact Hg|]. split; [exact Ha | exact Hn].
Defined.

(** The first habit of a service has the order 1. *)
Lemma addHabit_goes_last_witness :
  let res := addHabit "Walk" None noPatch (worldOf DEFAULT_HABIT_DATA []) in
  exists h', habits (data (snd res)) = [h'] /\ order h' = 1.
Proof.
  intros res.
  assert (L : maxOrZero (map order (habits (data (worldOf DEFAULT_HABIT_DATA [])))) < 2 ^ 53)
    by (vm_compute; reflexivity).
  destruct (addHabit_goes_last "Walk" None noPatch (worldOf DEFAULT_HABIT_DATA []))
    as [h' [Hh [_ [_ [_ [H1 _]]]]]].
  destruct (H1 L) as [_ [_ [H _]]].
  exists h'. split; [exact Hh | apply H; reflexivity].
Defined.

(** The two habits in the other order. *)
Lemma reorderHabits_gives_the_order_witness :
  map h_id (getHabits (data (snd (reorderHabits ["h2"; "h1"] (worldOf twoHabits []))))
                      true) = ["h2"; "h1"].
Proof.
  assert (N : NoDup ["h2"; "h1"])
    by (repeat constructor; simpl; intuition discriminate).
  destruct (reorderHabits_gives_the_order ["h2"; "h1"] (worldOf twoHabits []) N)
    as [_ [_ [_ [_ H]]]].
  apply H.
  - vm_compute. repeat constructor; simpl; intuition discriminate.
  - apply perm_swap.
Defined.

(** Setting the completion of the first habit leaves the log of the
    second. *)
Lemma setHabitCompletion_upsert_witness :
  getLog (data (snd (setHabitCompletion "h1" "2024-01-07" false None
                       (worldOf twoHabits []))))
         "h2" "2024-01-05" = Some (ran "2024-01-05").
Proof.
  destruct (setHabitCompletion_upsert "h1" "2024-01-07" false None (worldOf twoHabits []))
    as [_ [_ [H _]]].
  rewrite H; [reflexivity|]. intros [E _]. discriminate.
Defined.

(** The three logs have three keys, and four after today has been checked
    off. *)
Lemma logs_one_per_habit_and_date_witness :
  NoDup (logKeys (data (snd (toggleHabit "h1" None (worldOf twoHabits []))))).
Proof.
  assert (N : NoDup (logKeys (data (worldOf twoHabits []))))
    by (vm_compute; repeat constructor; simpl; intuition discriminate).
  exact (proj1 (logs_one_per_habit_and_date "h1" (worldOf twoHabits []) N) None).
Defined.


(** Freezing 2024-01-09 and taking the freeze back. *)
Lemma addFreezeDay_then_remove_witness :
  let w := worldOf twoHabits [] in
  let w1 := snd (addFreezeDay "2024-01-09" None w) in
  let w2 := snd (removeFreezeDay "2024-01-09" w1) in
  isFrozen (data w1) "2024-01-09" = true /\
  freezeDays (data w2) = Some [createFreezeDay "2024-01-04" None].
Proof.
  intros w w1 w2.
  destruct (addFreezeDay_then_remove "2024-01-09" None w eq_refl) as [H1 [H2 _]].
  split; [exact H1 | exact H2].
Defined.

(** Deleting the category of the second habit detaches the habit. *)
Lemma deleteCategory_detaches_witness :
  let res := deleteCategory "c1" (worldOf twoHabits []) in
  habits (data (snd res)) = [habitOf daily None; set_categoryId None run] /\
  (forall h, In h (habits (data (snd res))) -> categoryId h <> Some "c1").
Proof.
  intros res.
  destruct (deleteCategory_detaches "c1" (worldOf twoHabits [])) as [_ H].
  destruct (H health eq_refl) as [_ [Hh [Hn _]]].
  split; [exact Hh | exact Hn].
Defined.

(** A second category without a colour given: it comes after the first and
    gets a colour of the palette other than the one in use. *)
Lemma addCategory_picks_a_free_colour_witness :
  let res := addCategory "Mind" None None (worldOf twoHabits []) in
  exists c', categories (data (snd res)) = Some [health; c'] /\
             c_order health < c_order c' /\
             In (c_color c') CATEGORY_COLORS /\
             ~ In (c_color c') ["#4CAF50"].
Proof.
  intros res.
  assert (L : maxOrZero (map c_order (orEmpty (categories (data (worldOf twoHabits []))))) < 2 ^ 53)
    by (vm_compute; reflexivity).
  destruct (addCategory_picks_a_free_colour "Mind" None None (worldOf twoHabits []))
    as [c' [Hc [_ [_ [_ [Hs [_ [_ [Hf _]]]]]]]]].
  destruct (Hs L) as [_ Hlt].
  destruct (Hf eq_refl) as [Hin Hfree].
  exists c'. split; [exact Hc|]. split; [apply Hlt; now left|]. split; [exact Hin|].
  apply Hfree. exists "#2196F3". split.
  - right. now left.
  - simpl. intuition discriminate.
Defined.


(** On a host eight hours behind UTC, the streak of two days of the first
    habit is at most its two completions. *)
Lemma current_streak_bounds_witness :
  0 <= 2 <= 3651 /\ 2 <= getTotalCompletions twoHabits "h1".
Proof.
  assert (H : Host.getCurrentStreak (Host.fixedZone (-28800000)) 100 twoHabits monday "h1"
              = Some 2) by (vm_compute; reflexivity).
  exact (current_streak_bounds (-28800000) 100 twoHabits monday "h1" 2 (or_introl H)).
Defined.

(** Seven days in a row and no freeze day: the two streaks are the same. *)
Lemma streaks_agree_without_freeze_days_witness :
  getCurrentStreakWithFreeze 100 sevenDays monday "h1" =
  getCurrentStreak 100 sevenDays monday "h1".
Proof.
  apply (streaks_agree_without_freeze_days 100 sevenDays monday "h1").
  reflexivity.
Defined.


(** Both habits are due on Monday 2024-01-08 and none is done: the quick
    toggle checks the first off. *)
Lemma showQuickToggle_completes_first_due_witness :
  let res := showQuickToggle (worldOf twoHabits []) in
  fst res = Returned tt /\
  completedValue (data (snd res)) "h1" "2024-01-08" = true /\
  completedValue (data (snd res)) "h2" "2024-01-08" = false.
Proof.
  intros res.
  destruct (showQuickToggle_completes_first_due (worldOf twoHabits []))
    as [Hr [_ [H _]]].
  destruct (H (habitOf daily None)) as [_ [Hc [Ho _]]];
    [vm_compute; reflexivity|].
  split; [exact Hr|]. split; [exact Hc|].
  unfold completedValue. unfold res.
  rewrite (Ho "h2" "2024-01-08"); [reflexivity|].
  intros [E _]. discriminate.
Defined.

(** Seven days in a row: the week badge is the badge awarded. *)
Lemma checkAndAwardBadges_awards_reached_witness :
  map b_type [weekBadge] = [week] /\
  orEmpty (badges (data awarded)) = [weekBadge].
Proof.
  destruct (checkAndAwardBadges_awards_reached 100 "h1" (worldOf sevenDays []) 7
              [weekBadge] awarded) as [H1 [_ [H2 _]]].
  - vm_compute. reflexivity.
  - vm_compute. reflexivity.
  - split; [exact H1 | exact H2].
Defined.

(** [getLogs()] without a filter: the logs, all of plain dates, come by
    falling date, and the logs of the service are left in that order. *)
Lemma getLogs_selects_and_sorts_witness :
  StronglySorted (fun a b => str_le (l_date b) (l_date a) = true)
                 (getLogs twoHabits None None None) /\
  logs (data (getLogs_effect None None None (worldOf twoHabits []))) =
  [done "2024-01-07"; done "2024-01-06"; ran "2024-01-05"].
Proof.
  assert (P : forall l, In l (logs twoHabits) -> isPlainDate (l_date l) = true).
  { intros l Hin. vm_compute in Hin.
    destruct Hin as [<-|[<-|[<-|[]]]]; vm_compute; reflexivity. }
  destruct (getLogs_selects_and_sorts twoHabits None None None) as [_ [_ [_ [Hs H]]]].
  split; [exact (Hs P)|].
  rewrite (H (worldOf twoHabits []) eq_refl). vm_compute. reflexivity.
Defined.

(** One freeze day in January 2024, on a host eight hours behind UTC. *)
Lemma getFreezeDaysThisMonth_counts_witness :
  getFreezeDaysThisMonth (Host.fixedZone (-28800000)) twoHabits monday = 1.
Proof.
  assert (Y1 : Host.getFullYear (Host.fixedZone (-28800000)) monday = 2024)
    by (vm_compute; reflexivity).
  assert (Y2 : Host.getUTCFullYear fourth = 2024) by (vm_compute; reflexivity).
  rewrite (getFreezeDaysThisMonth_counts (Host.fixedZone (-28800000)) twoHabits monday
             [fourth]).
  - vm_compute. reflexivity.
  - rewrite Y1. lia.
  - intros t [<-|[]]. rewrite Y2. lia.
  - vm_compute. reflexivity.
Defined.

(** Today's date string read back on a host one hour ahead of UTC: the
    local midnight of 2024-01-08, whose date string is the day before. *)
Lemma parseDate_formatDate_witness :
  parseDate (Host.fixedZone 3600000) strictHost (formatDate monday) = Some 1704668400000 /\
  formatDate 1704668400000 = "2024-01-07".
Proof.
  assert (Y : 0 <= Host.getUTCFullYear monday <= 9999) by (vm_compute; split; discriminate).
  assert (O : Z.abs (Host.atLocalTime (Host.fixedZone 3600000) (dayNumber monday * msPerDay))
              < msPerDay) by (vm_compute; reflexivity).
  destruct (parseDate_formatDate (Host.fixedZone 3600000) strictHost monday Y O) as [H _].
  split; [rewrite H; vm_compute; reflexivity | vm_compute; reflexivity].
Defined.

(** An update that names another identifier: the category is recoloured
    and keeps its identifier. *)
Lemma updateCategory_keeps_id_witness :
  let res := updateCategory "c1" recoloured (worldOf twoHabits []) in
  exists c', getCategory (data (snd res)) "c1" = Some c' /\
             c_id c' = "c1" /\ c_color c' = "#795548".
Proof.
  intros res.
  destruct (updateCategory_keeps_id "c1" recoloured (worldOf twoHabits [])) as [_ H].
  destruct (H health eq_refl) as [Hid [_ [Hg _]]].
  eexists. split; [exact Hg|]. split; [exact Hid | reflexivity].
Defined.

(** The week badge of the first habit outlives the habit. *)
Lemma deleteHabit_keeps_badges_witness :
  let d' := data (snd (deleteHabit "h1" (worldOf twoHabits []))) in
  badges d' = Some [weekBadge] /\
  exists m, In (weekBadge, None, Some m) (getAllBadgesWithDetails d') /\
            m_type m = week.
Proof.
  intros d'.
  destruct (deleteHabit_keeps_badges "h1" (worldOf twoHabits [])) as [Hb [H _]].
  split; [exact Hb|].
  apply (H (habitOf daily None) eq_refl).
  - vm_compute. repeat constructor; simpl; intuition discriminate.
  - now left.
  - reflexivity.
Defined.

(** After the category is deleted no habit is listed under it. *)
Lemma deleteCategory_uncategorizes_witness :
  let d' := data (snd (deleteCategory "c1" (worldOf twoHabits []))) in
  getHabitsByCategory d' (Some "c1") = [] /\
  In (set_categoryId None run) (getHabitsByCategory d' None).
Proof.
  intros d'.
  destruct (deleteCategory_uncategorizes "c1" (worldOf twoHabits []) health eq_refl)
    as [H1 [H2 _]].
  split; [exact H1|]. apply H2. vm_compute. now left.
Defined.

(** Two completions: the longest streak is 1 at least. *)
Lemma getLongestStreak_bounds_witness :
  1 <= getLongestStreak strictHost twoHabits "h1".
Proof.
  destruct (getLongestStreak_bounds strictHost twoHabits "h1") as [_ [_ H]].
  apply H. vm_compute. discriminate.
Defined.

(** The first habit, done on the two days before today, on a host eight
    hours behind UTC: a streak of 2, and of 3 once today is checked off. *)
Lemma toggle_today_extends_streak_witness :
  let z := Host.fixedZone (-28800000) in
  let w := worldOf twoHabits [] in
  let w1 := snd (toggleHabit "h1" None w) in
  exists n,
    (forall fuel, (7 * 3652 <= fuel)%nat ->
       Host.getCurrentStreak z fuel (data w) (clock w) "h1" = Some n) /\
    (forall fuel, (7 * 3652 + 1 <= fuel)%nat ->
       Host.getCurrentStreak z fuel (data w1) (clock w) "h1" = Some (Z.min (n + 1) 3651)).
Proof.
  assert (N : forall l, In l (logs (data (worldOf twoHabits []))) ->
                        l_habitId l = "h1" ->
                        l_date l = formatDate (clock (worldOf twoHabits [])) ->
                        completed l = false).
  { intros l Hin _ Hd. vm_compute in Hin.
    destruct Hin as [<-|[<-|[<-|[]]]]; vm_compute in Hd; discriminate. }
  assert (I : "h1" <> "") by discriminate.
  exact (toggle_today_extends_streak (-28800000) "h1" (habitOf daily None)
           (worldOf twoHabits []) I eq_refl eq_refl N).
Defined.

(** The history of the specification's example: the completed days are
    2024-01-01 to 03 and 2024-01-05 to 07, the longest streak is 3, and no
    more than three consecutive days are among them. *)
Lemma C6_longest_streak_witness :
  let days := [19723; 19724; 19725; 19727; 19728; 19729] in
  getLongestStreak strictHost gapSnapshot "h1" = 3 /\
  (exists a, consecutive days a 3) /\
  (forall a k, consecutive days a k -> k <= 3).
Proof.
  intros days.
  assert (I : "h1" <> "") by discriminate.
  assert (P : Permutation (completedDates gapSnapshot "h1") (map isoDate days))
    by (vm_compute; apply Permutation_refl).
  assert (Y : forall n, In n days -> plainDay n).
  { intros n Hn. unfold plainDay.
    repeat (destruct Hn as [<-|Hn]; [vm_compute; split; discriminate|]).
    destruct Hn. }
  assert (S : StronglySorted Z.le days) by (repeat constructor; lia).
  assert (N : NoDup days) by (repeat constructor; simpl; lia).
  assert (E : longestRun (fun a b => b =? a + 1) days = 3) by (vm_compute; reflexivity).
  destruct (C6_longest_streak strictHost gapSnapshot "h1" days I P Y S) as [H1 [H2 _]].
  rewrite E in H1. rewrite H1 in H2. split; [exact H1 | exact (H2 N)].
Defined.
